(** * Vulkan resource lifecycle of the Cardboard XR plugin for Unity

  A shallow embedding of
    sdk/unity/xr_unity_plugin/vulkan/vulkan_renderer.cc
    sdk/unity/xr_unity_plugin/vulkan/vulkan_widgets_renderer.cc
  and the properties of the swapchain interceptor, the frame target
  manager ([VulkanRenderer]) and the widget overlay renderer
  ([VulkanWidgetsRenderer]).

  Conventions.
  - Vulkan handles, [VkResult] codes and C [int]s are [Z]; the wrap-around
    of 32-bit arithmetic and casts is written out ([wrap_int], [to_uint32]).
  - [float] is IEEE binary32, computed with the Standard Library's
    [SpecFloat] operations at precision 24 and maximal exponent 128.
  - [std::vector] is [list]; [operator[]] outside the bounds is undefined
    behaviour and is reported as the fault [OutOfBounds].  So are a copy
    through a pointer that was never set ([Uninitialised]) and a read
    through a texture pointer behind which the host keeps no image
    ([InvalidPointer]).
  - The graphics driver is a state threaded through every call: it hands
    out fresh handles, remembers which objects are alive and records every
    entry point that was called. *)

From Stdlib Require Import ZArith QArith Floats.SpecFloat.
From stdpp Require Import gmap strings list.

Local Open Scope Z_scope.

(** ** 32-bit integers and binary32 floats *)

Module Int.

(** Two's complement wrap-around of a C [int]. *)
Definition wrap_int (z : Z) : Z := (z + 2 ^ 31) mod 2 ^ 32 - 2 ^ 31.

(** [static_cast<uint32_t>]. *)
Definition to_uint32 (z : Z) : Z := z mod 2 ^ 32.

Definition in_int (z : Z) : Prop := - 2 ^ 31 <= z < 2 ^ 31.

Definition sub (a b : Z) : Z := wrap_int (a - b).

End Int.

Module F32.

Definition prec : Z := 24.
Definition emax : Z := 128.

Abbreviation float := spec_float (only parsing).

(** Conversion of an integer to [float], rounding to nearest even. *)
Definition of_int (z : Z) : float := binary_normalize prec emax z 0 false.

Definition add : float -> float -> float := SFadd prec emax.
Definition sub : float -> float -> float := SFsub prec emax.
Definition mul : float -> float -> float := SFmul prec emax.
Definition div : float -> float -> float := SFdiv prec emax.
Definition leb : float -> float -> bool := SFleb.

(** The exact rational value of a finite float. *)
Definition to_Q (f : float) : option Q :=
  match f with
  | S754_zero _ => Some 0%Q
  | S754_finite s m e =>
      let mag := if 0 <=? e then inject_Z (Z.pos m * 2 ^ e)
                 else (Z.pos m # Z.to_pos (2 ^ (- e)))%Q in
      Some (if s then Qopp mag else mag)
  | S754_infinity _ | S754_nan => None
  end.

(** The value of a float, for the finite ones. *)
Definition value (f : float) : Q := default 0%Q (to_Q f).

Definition is_finite (f : float) : bool :=
  match f with
  | S754_zero _ | S754_finite _ _ _ => true
  | S754_infinity _ | S754_nan => false
  end.

End F32.

(** ** The graphics driver *)

Module Vk.

Abbreviation Handle := Z (only parsing).
Abbreviation VkResult := Z (only parsing).

Definition VK_NULL_HANDLE : Handle := 0.
Definition VK_SUCCESS : VkResult := 0.
Definition VK_ERROR_OUT_OF_DEVICE_MEMORY : VkResult := -2.
Definition VK_ERROR_OUT_OF_DATE_KHR : VkResult := -1000001004.

Inductive VkFormat := VK_FORMAT_R8G8B8A8_SRGB | VK_FORMAT_ETC2_R8G8B8A8_UNORM_BLOCK.

Inductive VkBufferUsage := VK_BUFFER_USAGE_VERTEX_BUFFER_BIT | VK_BUFFER_USAGE_INDEX_BUFFER_BIT.

(** [VkMemoryPropertyFlagBits]. *)
Definition VK_MEMORY_PROPERTY_HOST_VISIBLE_BIT : Z := 2.
Definition VK_MEMORY_PROPERTY_HOST_COHERENT_BIT : Z := 4.

(** A vertex of a widget quad: position and texture coordinates. *)
Record Vertex := mkVertex { pos_x : spec_float; pos_y : spec_float; tex_u : spec_float; tex_v : spec_float }.

(** What [memcpy] puts into mapped device memory. *)
Inductive Payload :=
| Vertices (vs : list Vertex)
| Indices (ixs : list Z).

(** The objects the driver keeps alive, with what they were created from. *)
Inductive VkObject :=
| Swapchain
| ImageView (image : Handle) (format : VkFormat)
| RenderPass
| Framebuffer (render_pass view : Handle) (width height : Z)
| DescriptorSetLayout
| PipelineLayout (set_layout : Handle)
| Sampler
| Buffer (size : Z) (usage : VkBufferUsage)
| DeviceMemory (size : Z) (memory_type : Z)
| DescriptorPool (max_sets descriptor_count : Z)
| DescriptorSet (pool : Handle)
| ShaderModule
| Pipeline (layout render_pass : Handle).

Record VkViewport := mkViewport { vp_x : spec_float; vp_y : spec_float; vp_width : spec_float; vp_height : spec_float }.

Record VkRect2D := mkRect { offset_x : Z; offset_y : Z; extent_width : Z; extent_height : Z }.

(** The entry points the plugin calls, with the arguments that matter and,
    for the creating ones, the result code and the handle written back. *)
Inductive VkCall :=
| vkCreateSwapchainKHR (result : VkResult) (swapchain : Handle)
| vkAcquireNextImageKHR (result : VkResult) (swapchain : Handle) (index : nat)
| vkGetSwapchainImagesKHR (result : VkResult) (swapchain : Handle) (array : bool)
| vkCreateImageView (result : VkResult) (image : Handle) (format : VkFormat) (view : Handle)
| vkDestroyImageView (view : Handle)
| vkCreateRenderPass (result : VkResult) (render_pass : Handle)
| vkDestroyRenderPass (render_pass : Handle)
| vkCreateFramebuffer (result : VkResult) (render_pass view : Handle) (width height : Z) (framebuffer : Handle)
| vkDestroyFramebuffer (framebuffer : Handle)
| vkCmdBeginRenderPass (cb render_pass framebuffer : Handle) (width height : Z)
| vkCmdEndRenderPass (cb : Handle)
| vkCreateDescriptorSetLayout (result : VkResult) (layout : Handle)
| vkDestroyDescriptorSetLayout (layout : Handle)
| vkCreatePipelineLayout (result : VkResult) (set_layout layout : Handle)
| vkDestroyPipelineLayout (layout : Handle)
| vkGetPhysicalDeviceProperties
| vkCreateSampler (result : VkResult) (sampler : Handle)
| vkDestroySampler (sampler : Handle)
| vkCreateBuffer (result : VkResult) (size : Z) (usage : VkBufferUsage) (buffer : Handle)
| vkDestroyBuffer (buffer : Handle)
| vkGetBufferMemoryRequirements (buffer : Handle)
| vkGetPhysicalDeviceMemoryProperties
| vkAllocateMemory (result : VkResult) (size memory_type : Z) (memory : Handle)
| vkFreeMemory (memory : Handle)
| vkBindBufferMemory (buffer memory : Handle)
| vkMapMemory (result : VkResult) (memory : Handle) (size : Z)
| memcpy (memory : Handle) (data : Payload)
| vkUnmapMemory (memory : Handle)
| vkCreateDescriptorPool (result : VkResult) (max_sets descriptor_count : Z) (pool : Handle)
| vkDestroyDescriptorPool (pool : Handle)
| vkAllocateDescriptorSets (result : VkResult) (pool : Handle) (count : Z) (sets : list Handle)
| vkUpdateDescriptorSets (set sampler view : Handle)
| vkCreateShaderModule (result : VkResult) (module : Handle)
| vkDestroyShaderModule (module : Handle)
| vkCreateGraphicsPipelines (result : VkResult) (layout render_pass pipeline : Handle)
| vkDestroyPipeline (pipeline : Handle)
| vkCmdBindPipeline (cb pipeline : Handle)
| vkCmdSetViewport (cb : Handle) (viewport : VkViewport)
| vkCmdSetScissor (cb : Handle) (scissor : VkRect2D)
| vkCmdBindVertexBuffers (cb buffer : Handle) (offset : Z)
| vkCmdBindIndexBuffer (cb buffer : Handle)
| vkCmdBindDescriptorSets (cb layout set : Handle)
| vkCmdDrawIndexed (cb : Handle) (index_count instance_count first_index vertex_offset first_instance : Z).

(** The driver.  [pending] lists the result codes of the coming fallible
    calls other than [vkMapMemory], in order, and [map_results] those of
    the coming calls of [vkMapMemory]; once a list is used up every such
    call succeeds.  A call that fails creates nothing and leaves its output
    argument as it was.  [calls] has the latest call first; [errors] is
    what [CARDBOARD_LOGE] printed, latest first.  [host_images] is the
    memory of the host: the [VkImage] it keeps at each address it passes
    as the texture of a widget. *)
Record Driver := mkDriver {
  next_handle : Z;
  pending : list Z;
  objects : gmap Z VkObject;
  calls : list VkCall;
  errors : list string;
  memory_types : list Z;
  memory_type_bits : Z;
  swapchain_images : list Z;
  map_results : list Z;
  host_images : gmap Z Z;
}.

Definition emit (c : VkCall) (d : Driver) : Driver :=
  mkDriver (next_handle d) (pending d) (objects d) (c :: calls d) (errors d)
           (memory_types d) (memory_type_bits d) (swapchain_images d)
           (map_results d) (host_images d).

Definition log_error (msg : string) (d : Driver) : Driver :=
  mkDriver (next_handle d) (pending d) (objects d) (calls d) (msg :: errors d)
           (memory_types d) (memory_type_bits d) (swapchain_images d)
           (map_results d) (host_images d).

(** The result code of the next fallible call. *)
Definition next_result (d : Driver) : VkResult * Driver :=
  (hd VK_SUCCESS (pending d),
   mkDriver (next_handle d) (tl (pending d)) (objects d) (calls d) (errors d)
            (memory_types d) (memory_type_bits d) (swapchain_images d)
           (map_results d) (host_images d)).

Definition succeeded (r : VkResult) : bool := r =? VK_SUCCESS.

(** A creating call with result [r]: on success a fresh handle names the
    new object, otherwise the output argument [out] keeps its value. *)
Definition create (r : VkResult) (obj : VkObject) (out : Handle) (d : Driver) : Handle * Driver :=
  (if succeeded r then next_handle d else out,
   mkDriver (if succeeded r then next_handle d + 1 else next_handle d)
            (pending d)
            (if succeeded r then <[next_handle d := obj]> (objects d) else objects d)
            (calls d) (errors d) (memory_types d) (memory_type_bits d) (swapchain_images d)
           (map_results d) (host_images d)).

(** A fallible creating entry point: the driver picks the result, creates
    the object and the call is recorded. *)
Definition creating (obj : VkObject) (call : VkResult -> Handle -> VkCall) (out : Handle)
    (d : Driver) : (VkResult * Handle) * Driver :=
  let '(r, d1) := next_result d in
  let '(h, d2) := create r obj out d1 in
  ((r, h), emit (call r h) d2).

(** A destroying call: the object is gone.  Destroying [VK_NULL_HANDLE]
    does nothing, no object has that name. *)
Definition destroy (h : Handle) (d : Driver) : Driver :=
  mkDriver (next_handle d) (pending d) (delete h (objects d)) (calls d) (errors d)
           (memory_types d) (memory_type_bits d) (swapchain_images d)
           (map_results d) (host_images d).

Definition destroying (call : Handle -> VkCall) (h : Handle) (d : Driver) : Driver :=
  emit (call h) (destroy h d).

(** [n] objects created at once ([vkAllocateDescriptorSets]). *)
Fixpoint create_many (r : VkResult) (n : nat) (obj : VkObject) (d : Driver) : list Handle * Driver :=
  match n with
  | O => ([], d)
  | S n' =>
      let '(h, d1) := create r obj VK_NULL_HANDLE d in
      let '(hs, d2) := create_many r n' obj d1 in
      (h :: hs, d2)
  end.

(** [vkAllocateDescriptorSets]: [count] sets from [pool], written to the
    array [out] when the call succeeds. *)
Definition allocating (pool : Handle) (count : nat) (out : list Handle) (d : Driver)
    : (VkResult * list Handle) * Driver :=
  let '(r, d1) := next_result d in
  let '(hs, d2) := create_many r count (DescriptorSet pool) d1 in
  let sets := if succeeded r then hs else out in
  ((r, sets), emit (vkAllocateDescriptorSets r pool (Z.of_nat count) sets) d2).

(** [vkMapMemory (..., &data)]: on success [data] points to the mapped
    memory; the boolean tells whether [data] was written. *)
Definition mapping (memory : Handle) (size : Z) (d : Driver) : (VkResult * bool) * Driver :=
  let r := hd VK_SUCCESS (map_results d) in
  ((r, succeeded r),
   emit (vkMapMemory r memory size)
     (mkDriver (next_handle d) (pending d) (objects d) (calls d) (errors d)
        (memory_types d) (memory_type_bits d) (swapchain_images d)
        (tl (map_results d)) (host_images d))).

(** [vkGetSwapchainImagesKHR (..., &count, nullptr)]: on success the number
    of images of the swapchain is written to [count]. *)
Definition counting_images (swapchain : Handle) (count : nat) (d : Driver)
    : (VkResult * nat) * Driver :=
  let '(r, d1) := next_result d in
  ((r, if succeeded r then length (swapchain_images d) else count),
   emit (vkGetSwapchainImagesKHR r swapchain false) d1).

(** [vkGetSwapchainImagesKHR (..., &count, array)], [array] having [count]
    entries: on success the images are written to the array, as many as
    fit, and their number to [count]; with any other result nothing is
    written. *)
Definition fetching_images (swapchain : Handle) (count : nat) (array : list Handle)
    (d : Driver) : (VkResult * (nat * list Handle)) * Driver :=
  let '(r, d1) := next_result d in
  let written := take count (swapchain_images d) in
  ((r, if succeeded r
       then (length written, written ++ drop (length written) array)
       else (count, array)),
   emit (vkGetSwapchainImagesKHR r swapchain true) d1).

Definition set_of (pool : Handle) (obj : VkObject) : bool :=
  match obj with
  | DescriptorSet p => p =? pool
  | _ => false
  end.

(** [vkDestroyDescriptorPool]: the sets of the pool go with it. *)
Definition destroying_pool (pool : Handle) (d : Driver) : Driver :=
  emit (vkDestroyDescriptorPool pool)
    (mkDriver (next_handle d) (pending d)
       (filter (fun kv => set_of pool (snd kv) = false)
               (delete pool (objects d)))
       (calls d) (errors d) (memory_types d) (memory_type_bits d) (swapchain_images d)
           (map_results d) (host_images d)).

(** *** Undefined behaviour and the monad of plugin code *)

Inductive Fault :=
| OutOfBounds (vector : string) (index size : nat)
| Uninitialised (variable : string)
| InvalidPointer (what : string).

Inductive Outcome (A : Type) :=
| Ok (a : A)
| Undefined (f : Fault).
Arguments Ok {A} a.
Arguments Undefined {A} f.

Definition VK (A : Type) : Type := Driver -> Outcome (A * Driver).

Definition ret {A} (a : A) : VK A := fun d => Ok (a, d).

Definition bind {A B} (m : VK A) (k : A -> VK B) : VK B :=
  fun d => match m d with
           | Ok (a, d') => k a d'
           | Undefined f => Undefined f
           end.

(** A driver call: it always returns. *)
Definition drv {A} (f : Driver -> A * Driver) : VK A := fun d => Ok (f d).

Definition drv_ (f : Driver -> Driver) : VK unit := fun d => Ok (tt, f d).

(** The macro [CALL_VK]: a result other than [VK_SUCCESS] is logged and
    execution goes on. *)
Definition log_unless (ok : bool) (msg : string) (d : Driver) : Driver :=
  mkDriver (next_handle d) (pending d) (objects d) (calls d)
           (if ok then errors d else msg :: errors d)
           (memory_types d) (memory_type_bits d) (swapchain_images d)
           (map_results d) (host_images d).

Definition CALL_VK {A} (func : Driver -> (VkResult * A) * Driver) : VK A :=
  fun d => let '((vkResult, a), d1) := func d in
           Ok (a, log_unless (succeeded vkResult) "Vulkan error." d1).

(** [v[i]], read. *)
Definition at_ {A} (name : string) (v : list A) (i : nat) : VK A :=
  fun d => match v !! i with
           | Some x => Ok (x, d)
           | None => Undefined (OutOfBounds name i (length v))
           end.

(** [v[i] = x]. *)
Definition set_at {A} (name : string) (v : list A) (i : nat) (x : A) : VK (list A) :=
  fun d => if decide (i < length v)%nat
           then Ok (<[i := x]> v, d)
           else Undefined (OutOfBounds name i (length v)).

(** [memcpy (data, ...)], [data] being the local that [vkMapMemory] sets:
    when the mapping failed the pointer was never given a value. *)
Definition memcpy_through (mapped : bool) (memory : Handle) (payload : Payload) : VK unit :=
  fun d => if mapped then Ok (tt, emit (memcpy memory payload) d)
           else Undefined (Uninitialised "data").

(** [*reinterpret_cast<VkImage*> (texture)]: what the host keeps at that
    address.  Behind a null or a dangling pointer there is nothing to
    read. *)
Definition image_at (texture : Z) : VK Handle :=
  fun d => match (if texture =? 0 then None else host_images d !! texture) with
           | Some image => Ok (image, d)
           | None => Undefined (InvalidPointer "texture")
           end.

(** [for (uint32_t i = from; i < from + n; i++) body(i)], threading [s]. *)
Fixpoint for_ {S} (n : nat) (from : nat) (body : nat -> S -> VK S) (s : S) : VK S :=
  match n with
  | O => ret s
  | S n' => bind (body from s) (for_ n' (Datatypes.S from) body)
  end.

End Vk.

Export Vk.

Declare Scope vk_scope.
Delimit Scope vk_scope with vk.
Notation "'let*' x := m 'in' k" := (Vk.bind m (fun x => k))
(at level 10, x name, m at level 100, k at level 200, only parsing) : vk_scope.
Notation "'let*' ' p := m 'in' k" := (Vk.bind m (fun x => let 'p := x in k))
(at level 10, p pattern, m at level 100, k at level 200, only parsing) : vk_scope.
Notation "m ;;; k" := (Vk.bind m (fun _ => k))
(at level 100, k at level 200, right associativity, only parsing) : vk_scope.
Local Open Scope vk_scope.

(** ** The parameters of a frame (unity/xr_unity_plugin/renderer.h)

    The header is outside the two files verified here; the records have
    the fields these files read, all of them [int] but [texture], which is
    the address of the widget's [VkImage]. *)

Module Renderer.

Record ScreenParams := mkScreenParams {
  width : Z;
  height : Z;
  viewport_x : Z;
  viewport_y : Z;
  viewport_width : Z;
  viewport_height : Z;
}.

Module Widget.

Record WidgetParams := mkWidgetParams {
  x : Z;
  y : Z;
  width : Z;
  height : Z;
  texture : Z;
}.

End Widget.

End Renderer.

(** ** Swapchain interceptor (vulkan_renderer.cc, lines 32-90) *)

Module Interceptor.

Inductive HookName := CreateSwapchainHook | AcquireNextImageHook.

(** A function address ([PFN_vkVoidFunction]): a function of the host, or
    [&Hook_vkCreateSwapchainKHR] / [&Hook_vkAcquireNextImageKHR]. *)
Inductive PFN_vkVoidFunction :=
| HostFunction (address : Z)
| AddressOf (hook : HookName).

(** The file-scope variables. *)
Record Globals := mkGlobals {
  Orig_GetInstanceProcAddr : Z -> string -> Z;
  Orig_vkCreateSwapchainKHR : Z;
  Orig_vkAcquireNextImageKHR : Z;
  cached_swapchain : Z;
  image_index : nat;
}.

(** [strcmp], up to the sign of its result. *)
Definition strcmp (a b : string) : Z :=
  match String.compare a b with
  | Eq => 0
  | Lt => -1
  | Gt => 1
  end.

(** The driver's [vkAcquireNextImageKHR]: on success it writes the index
    [granted] of the image the presentation engine hands out. *)
Definition acquire (granted : nat) (swapchain : Z) (out : nat) (d : Driver) : (VkResult * nat) * Driver :=
  let '(r, d1) := next_result d in
  let index := if succeeded r then granted else out in
  ((r, index), emit (vkAcquireNextImageKHR r swapchain index) d1).

(** [Hook_vkCreateSwapchainKHR] returns [void]; [pSwapchain] is what the
    caller's [*pSwapchain] holds before the call, the result carries what it
    holds afterwards. *)
Definition Hook_vkCreateSwapchainKHR (g : Globals) (pSwapchain : Z) (d : Driver)
    : (unit * Globals * Z) * Driver :=
  let '((_, swapchain), d1) := creating Swapchain vkCreateSwapchainKHR pSwapchain d in
  ((tt,
    mkGlobals (Orig_GetInstanceProcAddr g) (Orig_vkCreateSwapchainKHR g)
              (Orig_vkAcquireNextImageKHR g) swapchain (image_index g),
    swapchain), d1).

(** [Hook_vkAcquireNextImageKHR] returns [void] as well. *)
Definition Hook_vkAcquireNextImageKHR (g : Globals) (granted : nat) (swapchain : Z)
    (pImageIndex : nat) (d : Driver) : (unit * Globals * nat) * Driver :=
  let '((_, index), d1) := acquire granted swapchain pImageIndex d in
  ((tt,
    mkGlobals (Orig_GetInstanceProcAddr g) (Orig_vkCreateSwapchainKHR g)
              (Orig_vkAcquireNextImageKHR g) (cached_swapchain g) index,
    index), d1).

Definition MyGetInstanceProcAddr (g : Globals) (instance : Z) (pName : string)
    : PFN_vkVoidFunction * Globals :=
  if strcmp pName "vkCreateSwapchainKHR" =? 0 then
    (AddressOf CreateSwapchainHook,
     mkGlobals (Orig_GetInstanceProcAddr g) (Orig_GetInstanceProcAddr g instance pName)
               (Orig_vkAcquireNextImageKHR g) (cached_swapchain g) (image_index g))
  else if strcmp pName "vkAcquireNextImageKHR" =? 0 then
    (AddressOf AcquireNextImageHook,
     mkGlobals (Orig_GetInstanceProcAddr g) (Orig_vkCreateSwapchainKHR g)
               (Orig_GetInstanceProcAddr g instance pName) (cached_swapchain g) (image_index g))
  else
    (HostFunction (Orig_GetInstanceProcAddr g instance pName), g).

(** [InterceptVulkanInitialization]: the resolver the host will use from
    now on is [MyGetInstanceProcAddr]. *)
Definition InterceptVulkanInitialization (g : Globals) (GetInstanceProcAddr : Z -> string -> Z)
    : Globals :=
  mkGlobals GetInstanceProcAddr (Orig_vkCreateSwapchainKHR g)
            (Orig_vkAcquireNextImageKHR g) (cached_swapchain g) (image_index g).

End Interceptor.

(** ** Frame target manager (vulkan_renderer.cc, class VulkanRenderer) *)

Module FrameTarget.

Import Interceptor Renderer.

Record VulkanRenderer := mkVulkanRenderer {
  current_rendering_width_ : Z;
  current_rendering_height_ : Z;
  vulkan_interface_ : bool;
  current_command_buffer_ : Z;
  swapchain_images_ : list Z;
  swapchain_image_count_ : nat;
  frames_to_update_count_ : nat;
  render_pass_ : Z;
  swapchain_views_ : list Z;
  frame_buffers_ : list Z;
}.

(** The members the constructor does not initialise hold whatever the
    memory held. *)
Record Indeterminate := mkIndeterminate {
  some_command_buffer : Z;
  some_image_count : nat;
  some_frames_to_update : nat;
  some_render_pass : Z;
}.

(** Lines 128-156: one image view per swapchain image. *)
Definition create_views (images : list Z) (r : VulkanRenderer) : VK VulkanRenderer :=
  for_ (length images) 0 (fun i r =>
    let* image := at_ "swapchain_images_" (swapchain_images_ r) i in
    let* old := at_ "swapchain_views_" (swapchain_views_ r) i in
    let* '(_, view) := drv (creating (ImageView image VK_FORMAT_R8G8B8A8_SRGB)
                             (fun res => vkCreateImageView res image VK_FORMAT_R8G8B8A8_SRGB) old) in
    let* views := set_at "swapchain_views_" (swapchain_views_ r) i view in
    ret (mkVulkanRenderer (current_rendering_width_ r) (current_rendering_height_ r)
           (vulkan_interface_ r) (current_command_buffer_ r) (swapchain_images_ r)
           (swapchain_image_count_ r) (frames_to_update_count_ r) (render_pass_ r)
           views (frame_buffers_ r))) r.

(** The constructor; [available] tells whether the host exposes
    [IUnityGraphicsVulkanV2].  The results of the two calls of
    [vkGetSwapchainImagesKHR] are not looked at: when the first one fails
    the three vectors are resized to what [swapchain_image_count_] held. *)
Definition VulkanRenderer_ctor (any : Indeterminate) (available : bool) (g : Globals)
    : VK VulkanRenderer :=
  if negb available then
    ret (mkVulkanRenderer 0 0 false (some_command_buffer any) [] (some_image_count any)
           (some_frames_to_update any) (some_render_pass any) [] [])
  else
    let* '(_, size) := drv (counting_images (cached_swapchain g) (some_image_count any)) in
    let* '(_, (count, images)) :=
      drv (fetching_images (cached_swapchain g) size (resize size VK_NULL_HANDLE [])) in
    let* r := create_views images
                (mkVulkanRenderer 0 0 true (some_command_buffer any) images count
                   (some_frames_to_update any) (some_render_pass any)
                   (resize size VK_NULL_HANDLE []) (resize size VK_NULL_HANDLE [])) in
    let* '(_, render_pass) := drv (creating RenderPass vkCreateRenderPass (render_pass_ r)) in
    ret (mkVulkanRenderer (current_rendering_width_ r) (current_rendering_height_ r)
           (vulkan_interface_ r) (current_command_buffer_ r) (swapchain_images_ r)
           (swapchain_image_count_ r) (frames_to_update_count_ r) render_pass
           (swapchain_views_ r) (frame_buffers_ r)).

(** Lines 317-322. *)
Definition dimensions_changed (r : VulkanRenderer) (screen_params : ScreenParams) : bool :=
  negb (viewport_width screen_params =? current_rendering_width_ r)
  || negb (viewport_height screen_params =? current_rendering_height_ r).

Definition note_dimensions (r : VulkanRenderer) (screen_params : ScreenParams)
    (command_buffer : Z) : VulkanRenderer :=
  if dimensions_changed r screen_params then
    mkVulkanRenderer (viewport_width screen_params) (viewport_height screen_params)
      (vulkan_interface_ r) command_buffer (swapchain_images_ r)
      (swapchain_image_count_ r) (swapchain_image_count_ r) (render_pass_ r)
      (swapchain_views_ r) (frame_buffers_ r)
  else
    mkVulkanRenderer (current_rendering_width_ r) (current_rendering_height_ r)
      (vulkan_interface_ r) command_buffer (swapchain_images_ r)
      (swapchain_image_count_ r) (frames_to_update_count_ r) (render_pass_ r)
      (swapchain_views_ r) (frame_buffers_ r).

(** Lines 324-346: the framebuffer of the current image is rebuilt. *)
Definition update_frame_buffer (g : Globals) (r : VulkanRenderer) (screen_params : ScreenParams)
    : VK VulkanRenderer :=
  let* old := at_ "frame_buffers_" (frame_buffers_ r) (image_index g) in
  (if negb (old =? VK_NULL_HANDLE) then drv_ (destroying vkDestroyFramebuffer old) else ret tt) ;;;
  let* view := at_ "swapchain_views_" (swapchain_views_ r) (image_index g) in
  let w := Int.to_uint32 (width screen_params) in
  let h := Int.to_uint32 (height screen_params) in
  let* '(_, fb) := drv (creating (Framebuffer (render_pass_ r) view w h)
                          (fun res => vkCreateFramebuffer res (render_pass_ r) view w h) old) in
  let* fbs := set_at "frame_buffers_" (frame_buffers_ r) (image_index g) fb in
  ret (mkVulkanRenderer (current_rendering_width_ r) (current_rendering_height_ r)
         (vulkan_interface_ r) (current_command_buffer_ r) (swapchain_images_ r)
         (swapchain_image_count_ r) (Nat.pred (frames_to_update_count_ r)) (render_pass_ r)
         (swapchain_views_ r) fbs).

(** [RunRenderingPreProcessing]; [command_buffer] is the one the host's
    recording state gives. *)
Definition RunRenderingPreProcessing (g : Globals) (r : VulkanRenderer)
    (screen_params : ScreenParams) (command_buffer : Z) : VK VulkanRenderer :=
  let r1 := note_dimensions r screen_params command_buffer in
  let* r2 := (if (0 <? frames_to_update_count_ r1)%nat
              then update_frame_buffer g r1 screen_params
              else ret r1) in
  let* fb := at_ "frame_buffers_" (frame_buffers_ r2) (image_index g) in
  drv_ (emit (vkCmdBeginRenderPass (current_command_buffer_ r2) (render_pass_ r2) fb
                (Int.to_uint32 (width screen_params)) (Int.to_uint32 (height screen_params)))) ;;;
  ret r2.

Definition RunRenderingPostProcessing (r : VulkanRenderer) : VK unit :=
  drv_ (emit (vkCmdEndRenderPass (current_command_buffer_ r))).

(** One frame of the host: an image is acquired (the hook stores its index),
    then the pre-processing runs. *)
Record Frame := mkFrame {
  acquired : nat;
  screen : ScreenParams;
  command_buffer : Z;
}.

Definition with_image_index (g : Globals) (i : nat) : Globals :=
  mkGlobals (Orig_GetInstanceProcAddr g) (Orig_vkCreateSwapchainKHR g)
            (Orig_vkAcquireNextImageKHR g) (cached_swapchain g) i.

Fixpoint run_frames (g : Globals) (frames : list Frame) (r : VulkanRenderer) : VK VulkanRenderer :=
  match frames with
  | [] => ret r
  | f :: rest =>
      let* r' := RunRenderingPreProcessing (with_image_index g (acquired f)) r
                   (screen f) (command_buffer f) in
      run_frames g rest r'
  end.

End FrameTarget.


(** ** Widget overlay renderer (vulkan_widgets_renderer.cc)

    The class declaration (vulkan_widgets_renderer.h) is outside the two
    files verified here: the members are those the .cc file uses, and the
    helper [Lerp] it declares is a parameter of the section below. *)

Module Math.

(** Modelled from the spec: the helper [Lerp] of vulkan_widgets_renderer.h,
    a header outside the two files verified here.  The spec calls it the
    linear interpolation math helper and applies it as
    [Lerp(-1, +1, (V-H)/V)]: the value at [val] of the line from [start]
    to [end]. *)
Definition Lerp (start end_ val : spec_float) : spec_float :=
  F32.add start (F32.mul (F32.sub end_ start) val).

End Math.

Module Widgets.

Import Renderer.

Record VulkanWidgetsRenderer := mkVulkanWidgetsRenderer {
  widget_image_count_ : nat;
  current_render_pass_ : Z;
  descriptor_set_layout_ : Z;
  pipeline_layout_ : Z;
  graphics_pipeline_ : Z;
  texture_sampler_ : Z;
  vertex_buffers_ : list Z;
  vertex_buffers_memory_ : list Z;
  index_buffers_ : Z;
  index_buffers_memory_ : Z;
  indices_count_ : Z;
  descriptor_pool_ : Z;
  descriptor_sets_ : list Z;
  image_views_ : list Z;
}.

(** The members that are not in the constructor's initialiser list. *)
Record Indeterminate := mkIndeterminate {
  some_render_pass : Z;
  some_sampler : Z;
  some_indices_count : Z;
}.

(** Assignments to members. *)
Definition set_widget_image_count (n : nat) (r : VulkanWidgetsRenderer) :=
  mkVulkanWidgetsRenderer n (current_render_pass_ r) (descriptor_set_layout_ r)
    (pipeline_layout_ r) (graphics_pipeline_ r) (texture_sampler_ r) (vertex_buffers_ r)
    (vertex_buffers_memory_ r) (index_buffers_ r) (index_buffers_memory_ r) (indices_count_ r)
    (descriptor_pool_ r) (descriptor_sets_ r) (image_views_ r).

Definition set_current_render_pass (rp : Z) (r : VulkanWidgetsRenderer) :=
  mkVulkanWidgetsRenderer (widget_image_count_ r) rp (descriptor_set_layout_ r)
    (pipeline_layout_ r) (graphics_pipeline_ r) (texture_sampler_ r) (vertex_buffers_ r)
    (vertex_buffers_memory_ r) (index_buffers_ r) (index_buffers_memory_ r) (indices_count_ r)
    (descriptor_pool_ r) (descriptor_sets_ r) (image_views_ r).

Definition set_shared (set_layout layout sampler : Z) (r : VulkanWidgetsRenderer) :=
  mkVulkanWidgetsRenderer (widget_image_count_ r) (current_render_pass_ r) set_layout
    layout (graphics_pipeline_ r) sampler (vertex_buffers_ r)
    (vertex_buffers_memory_ r) (index_buffers_ r) (index_buffers_memory_ r) (indices_count_ r)
    (descriptor_pool_ r) (descriptor_sets_ r) (image_views_ r).

Definition set_graphics_pipeline (p : Z) (r : VulkanWidgetsRenderer) :=
  mkVulkanWidgetsRenderer (widget_image_count_ r) (current_render_pass_ r)
    (descriptor_set_layout_ r) (pipeline_layout_ r) p (texture_sampler_ r) (vertex_buffers_ r)
    (vertex_buffers_memory_ r) (index_buffers_ r) (index_buffers_memory_ r) (indices_count_ r)
    (descriptor_pool_ r) (descriptor_sets_ r) (image_views_ r).

Definition set_vertex_buffers (buffers memory : list Z) (r : VulkanWidgetsRenderer) :=
  mkVulkanWidgetsRenderer (widget_image_count_ r) (current_render_pass_ r)
    (descriptor_set_layout_ r) (pipeline_layout_ r) (graphics_pipeline_ r) (texture_sampler_ r)
    buffers memory (index_buffers_ r) (index_buffers_memory_ r) (indices_count_ r)
    (descriptor_pool_ r) (descriptor_sets_ r) (image_views_ r).

Definition set_index_buffer (buffer memory count : Z) (r : VulkanWidgetsRenderer) :=
  mkVulkanWidgetsRenderer (widget_image_count_ r) (current_render_pass_ r)
    (descriptor_set_layout_ r) (pipeline_layout_ r) (graphics_pipeline_ r) (texture_sampler_ r)
    (vertex_buffers_ r) (vertex_buffers_memory_ r) buffer memory count
    (descriptor_pool_ r) (descriptor_sets_ r) (image_views_ r).

Definition set_descriptors (pool : Z) (sets : list Z) (r : VulkanWidgetsRenderer) :=
  mkVulkanWidgetsRenderer (widget_image_count_ r) (current_render_pass_ r)
    (descriptor_set_layout_ r) (pipeline_layout_ r) (graphics_pipeline_ r) (texture_sampler_ r)
    (vertex_buffers_ r) (vertex_buffers_memory_ r) (index_buffers_ r) (index_buffers_memory_ r)
    (indices_count_ r) pool sets (image_views_ r).

Definition set_image_views (views : list Z) (r : VulkanWidgetsRenderer) :=
  mkVulkanWidgetsRenderer (widget_image_count_ r) (current_render_pass_ r)
    (descriptor_set_layout_ r) (pipeline_layout_ r) (graphics_pipeline_ r) (texture_sampler_ r)
    (vertex_buffers_ r) (vertex_buffers_memory_ r) (index_buffers_ r) (index_buffers_memory_ r)
    (indices_count_ r) (descriptor_pool_ r) (descriptor_sets_ r) views.

(** [sizeof(Vertex)] and [sizeof(uint16_t)]. *)
Definition sizeof_Vertex : Z := 16.
Definition sizeof_uint16 : Z := 2.

(** The loop of [FindMemoryType]. *)
Fixpoint find_memory_type (type_filter properties : Z) (types : list Z) (i : Z) : option Z :=
  match types with
  | [] => None
  | flags :: rest =>
      if Z.testbit type_filter i && (Z.land flags properties =? properties)
      then Some i
      else find_memory_type type_filter properties rest (i + 1)
  end.

Definition FindMemoryType (type_filter properties : Z) : VK Z :=
  let* types := drv (fun d => (memory_types d, emit vkGetPhysicalDeviceMemoryProperties d)) in
  let found := find_memory_type type_filter properties types 0 in
  drv_ (log_unless (bool_decide (is_Some found)) "Failed to find suitable memory type!") ;;;
  ret (default 0 found).

(** [CreateBuffer]; [buffer] and [buffer_memory] are passed by reference:
    their values come in and the new ones go out. *)
Definition CreateBuffer (size : Z) (usage : VkBufferUsage) (properties : Z)
    (buffer buffer_memory : Z) : VK (Z * Z) :=
  let* buffer := CALL_VK (creating (Buffer size usage)
                            (fun res => vkCreateBuffer res size usage) buffer) in
  let* type_bits := drv (fun d => (memory_type_bits d,
                                   emit (vkGetBufferMemoryRequirements buffer) d)) in
  let* memory_type := FindMemoryType type_bits properties in
  let* buffer_memory := CALL_VK (creating (DeviceMemory size memory_type)
                                   (fun res => vkAllocateMemory res size memory_type)
                                   buffer_memory) in
  drv_ (emit (vkBindBufferMemory buffer buffer_memory)) ;;;
  ret (buffer, buffer_memory).

Definition host_visible_coherent : Z :=
  Z.lor VK_MEMORY_PROPERTY_HOST_VISIBLE_BIT VK_MEMORY_PROPERTY_HOST_COHERENT_BIT.

(** The result of [vkMapMemory] is not looked at. *)
Definition CreateIndexBuffer (r : VulkanWidgetsRenderer) (indices : list Z)
    : VK VulkanWidgetsRenderer :=
  let buffer_size := sizeof_uint16 * Z.of_nat (length indices) in
  let* '(buffer, memory) := CreateBuffer buffer_size VK_BUFFER_USAGE_INDEX_BUFFER_BIT
                              host_visible_coherent
                              (index_buffers_ r) (index_buffers_memory_ r) in
  let* '(_, mapped) := drv (mapping memory buffer_size) in
  memcpy_through mapped memory (Indices indices) ;;;
  drv_ (emit (vkUnmapMemory memory)) ;;;
  ret (set_index_buffer buffer memory (Z.of_nat (length indices)) r).

Definition CreateSharedVulkanObjects (r : VulkanWidgetsRenderer) : VK VulkanWidgetsRenderer :=
  let* set_layout := CALL_VK (creating DescriptorSetLayout vkCreateDescriptorSetLayout
                                (descriptor_set_layout_ r)) in
  let* layout := CALL_VK (creating (PipelineLayout set_layout)
                            (fun res => vkCreatePipelineLayout res set_layout)
                            (pipeline_layout_ r)) in
  drv_ (emit vkGetPhysicalDeviceProperties) ;;;
  let* sampler := CALL_VK (creating Sampler vkCreateSampler (texture_sampler_ r)) in
  CreateIndexBuffer (set_shared set_layout layout sampler r) [0; 1; 2; 2; 3; 0].

(** The constructor; [loaded] is what [rendering::LoadVulkan()] returns. *)
Definition VulkanWidgetsRenderer_ctor (any : Indeterminate) (loaded : bool)
    : VK VulkanWidgetsRenderer :=
  let r := mkVulkanWidgetsRenderer 1 (some_render_pass any) VK_NULL_HANDLE VK_NULL_HANDLE
             VK_NULL_HANDLE (some_sampler any) [] [] VK_NULL_HANDLE VK_NULL_HANDLE
             (some_indices_count any) VK_NULL_HANDLE [] [] in
  if negb loaded then
    drv_ (log_error "Failed to load vulkan lib in cardboard!") ;;; ret r
  else
    CreateSharedVulkanObjects r.

Definition CleanPipeline (r : VulkanWidgetsRenderer) : VK VulkanWidgetsRenderer :=
  if negb (graphics_pipeline_ r =? VK_NULL_HANDLE) then
    drv_ (destroying vkDestroyPipeline (graphics_pipeline_ r)) ;;;
    ret (set_graphics_pipeline VK_NULL_HANDLE r)
  else ret r.

Definition CleanTextureImageView (r : VulkanWidgetsRenderer) (index : nat)
    : VK VulkanWidgetsRenderer :=
  let* view := at_ "image_views_" (image_views_ r) index in
  if negb (view =? VK_NULL_HANDLE) then
    drv_ (destroying vkDestroyImageView view) ;;;
    let* views := set_at "image_views_" (image_views_ r) index VK_NULL_HANDLE in
    ret (set_image_views views r)
  else ret r.

(** The destructor. *)
Definition VulkanWidgetsRenderer_dtor (r : VulkanWidgetsRenderer) : VK unit :=
  let* r := for_ (widget_image_count_ r) 0 (fun i r => CleanTextureImageView r i) r in
  drv_ (destroying vkDestroySampler (texture_sampler_ r)) ;;;
  drv_ (destroying vkDestroyPipelineLayout (pipeline_layout_ r)) ;;;
  drv_ (destroying vkDestroyDescriptorSetLayout (descriptor_set_layout_ r)) ;;;
  drv_ (destroying_pool (descriptor_pool_ r)) ;;;
  let* r := CleanPipeline r in
  drv_ (destroying vkDestroyBuffer (index_buffers_ r)) ;;;
  drv_ (destroying vkFreeMemory (index_buffers_memory_ r)) ;;;
  for_ (widget_image_count_ r) 0 (fun i (_ : unit) =>
    let* buffer := at_ "vertex_buffers_" (vertex_buffers_ r) i in
    if negb (buffer =? VK_NULL_HANDLE) then
      drv_ (destroying vkDestroyBuffer buffer) ;;;
      let* memory := at_ "vertex_buffers_memory_" (vertex_buffers_memory_ r) i in
      drv_ (destroying vkFreeMemory memory)
    else ret tt) tt.

Definition CreatePerWidgetVulkanObjects (r : VulkanWidgetsRenderer) : VK VulkanWidgetsRenderer :=
  let n := widget_image_count_ r in
  let count := Int.to_uint32 (Z.of_nat n) in
  let* pool := CALL_VK (creating (DescriptorPool count count)
                          (fun res => vkCreateDescriptorPool res count count)
                          (descriptor_pool_ r)) in
  let* sets := CALL_VK (allocating pool n (resize n VK_NULL_HANDLE (descriptor_sets_ r))) in
  ret (set_vertex_buffers (resize n VK_NULL_HANDLE (vertex_buffers_ r))
         (resize n VK_NULL_HANDLE (vertex_buffers_memory_ r))
         (set_image_views (resize n VK_NULL_HANDLE (image_views_ r))
            (set_descriptors pool sets r))).

(** [LoadShader]: the local [shader] is not initialised, it is taken to be
    [VK_NULL_HANDLE] when the creation fails. *)
Definition LoadShader : VK Z :=
  CALL_VK (creating ShaderModule vkCreateShaderModule VK_NULL_HANDLE).

Definition CreateGraphicsPipeline (r : VulkanWidgetsRenderer) : VK VulkanWidgetsRenderer :=
  let* r := CleanPipeline r in
  let* vertex_shader := LoadShader in
  let* fragment_shader := LoadShader in
  let* pipeline := CALL_VK (creating (Pipeline (pipeline_layout_ r) (current_render_pass_ r))
                              (fun res => vkCreateGraphicsPipelines res (pipeline_layout_ r)
                                            (current_render_pass_ r))
                              (graphics_pipeline_ r)) in
  drv_ (destroying vkDestroyShaderModule vertex_shader) ;;;
  drv_ (destroying vkDestroyShaderModule fragment_shader) ;;;
  ret (set_graphics_pipeline pipeline r).

(** A failing [vkMapMemory] is logged by [CALL_VK], and [data] is copied
    through all the same. *)
Definition CreateVertexBuffer (r : VulkanWidgetsRenderer) (vertices : list Vertex) (index : nat)
    : VK VulkanWidgetsRenderer :=
  if (length (vertex_buffers_ r) <=? index)%nat then
    drv_ (log_error "Index is bigger than the buffers vector size.") ;;; ret r
  else
    let buffer_size := sizeof_Vertex * Z.of_nat (length vertices) in
    let* buffer := at_ "vertex_buffers_" (vertex_buffers_ r) index in
    let* memory := at_ "vertex_buffers_memory_" (vertex_buffers_memory_ r) index in
    let* '(buffer, memory) := CreateBuffer buffer_size VK_BUFFER_USAGE_VERTEX_BUFFER_BIT
                                host_visible_coherent buffer memory in
    let* buffers := set_at "vertex_buffers_" (vertex_buffers_ r) index buffer in
    let* memories := set_at "vertex_buffers_memory_" (vertex_buffers_memory_ r) index memory in
    let* mapped := CALL_VK (mapping memory buffer_size) in
    memcpy_through mapped memory (Vertices vertices) ;;;
    drv_ (emit (vkUnmapMemory memory)) ;;;
    ret (set_vertex_buffers buffers memories r).

Section WithLerp.

(** [Lerp(start, end, val)], declared in the missing header. *)
Variable Lerp : spec_float -> spec_float -> spec_float -> spec_float.

(** Lines 468-486 of [UpdateVertexBuffer]: the four vertices of the quad. *)
Definition quad_vertices (widget_params : Widget.WidgetParams) (screen_params : ScreenParams)
    : list Vertex :=
  let x := Lerp (F32.of_int (-1)) (F32.of_int 1)
             (F32.div (F32.of_int (Widget.x widget_params))
                      (F32.of_int (viewport_width screen_params))) in
  let opengl_to_vulkan_y :=
    Int.sub (Int.sub (viewport_height screen_params) (Widget.y widget_params))
            (Widget.height widget_params) in
  let y := Lerp (F32.of_int (-1)) (F32.of_int 1)
             (F32.div (F32.of_int opengl_to_vulkan_y)
                      (F32.of_int (viewport_height screen_params))) in
  let width := F32.div (F32.mul (F32.of_int (Widget.width widget_params)) (F32.of_int 2))
                       (F32.of_int (viewport_width screen_params)) in
  let height := F32.div (F32.mul (F32.of_int (Widget.height widget_params)) (F32.of_int 2))
                        (F32.of_int (viewport_height screen_params)) in
  [mkVertex x y (F32.of_int 0) (F32.of_int 1);
   mkVertex x (F32.add y height) (F32.of_int 0) (F32.of_int 0);
   mkVertex (F32.add x width) (F32.add y height) (F32.of_int 1) (F32.of_int 0);
   mkVertex (F32.add x width) y (F32.of_int 1) (F32.of_int 1)].

Definition UpdateVertexBuffer (r : VulkanWidgetsRenderer) (widget_params : Widget.WidgetParams)
    (screen_params : ScreenParams) (index : nat) : VK VulkanWidgetsRenderer :=
  let* buffer := at_ "vertex_buffers_" (vertex_buffers_ r) index in
  (if negb (buffer =? VK_NULL_HANDLE) then
     drv_ (destroying vkDestroyBuffer buffer) ;;;
     let* memory := at_ "vertex_buffers_memory_" (vertex_buffers_memory_ r) index in
     drv_ (destroying vkFreeMemory memory)
   else ret tt) ;;;
  CreateVertexBuffer r (quad_vertices widget_params screen_params) index.

Definition UpdateVertexBuffers (r : VulkanWidgetsRenderer)
    (widgets_params : list Widget.WidgetParams) (screen_params : ScreenParams)
    : VK VulkanWidgetsRenderer :=
  for_ (widget_image_count_ r) 0 (fun i r =>
    let* widget_params := at_ "widgets_params" widgets_params i in
    UpdateVertexBuffer r widget_params screen_params i) r.

(** [widget_params.texture] is cast to [VkImage*] on entry and read
    through when the view is described, after the old view was cleaned. *)
Definition RenderWidget (r : VulkanWidgetsRenderer) (widget_params : Widget.WidgetParams)
    (command_buffer : Z) (image_index : nat) (screen_params : ScreenParams)
    : VK VulkanWidgetsRenderer :=
  let* r := CleanTextureImageView r image_index in
  let* current_image := image_at (Widget.texture widget_params) in
  let* old := at_ "image_views_" (image_views_ r) image_index in
  let* view := CALL_VK (creating (ImageView current_image VK_FORMAT_ETC2_R8G8B8A8_UNORM_BLOCK)
                          (fun res => vkCreateImageView res current_image
                                        VK_FORMAT_ETC2_R8G8B8A8_UNORM_BLOCK) old) in
  let* views := set_at "image_views_" (image_views_ r) image_index view in
  let r := set_image_views views r in
  let* set := at_ "descriptor_sets_" (descriptor_sets_ r) image_index in
  drv_ (emit (vkUpdateDescriptorSets set (texture_sampler_ r) view)) ;;;
  let viewport := mkViewport (F32.of_int (viewport_x screen_params))
                             (F32.of_int (viewport_y screen_params))
                             (F32.of_int (viewport_width screen_params))
                             (F32.of_int (viewport_height screen_params)) in
  let scissor := mkRect (viewport_x screen_params) (viewport_y screen_params)
                        (Int.to_uint32 (viewport_width screen_params))
                        (Int.to_uint32 (viewport_height screen_params)) in
  drv_ (emit (vkCmdBindPipeline command_buffer (graphics_pipeline_ r))) ;;;
  drv_ (emit (vkCmdSetViewport command_buffer viewport)) ;;;
  drv_ (emit (vkCmdSetScissor command_buffer scissor)) ;;;
  let* buffer := at_ "vertex_buffers_" (vertex_buffers_ r) image_index in
  drv_ (emit (vkCmdBindVertexBuffers command_buffer buffer 0)) ;;;
  drv_ (emit (vkCmdBindIndexBuffer command_buffer (index_buffers_ r))) ;;;
  drv_ (emit (vkCmdBindDescriptorSets command_buffer (pipeline_layout_ r) set)) ;;;
  drv_ (emit (vkCmdDrawIndexed command_buffer (Int.to_uint32 (indices_count_ r)) 1 0 0 0)) ;;;
  ret r.

Definition RenderWidgets (r : VulkanWidgetsRenderer) (screen_params : ScreenParams)
    (widgets_params : list Widget.WidgetParams) (command_buffer render_pass : Z)
    : VK VulkanWidgetsRenderer :=
  let r := set_widget_image_count (length widgets_params) r in
  let* r := CreatePerWidgetVulkanObjects r in
  let* r := UpdateVertexBuffers r widgets_params screen_params in
  let* r := (if negb (render_pass =? current_render_pass_ r)
             then CreateGraphicsPipeline (set_current_render_pass render_pass r)
             else ret r) in
  for_ (widget_image_count_ r) 0 (fun i r =>
    let* widget_params := at_ "widgets_params" widgets_params i in
    RenderWidget r widget_params command_buffer i screen_params) r.

(** The host's frames: [RenderWidgets] called again and again. *)
Record Call := mkCall {
  call_screen : ScreenParams;
  call_widgets : list Widget.WidgetParams;
  call_command_buffer : Z;
  call_render_pass : Z;
}.

Fixpoint render_frames (calls : list Call) (r : VulkanWidgetsRenderer) : VK VulkanWidgetsRenderer :=
  match calls with
  | [] => ret r
  | c :: rest =>
      let* r := RenderWidgets r (call_screen c) (call_widgets c) (call_command_buffer c)
                  (call_render_pass c) in
      render_frames rest r
  end.

End WithLerp.

End Widgets.

(** ** The rest of class VulkanRenderer (vulkan_renderer.cc, lines 200-231
    and 388-404) *)

Module Lifecycle.

Import Renderer Interceptor FrameTarget Widgets.

(** The object of class [VulkanRenderer]: the members of
    [FrameTarget.VulkanRenderer] and the [std::unique_ptr] member
    [widget_renderer_], [None] when it is null. *)
Record Plugin := mkPlugin {
  target : VulkanRenderer;
  widget_renderer_ : option VulkanWidgetsRenderer;
}.

(** [SetupWidgets]: a new widget renderer is made, then the assignment to
    the [unique_ptr] deletes the one it held. *)
Definition SetupWidgets (any : Widgets.Indeterminate) (loaded : bool) (p : Plugin) : VK Plugin :=
  let* made := VulkanWidgetsRenderer_ctor any loaded in
  (match widget_renderer_ p with
   | Some old => VulkanWidgetsRenderer_dtor old
   | None => ret tt
   end) ;;;
  ret (mkPlugin (target p) (Some made)).

(** [TeardownWidgets]. *)
Definition TeardownWidgets (p : Plugin) : VK Plugin :=
  match widget_renderer_ p with
  | Some w => VulkanWidgetsRenderer_dtor w ;;; ret (mkPlugin (target p) None)
  | None => ret p
  end.

(** The destructor [~VulkanRenderer], lines 200-214. *)
Definition VulkanRenderer_dtor (p : Plugin) : VK unit :=
  let* p := TeardownWidgets p in
  let r := target p in
  for_ (swapchain_image_count_ r) 0 (fun i (_ : unit) =>
    let* framebuffer := at_ "frame_buffers_" (frame_buffers_ r) i in
    drv_ (destroying vkDestroyFramebuffer framebuffer) ;;;
    let* view := at_ "swapchain_views_" (swapchain_views_ r) i in
    drv_ (destroying vkDestroyImageView view)) tt ;;;
  drv_ (destroying vkDestroyRenderPass (render_pass_ r)).

(** [VulkanRenderer::FindMemoryType], lines 388-404: the loop is that of
    the widget renderer, the message differs. *)
Definition FindMemoryType (type_filter properties : Z) : VK Z :=
  let* types := drv (fun d => (memory_types d, emit vkGetPhysicalDeviceMemoryProperties d)) in
  let found := find_memory_type type_filter properties types 0 in
  drv_ (log_unless (bool_decide (is_Some found)) "failed to find suitable memory type!") ;;;
  ret (default 0 found).

End Lifecycle.
(** * Vocabulary of the statements *)

Module Spec.

Import Renderer Interceptor FrameTarget Widgets.

(** The framebuffer and view vectors have one entry per swapchain image. *)
Definition sized (r : VulkanRenderer) : Prop :=
  length (frame_buffers_ r) = swapchain_image_count_ r
  /\ length (swapchain_views_ r) = swapchain_image_count_ r.

(** The counter a call works with, once the dimensions are looked at. *)
Definition counter_after_check (r : VulkanRenderer) (sp : ScreenParams) : nat :=
  if dimensions_changed r sp then swapchain_image_count_ r else frames_to_update_count_ r.

(** Image [i] has a live framebuffer, built from the image's view with the
    width and height of [sp]. *)
Definition framebuffer_current (r : VulkanRenderer) (d : Driver) (sp : ScreenParams) (i : nat) : Prop :=
  exists fb view,
    frame_buffers_ r !! i = Some fb
    /\ swapchain_views_ r !! i = Some view
    /\ objects d !! fb = Some (Framebuffer (render_pass_ r) view
                                 (Int.to_uint32 (width sp)) (Int.to_uint32 (height sp))).

Definition all_framebuffers_current (r : VulkanRenderer) (d : Driver) (sp : ScreenParams) : Prop :=
  forall i, (i < swapchain_image_count_ r)%nat -> framebuffer_current r d sp i.

(** The state of a rebuild in progress: the images in [done] have their new
    framebuffer, named by a handle handed out since the rebuild began (at
    handle [h0]); the others still have what they had. *)
Record rebuilding (h0 rp : Z) (views : list Z) (sp : ScreenParams) (done : list nat)
    (r : VulkanRenderer) (d : Driver) : Prop := mkRebuilding {
  rb_sized : sized r;
  rb_count : swapchain_image_count_ r = length views;
  rb_views : swapchain_views_ r = views;
  rb_pass : render_pass_ r = rp;
  rb_pending : pending d = [];
  rb_handles : 0 < h0 <= next_handle d;
  rb_counter : (counter_after_check r sp + length done = length views)%nat;
  rb_done : forall i fb, frame_buffers_ r !! i = Some fb -> i ∈ done ->
      h0 <= fb < next_handle d
      /\ exists view, views !! i = Some view
           /\ objects d !! fb = Some (Framebuffer rp view (Int.to_uint32 (width sp))
                                        (Int.to_uint32 (height sp)));
  rb_todo : forall i fb, frame_buffers_ r !! i = Some fb -> i ∉ done -> fb < h0;
}.

(** *** Counting the calls made to the driver *)

Fixpoint count (p : VkCall -> bool) (cs : list VkCall) : nat :=
  match cs with
  | [] => 0
  | c :: rest => (if p c then 1 else 0) + count p rest
  end.

Definition is_pipeline_creation (c : VkCall) : bool :=
  match c with vkCreateGraphicsPipelines _ _ _ _ => true | _ => false end.

Definition is_pipeline_destruction (c : VkCall) : bool :=
  match c with vkDestroyPipeline _ => true | _ => false end.

Definition is_descriptor_write (c : VkCall) : bool :=
  match c with vkUpdateDescriptorSets _ _ _ => true | _ => false end.

Definition is_draw (c : VkCall) : bool :=
  match c with vkCmdDrawIndexed _ _ _ _ _ _ => true | _ => false end.

Definition is_vertex_upload (c : VkCall) : bool :=
  match c with memcpy _ (Vertices _) => true | _ => false end.

(** A descriptor pool created for no set at all. *)
Definition is_empty_pool_creation (c : VkCall) : bool :=
  match c with vkCreateDescriptorPool _ 0 0 _ => true | _ => false end.

(** The calls that record into a command buffer. *)
Definition is_command (c : VkCall) : bool :=
  match c with
  | vkCmdBeginRenderPass _ _ _ _ _ | vkCmdEndRenderPass _ | vkCmdBindPipeline _ _
  | vkCmdSetViewport _ _ | vkCmdSetScissor _ _ | vkCmdBindVertexBuffers _ _ _
  | vkCmdBindIndexBuffer _ _ | vkCmdBindDescriptorSets _ _ _
  | vkCmdDrawIndexed _ _ _ _ _ _ => true
  | _ => false
  end.

(** The latest call of a kind ([calls] has the latest first). *)
Definition latest (p : VkCall -> bool) (cs : list VkCall) : option VkCall :=
  List.find p cs.

(** The handles the renderer holds. *)
Definition held (r : VulkanWidgetsRenderer) : list Z :=
  [descriptor_set_layout_ r; pipeline_layout_ r; graphics_pipeline_ r; texture_sampler_ r;
   index_buffers_ r; index_buffers_memory_ r; descriptor_pool_ r]
  ++ vertex_buffers_ r ++ vertex_buffers_memory_ r ++ descriptor_sets_ r ++ image_views_ r.

(** An object is leaked when the driver keeps it alive and the renderer has
    no handle left to destroy it with. *)
Definition leaked (r : VulkanWidgetsRenderer) (d : Driver) (h : Z) : Prop :=
  is_Some (objects d !! h) /\ Forall (fun k => k <> h) (held r).

(** How often a run of render-pass handles changes handle, [prev] being the
    handle before the run. *)
Fixpoint changes (prev : Z) (handles : list Z) : nat :=
  match handles with
  | [] => 0
  | h :: rest => (if h =? prev then 0 else 1) + changes h rest
  end.

(** The number of distinct render-pass handles passed in. *)
Definition distinct_handles (cs : list Call) : nat :=
  length (remove_dups (call_render_pass <$> cs)).

(** The pending-update counter after a run of frames, by the law of one
    call: it is set to the image count when the viewport is not the one of
    the call before ([w] by [h] at first), and then goes down by one unless
    it is zero. *)
Fixpoint counter_after (image_count : nat) (w h : Z) (counter : nat) (frames : list Frame)
    : nat :=
  match frames with
  | [] => counter
  | f :: rest =>
      let changed := negb (viewport_width (screen f) =? w)
                     || negb (viewport_height (screen f) =? h) in
      counter_after image_count (viewport_width (screen f)) (viewport_height (screen f))
        (Nat.pred (if changed then image_count else counter)) rest
  end.

(** The per-widget vectors all have [n] entries. *)
Definition slots (n : nat) (r : VulkanWidgetsRenderer) : Prop :=
  length (vertex_buffers_ r) = n
  /\ length (vertex_buffers_memory_ r) = n
  /\ length (descriptor_sets_ r) = n
  /\ length (image_views_ r) = n.

End Spec.

(** * Vocabulary of the further properties *)

Module Observe.

Import Renderer Interceptor FrameTarget Widgets Lifecycle Spec.

(** The host resolves [names], one after the other, through the wrapped
    resolver. *)
Fixpoint resolve_all (g : Globals) (instance : Z) (names : list string)
    : list PFN_vkVoidFunction * Globals :=
  match names with
  | [] => ([], g)
  | pName :: rest =>
      let '(f, g1) := MyGetInstanceProcAddr g instance pName in
      let '(fs, g2) := resolve_all g1 instance rest in
      (f :: fs, g2)
  end.

(** What the host gets for a name once the interceptor is installed over
    the resolver [host]. *)
Definition resolved (host : Z -> string -> Z) (instance : Z) (pName : string)
    : PFN_vkVoidFunction :=
  if String.eqb pName "vkCreateSwapchainKHR" then AddressOf CreateSwapchainHook
  else if String.eqb pName "vkAcquireNextImageKHR" then AddressOf AcquireNextImageHook
  else HostFunction (host instance pName).

(** Memory type [j] of the device is suitable: it is in the filter and has
    every requested property. *)
Definition suitable (type_filter properties : Z) (types : list Z) (j : Z) : Prop :=
  0 <= j
  /\ Z.testbit type_filter j = true
  /\ exists flags, types !! Z.to_nat j = Some flags /\ Z.land flags properties = properties.

(** What [FindMemoryType] does: the first suitable type and no message,
    or 0 and the message [msg] when no type is suitable. *)
Definition finds_first_suitable (msg : string) (type_filter properties : Z) (d : Driver)
    (o : Outcome (Z * Driver)) : Prop :=
  exists i d',
    o = Ok (i, d')
    /\ calls d' = vkGetPhysicalDeviceMemoryProperties :: calls d
    /\ ((suitable type_filter properties (memory_types d) i
         /\ (forall j, j < i -> ~ suitable type_filter properties (memory_types d) j)
         /\ errors d' = errors d)
        \/ ((forall j, ~ suitable type_filter properties (memory_types d) j)
            /\ i = 0
            /\ errors d' = msg :: errors d)).

(** Every live framebuffer is one the manager holds, under a handle that is
    not null. *)
Definition framebuffers_held (r : VulkanRenderer) (d : Driver) : Prop :=
  0 < next_handle d
  /\ forall h rp view w ht,
       objects d !! h = Some (Framebuffer rp view w ht) ->
       h <> VK_NULL_HANDLE /\ h ∈ frame_buffers_ r.

(** *** Drivers that keep plugin code defined *)

(** [d'] is a state of the driver after [d]: the host's memory is the
    same, the result lists were consumed from the front and no handle was
    taken back. *)
Record later (d d' : Driver) : Prop := mkLater {
  lt_host : host_images d' = host_images d;
  lt_maps : exists k, map_results d' = drop k (map_results d);
  lt_pending : exists k, pending d' = drop k (pending d);
  lt_handle : next_handle d <= next_handle d';
}.

(** Every coming [vkMapMemory] succeeds. *)
Definition maps_succeed (d : Driver) : Prop :=
  Forall (fun res => succeeded res = true) (map_results d).

(** The driver maps memory whenever it is asked to, and the host's memory
    is [H]. *)
Definition calm (H : gmap Z Z) (d : Driver) : Prop :=
  maps_succeed d /\ host_images d = H.

(** Every call succeeds, and no object is named by the null handle. *)
Definition succeeding (H : gmap Z Z) (d : Driver) : Prop :=
  calm H d /\ pending d = [] /\ 0 < next_handle d.

(** A property of the driver that holds ever after. *)
Definition stable (Inv : Driver -> Prop) : Prop :=
  forall d d', later d d' -> Inv d -> Inv d'.

(** The texture pointers of the widgets are not null and point to images
    the host keeps. *)
Definition textures_valid (H : gmap Z Z) (ws : list Widget.WidgetParams) : Prop :=
  Forall (fun w => Widget.texture w <> 0 /\ is_Some (H !! Widget.texture w)) ws.

(** [h] is what a creating call left in its output argument, which held
    [out], in some state of the driver where [Inv] holds. *)
Definition handed_out (Inv : Driver -> Prop) (out h : Z) : Prop :=
  exists d, Inv d
    /\ h = (if succeeded (hd VK_SUCCESS (pending d)) then next_handle d else out).

(** *** What a driver that records the calls would show *)

(** From every driver state where [Inv] holds [m] returns, to a state
    where [Inv] holds; of the calls it makes, those that [f] picks are
    [out], latest first, and the result and [out] on top of what was seen
    before ([acc]) are in [Q]. *)
Definition wp {A X} (Inv : Driver -> Prop) (f : VkCall -> option X) (m : VK A)
    (acc : list X) (Q : A -> list X -> Prop) : Prop :=
  forall d, Inv d -> exists a d' out,
    m d = Ok (a, d')
    /\ Inv d'
    /\ omap f (calls d') = out ++ omap f (calls d)
    /\ Q a (out ++ acc).

(** The picked calls in the order they were made. *)
Definition history {X} (f : VkCall -> option X) (d : Driver) : list X :=
  rev (omap f (calls d)).

(** The calls of [RenderWidgets] that take part in drawing, without their
    result codes. *)
Inductive Seen :=
| SeenPool (max_sets descriptor_count pool : Z)
| SeenPoolDestroyed (pool : Z)
| SeenSets (pool count : Z) (sets : list Z)
| SeenUpload (memory : Z) (vertices : list Vertex)
| SeenPipelineDestroyed (pipeline : Z)
| SeenPipeline (layout render_pass pipeline : Z)
| SeenView (image : Z) (format : VkFormat) (view : Z)
| SeenWrite (set sampler view : Z)
| SeenBindPipeline (cb pipeline : Z)
| SeenViewport (cb : Z) (viewport : VkViewport)
| SeenScissor (cb : Z) (scissor : VkRect2D)
| SeenBindVertexBuffers (cb buffer offset : Z)
| SeenBindIndexBuffer (cb buffer : Z)
| SeenBindDescriptorSets (cb layout set : Z)
| SeenDraw (cb index_count instance_count first_index vertex_offset first_instance : Z).

Definition see (c : VkCall) : option Seen :=
  match c with
  | vkCreateDescriptorPool _ n k pool => Some (SeenPool n k pool)
  | vkDestroyDescriptorPool pool => Some (SeenPoolDestroyed pool)
  | vkAllocateDescriptorSets _ pool n sets => Some (SeenSets pool n sets)
  | memcpy memory (Vertices vs) => Some (SeenUpload memory vs)
  | vkDestroyPipeline p => Some (SeenPipelineDestroyed p)
  | vkCreateGraphicsPipelines _ layout rp p => Some (SeenPipeline layout rp p)
  | vkCreateImageView _ image format view => Some (SeenView image format view)
  | vkUpdateDescriptorSets set sampler view => Some (SeenWrite set sampler view)
  | vkCmdBindPipeline cb p => Some (SeenBindPipeline cb p)
  | vkCmdSetViewport cb vp => Some (SeenViewport cb vp)
  | vkCmdSetScissor cb sc => Some (SeenScissor cb sc)
  | vkCmdBindVertexBuffers cb buffer offset => Some (SeenBindVertexBuffers cb buffer offset)
  | vkCmdBindIndexBuffer cb buffer => Some (SeenBindIndexBuffer cb buffer)
  | vkCmdBindDescriptorSets cb layout set => Some (SeenBindDescriptorSets cb layout set)
  | vkCmdDrawIndexed cb n i fi vo fin => Some (SeenDraw cb n i fi vo fin)
  | _ => None
  end.

(** What slot [i] of a vector holds. *)
Definition slot (l : list Z) (i : nat) : Z := default VK_NULL_HANDLE (l !! i).

(** The image behind the texture pointer of a widget. *)
Definition image_of (H : gmap Z Z) (w : Widget.WidgetParams) : Z :=
  default VK_NULL_HANDLE (H !! Widget.texture w).

(** What [RenderWidgets] is seen to do for widget [i], in order; the
    handles are those the renderer holds when the call is over ([r']). *)
Definition widget_drawn (H : gmap Z Z) (r' : VulkanWidgetsRenderer) (cb : Z)
    (sp : ScreenParams) (i : nat) (w : Widget.WidgetParams) : list Seen :=
  [SeenView (image_of H w) VK_FORMAT_ETC2_R8G8B8A8_UNORM_BLOCK (slot (image_views_ r') i);
   SeenWrite (slot (descriptor_sets_ r') i) (texture_sampler_ r') (slot (image_views_ r') i);
   SeenBindPipeline cb (graphics_pipeline_ r');
   SeenViewport cb (mkViewport (F32.of_int (viewport_x sp)) (F32.of_int (viewport_y sp))
                      (F32.of_int (viewport_width sp)) (F32.of_int (viewport_height sp)));
   SeenScissor cb (mkRect (viewport_x sp) (viewport_y sp)
                     (Int.to_uint32 (viewport_width sp)) (Int.to_uint32 (viewport_height sp)));
   SeenBindVertexBuffers cb (slot (vertex_buffers_ r') i) 0;
   SeenBindIndexBuffer cb (index_buffers_ r');
   SeenBindDescriptorSets cb (pipeline_layout_ r') (slot (descriptor_sets_ r') i);
   SeenDraw cb (Int.to_uint32 (indices_count_ r')) 1 0 0 0].

(** What it is seen to do about the pipeline, [r] being the renderer
    before the call. *)
Definition pipeline_rebuilt (r r' : VulkanWidgetsRenderer) (rp : Z) : list Seen :=
  if rp =? current_render_pass_ r then []
  else (if graphics_pipeline_ r =? VK_NULL_HANDLE then []
        else [SeenPipelineDestroyed (graphics_pipeline_ r)])
       ++ [SeenPipeline (pipeline_layout_ r') rp (graphics_pipeline_ r')].

(** The quads uploaded, each to the memory its slot holds. *)
Definition uploaded (Lerp : spec_float -> spec_float -> spec_float -> spec_float)
    (memories : list Z) (sp : ScreenParams) (ws : list Widget.WidgetParams) : list Seen :=
  imap (fun i w => SeenUpload (slot memories i) (quad_vertices Lerp w sp)) ws.

(** What one call of [RenderWidgets] is seen to do, in order: a descriptor
    pool and the sets, the quads of the widgets, the pipeline when the
    render pass is new, then the widgets one after the other. *)
Definition rendered (Lerp : spec_float -> spec_float -> spec_float -> spec_float)
    (H : gmap Z Z) (r r' : VulkanWidgetsRenderer) (sp : ScreenParams)
    (ws : list Widget.WidgetParams) (cb rp : Z) : list Seen :=
  let n := Z.of_nat (length ws) in
  [SeenPool (Int.to_uint32 n) (Int.to_uint32 n) (descriptor_pool_ r');
   SeenSets (descriptor_pool_ r') n (descriptor_sets_ r')]
  ++ uploaded Lerp (vertex_buffers_memory_ r') sp ws
  ++ pipeline_rebuilt r r' rp
  ++ concat (imap (widget_drawn H r' cb sp) ws).

(** What [RenderWidgets] leaves of the renderer [r]: the shared objects,
    one slot per widget, the render pass it was called with, and the
    pipeline it held unless the render pass was new. *)
Record after_render (r : VulkanWidgetsRenderer) (rp : Z) (n : nat)
    (r' : VulkanWidgetsRenderer) : Prop := mkAfterRender {
  ar_count : widget_image_count_ r' = n;
  ar_slots : slots n r';
  ar_pass : current_render_pass_ r' = rp;
  ar_kept : rp = current_render_pass_ r -> graphics_pipeline_ r' = graphics_pipeline_ r;
  ar_sampler : texture_sampler_ r' = texture_sampler_ r;
  ar_index_buffer : index_buffers_ r' = index_buffers_ r;
  ar_index_memory : index_buffers_memory_ r' = index_buffers_memory_ r;
  ar_indices : indices_count_ r' = indices_count_ r;
  ar_set_layout : descriptor_set_layout_ r' = descriptor_set_layout_ r;
  ar_layout : pipeline_layout_ r' = pipeline_layout_ r;
}.

Definition is_pool_creation (c : VkCall) : bool :=
  match c with vkCreateDescriptorPool _ _ _ _ => true | _ => false end.

Definition is_pool_destruction (c : VkCall) : bool :=
  match c with vkDestroyDescriptorPool _ => true | _ => false end.

Definition seen_pool_creation (s : Seen) : bool :=
  match s with SeenPool _ _ _ => true | _ => false end.

Definition seen_pool_destruction (s : Seen) : bool :=
  match s with SeenPoolDestroyed _ => true | _ => false end.

Definition seen_pipeline_creation (s : Seen) : bool :=
  match s with SeenPipeline _ _ _ => true | _ => false end.

Definition seen_pipeline_destruction (s : Seen) : bool :=
  match s with SeenPipelineDestroyed _ => true | _ => false end.

(** How many of the seen calls are of a kind. *)
Definition tally (p : Seen -> bool) (o : list Seen) : nat :=
  length (List.filter p o).

(** *** The frame target manager under a recording driver *)

(** [m] returns from [d], with a result and a driver state in [Q]. *)
Definition reaches {A} (m : VK A) (d : Driver) (Q : A -> Driver -> Prop) : Prop :=
  exists a d', m d = Ok (a, d') /\ Q a d'.

(** What the manager makes and drops. *)
Inductive Target :=
| MadeView (image : Z) (format : VkFormat) (view : Z)
| MadeRenderPass (render_pass : Z)
| DroppedFramebuffer (framebuffer : Z)
| DroppedView (view : Z)
| DroppedRenderPass (render_pass : Z).

Definition watch (c : VkCall) : option Target :=
  match c with
  | vkCreateImageView _ image format view => Some (MadeView image format view)
  | vkCreateRenderPass _ render_pass => Some (MadeRenderPass render_pass)
  | vkDestroyFramebuffer framebuffer => Some (DroppedFramebuffer framebuffer)
  | vkDestroyImageView view => Some (DroppedView view)
  | vkDestroyRenderPass render_pass => Some (DroppedRenderPass render_pass)
  | _ => None
  end.

(** The views the constructor is seen to make: one per image, in order. *)
Definition views_made (images views : list Z) : list Target :=
  zip_with (fun image view => MadeView image VK_FORMAT_R8G8B8A8_SRGB view) images views.

(** What the destructor is seen to drop for one image. *)
Definition image_dropped (slot : Z * Z) : list Target :=
  [DroppedFramebuffer (fst slot); DroppedView (snd slot)].

(** No framebuffer is alive. *)
Definition no_framebuffer (d : Driver) : Prop :=
  forall h rp view w ht, objects d !! h <> Some (Framebuffer rp view w ht).

(** The driver has destroyed objects and created none. *)
Definition only_destroyed (d d' : Driver) : Prop :=
  forall h o, objects d' !! h = Some o -> objects d !! h = Some o.

(** What the loop of the constructor leaves as it is. *)
Record views_only (r r' : VulkanRenderer) : Prop := mkViewsOnly {
  vo_width : current_rendering_width_ r' = current_rendering_width_ r;
  vo_height : current_rendering_height_ r' = current_rendering_height_ r;
  vo_interface : vulkan_interface_ r' = vulkan_interface_ r;
  vo_command_buffer : current_command_buffer_ r' = current_command_buffer_ r;
  vo_images : swapchain_images_ r' = swapchain_images_ r;
  vo_count : swapchain_image_count_ r' = swapchain_image_count_ r;
  vo_counter : frames_to_update_count_ r' = frames_to_update_count_ r;
  vo_pass : render_pass_ r' = render_pass_ r;
  vo_framebuffers : frame_buffers_ r' = frame_buffers_ r;
  vo_views : length (swapchain_views_ r') = length (swapchain_views_ r);
}.

(** *** The objects made per widget *)

(** The vertex buffers and the views of the widget textures. *)
Definition per_widget (o : VkObject) : bool :=
  match o with
  | Buffer _ VK_BUFFER_USAGE_VERTEX_BUFFER_BIT => true
  | ImageView _ VK_FORMAT_ETC2_R8G8B8A8_UNORM_BLOCK => true
  | _ => false
  end.

Definition is_buffer (o : VkObject) : bool :=
  match o with Buffer _ _ => true | _ => false end.

(** Every live per-widget object is in the vector it belongs to, under a
    handle that is not null. *)
Definition widget_objects_held (buffers views : list Z) (d : Driver) : Prop :=
  0 < next_handle d
  /\ forall h o, per_widget o = true -> objects d !! h = Some o ->
       h <> VK_NULL_HANDLE /\ h ∈ (if is_buffer o then buffers else views).

(** [d'] comes after [d], and from [d] to [d'] no per-widget object was
    created. *)
Definition nothing_new (d d' : Driver) : Prop :=
  later d d'
  /\ forall h o, per_widget o = true -> objects d' !! h = Some o -> objects d !! h = Some o.

(** No per-widget object is alive under [h]. *)
Definition vacant (d : Driver) (h : Z) : Prop :=
  forall o, per_widget o = true -> objects d !! h <> Some o.

(** No per-widget object is alive. *)
Definition no_widget_object (d : Driver) : Prop :=
  forall h o, objects d !! h = Some o -> per_widget o = false.

(** [m] returns from every driver state, with a result in [Q], and creates
    no per-widget object. *)
Definition quietly {A} (m : VK A) (Q : A -> Prop) : Prop :=
  forall d, exists a d', m d = Ok (a, d') /\ nothing_new d d' /\ Q a.

(** The widget count never goes down over the calls, [before] being the
    count before them. *)
Fixpoint never_shrinks (before : nat) (cs : list Call) : bool :=
  match cs with
  | [] => true
  | c :: rest =>
      (before <=? length (call_widgets c))%nat
      && never_shrinks (length (call_widgets c)) rest
  end.

End Observe.
(** * Scenarios *)

Module Scenario.

Import Renderer Interceptor FrameTarget Widgets.

(** A driver that has created nothing yet and answers [r] to the first
    fallible call. *)
Definition failing_driver (r : Z) : Driver :=
  mkDriver 1 [r] ∅ [] [] [] 0 [] [] ∅.

Definition fresh_globals : Globals :=
  mkGlobals (fun _ _ => 4096) 0 0 VK_NULL_HANDLE 0.

(** What a run gave, for runs that are known to return. *)
Definition outcome {A} (o : Outcome (A * Driver)) (otherwise : A * Driver) : A * Driver :=
  match o with
  | Ok x => x
  | Undefined _ => otherwise
  end.

(** A driver with a swapchain of three images and one memory type, host
    visible and host coherent; every call succeeds.  The host keeps two
    widget textures: image 7001 at address 7000 and image 7100 at address
    8100. *)
Definition driver3 : Driver :=
  mkDriver 1 [] ∅ [] [] [6] 1 [101; 102; 103] [] {[ 7000 := 7001; 8100 := 7100 ]}.

(** The uninitialised members, here with a counter of 77. *)
Definition garbage : FrameTarget.Indeterminate := FrameTarget.mkIndeterminate 0 0 77 0.

Definition no_renderer : VulkanRenderer := mkVulkanRenderer 0 0 false 0 [] 0 0 0 [] [].

(** The frame target manager constructed over that swapchain. *)
Definition frame_target3 : VulkanRenderer * Driver :=
  outcome (VulkanRenderer_ctor garbage true fresh_globals driver3) (no_renderer, driver3).

Definition screen_1280x720 : ScreenParams := mkScreenParams 1280 720 0 0 1280 720.

(** A frame rendered into swapchain image [i]. *)
Definition frame_on (i : nat) : Frame := mkFrame i screen_1280x720 500.

(** The members the widget renderer's constructor leaves alone. *)
Definition widgets_garbage : Widgets.Indeterminate := Widgets.mkIndeterminate 0 0 0.

Definition no_widgets_renderer : VulkanWidgetsRenderer :=
  mkVulkanWidgetsRenderer 0 0 0 0 0 0 [] [] 0 0 0 0 [] [].

(** The widget renderer right after its construction, Vulkan loaded. *)
Definition widgets_renderer : VulkanWidgetsRenderer * Driver :=
  outcome (VulkanWidgetsRenderer_ctor widgets_garbage true driver3)
          (no_widgets_renderer, driver3).

(** A widget of 100 by 50 at the origin, and another one. *)
Definition widget_100x50 : Widget.WidgetParams := Widget.mkWidgetParams 0 0 100 50 7000.
Definition widget_other : Widget.WidgetParams := Widget.mkWidgetParams 200 100 64 64 8100.

Definition render (widgets : list Widget.WidgetParams) (render_pass : Z) : Call :=
  mkCall screen_1280x720 widgets 500 render_pass.

(** The widget count goes from two to one. *)
Definition two_then_one : list Call :=
  [render [widget_100x50; widget_other] 900; render [widget_100x50] 900].

(** Three calls, the render pass changing and then changing back. *)
Definition there_and_back : list Call :=
  [render [widget_100x50] 900; render [widget_100x50] 901; render [widget_100x50] 900].

(** Four frames, all on image 0: the call that sees the new dimensions and
    three more. *)
Definition frames_on_first_image : list Frame :=
  [frame_on 0; frame_on 0; frame_on 0; frame_on 0].

(** Four frames, the images taken in turn. *)
Definition frames_in_turn : list Frame :=
  [frame_on 0; frame_on 1; frame_on 2; frame_on 0].

End Scenario.

(** * Further scenarios *)

Module Cases.

Import Renderer Interceptor FrameTarget Widgets Scenario.

(** A manager over one swapchain image: it holds view 2 and framebuffer 3
    for it, at 1280 by 720, and one framebuffer is still due. *)
Definition one_image_target : VulkanRenderer :=
  mkVulkanRenderer 1280 720 true 500 [101] 1 1 5 [2] [3].

(** A driver that keeps that framebuffer alive and is out of device memory
    at the next fallible call. *)
Definition out_of_memory : Driver :=
  mkDriver 6 [VK_ERROR_OUT_OF_DEVICE_MEMORY]
    {[ 3 := Framebuffer 5 2 1280 720 ]} [] [] [6] 1 [101] [] ∅.

(** A device without any memory type. *)
Definition no_memory_types : Driver :=
  mkDriver 1 [] ∅ [] [] [] 1 [] [] ∅.

(** One widget in the first call, two from then on. *)
Definition one_widget_first : Call := render [widget_100x50] 900.

Definition two_widgets_then : list Call :=
  [render [widget_100x50; widget_other] 900; render [widget_other; widget_100x50] 901].

End Cases.
(** * Properties *)

Import Interceptor Scenario Spec.

(** ** Stepping through plugin code *)

Lemma at_ok {A} (name : string) (v : list A) (i : nat) (x : A) (d : Driver) :
  v !! i = Some x -> at_ name v i d = Ok (x, d).
Proof. intros H. unfold at_. now rewrite H. Qed.

Lemma at_fault {A} (name : string) (v : list A) (i : nat) (d : Driver) :
  (length v <= i)%nat -> at_ name v i d = Undefined (OutOfBounds name i (length v)).
Proof. intros H. unfold at_. now rewrite (lookup_ge_None_2 v i H). Qed.

Lemma set_at_ok {A} (name : string) (v : list A) (i : nat) (x : A) (d : Driver) :
  (i < length v)%nat -> set_at name v i x d = Ok (<[i := x]> v, d).
Proof. intros H. unfold set_at. now rewrite decide_True. Qed.

Lemma bind_ok {A B} (m : VK A) (k : A -> VK B) (d d' : Driver) (a : A) :
  m d = Ok (a, d') -> bind m k d = k a d'.
Proof. intros H. unfold bind. now rewrite H. Qed.

(** ** Swapchain interceptor *)

Lemma strcmp_zero (a b : string) : strcmp a b = 0 <-> a = b.
Proof.
  unfold strcmp. split.
  - destruct (String.compare a b) eqn:E; try discriminate.
    intros _. now apply String.compare_eq_iff.
  - intros ->. pose proof (String.compare_antisym b b) as H.
    destruct (String.compare b b); simpl in H; congruence.
Qed.

(** C3 (the code departs from it): both hooks forward to the driver and
    store [*pSwapchain] / [*pImageIndex] whatever the driver answered, but
    they are [void] functions: when the driver fails with
    [VK_ERROR_OUT_OF_DEVICE_MEMORY] (resp. [VK_ERROR_OUT_OF_DATE_KHR]) the
    caller gets the same, empty, return value as on success. *)
Theorem hooks_drop_the_result_code :
  let fail1 := Hook_vkCreateSwapchainKHR fresh_globals 7 (failing_driver VK_ERROR_OUT_OF_DEVICE_MEMORY) in
  let ok1 := Hook_vkCreateSwapchainKHR fresh_globals 7 (failing_driver VK_SUCCESS) in
  let fail2 := Hook_vkAcquireNextImageKHR fresh_globals 2 9 5 (failing_driver VK_ERROR_OUT_OF_DATE_KHR) in
  let ok2 := Hook_vkAcquireNextImageKHR fresh_globals 2 9 5 (failing_driver VK_SUCCESS) in
  calls (snd fail1) = [vkCreateSwapchainKHR VK_ERROR_OUT_OF_DEVICE_MEMORY 7]
  /\ calls (snd ok1) = [vkCreateSwapchainKHR VK_SUCCESS 1]
  /\ fst (fst (fst fail1)) = fst (fst (fst ok1))
  /\ cached_swapchain (snd (fst (fst fail1))) = 7
  /\ calls (snd fail2) = [vkAcquireNextImageKHR VK_ERROR_OUT_OF_DATE_KHR 9 5]
  /\ calls (snd ok2) = [vkAcquireNextImageKHR VK_SUCCESS 9 2]
  /\ fst (fst (fst fail2)) = fst (fst (fst ok2))
  /\ image_index (snd (fst (fst fail2))) = 5%nat.
Proof. repeat split. Qed.

(** C9: for every name other than "vkCreateSwapchainKHR" and
    "vkAcquireNextImageKHR" the wrapped resolver returns the address the
    host's resolver returns, and changes nothing; those two names, and no
    other, resolve to the wrappers: the first to the create-swapchain
    hook, the second to the acquire hook. *)
Theorem MyGetInstanceProcAddr_pass_through (g : Globals) (instance : Z) (pName : string) :
  pName <> "vkCreateSwapchainKHR" ->
  pName <> "vkAcquireNextImageKHR" ->
  MyGetInstanceProcAddr g instance pName
    = (HostFunction (Orig_GetInstanceProcAddr g instance pName), g)
  /\ (forall hook, fst (MyGetInstanceProcAddr g instance pName) <> AddressOf hook)
  /\ fst (MyGetInstanceProcAddr g instance "vkCreateSwapchainKHR")
     = AddressOf CreateSwapchainHook
  /\ fst (MyGetInstanceProcAddr g instance "vkAcquireNextImageKHR")
     = AddressOf AcquireNextImageHook.
Proof.
  intros H1 H2.
  assert (E : MyGetInstanceProcAddr g instance pName
              = (HostFunction (Orig_GetInstanceProcAddr g instance pName), g)).
  { unfold MyGetInstanceProcAddr.
    destruct (Z.eqb_spec (strcmp pName "vkCreateSwapchainKHR") 0) as [e|_].
    { apply strcmp_zero in e. contradiction. }
    destruct (Z.eqb_spec (strcmp pName "vkAcquireNextImageKHR") 0) as [e|_].
    { apply strcmp_zero in e. contradiction. }
    reflexivity. }
  split; [exact E|]. split; [intros hook; rewrite E; discriminate|].
  split; reflexivity.
Qed.

Lemma MyGetInstanceProcAddr_pass_through_witness :
  MyGetInstanceProcAddr fresh_globals 1 "vkCreateImageView"
    = (HostFunction 4096, fresh_globals)
  /\ (forall hook, fst (MyGetInstanceProcAddr fresh_globals 1 "vkCreateImageView")
                   <> AddressOf hook)
  /\ fst (MyGetInstanceProcAddr fresh_globals 1 "vkCreateSwapchainKHR")
     = AddressOf CreateSwapchainHook
  /\ fst (MyGetInstanceProcAddr fresh_globals 1 "vkAcquireNextImageKHR")
     = AddressOf AcquireNextImageHook.
Proof.
  apply (MyGetInstanceProcAddr_pass_through fresh_globals 1 "vkCreateImageView"); discriminate.
Defined.

(** ** Frame target manager *)

Import Renderer FrameTarget Widgets.

Lemma note_dimensions_fields (r : VulkanRenderer) (sp : ScreenParams) (cb : Z) :
  let r1 := note_dimensions r sp cb in
  frames_to_update_count_ r1 = counter_after_check r sp
  /\ swapchain_image_count_ r1 = swapchain_image_count_ r
  /\ frame_buffers_ r1 = frame_buffers_ r
  /\ swapchain_views_ r1 = swapchain_views_ r
  /\ render_pass_ r1 = render_pass_ r
  /\ current_rendering_width_ r1 = viewport_width sp
  /\ current_rendering_height_ r1 = viewport_height sp.
Proof.
  unfold note_dimensions, counter_after_check.
  destruct (dimensions_changed r sp) eqn:E; simpl; repeat split; try reflexivity.
  - unfold dimensions_changed in E. apply orb_false_elim in E as [E _].
    apply negb_false_iff in E. symmetry. now apply Z.eqb_eq.
  - unfold dimensions_changed in E. apply orb_false_elim in E as [_ E].
    apply negb_false_iff in E. symmetry. now apply Z.eqb_eq.
Qed.

(** What [update_frame_buffer] does when the image index is in range. *)
Lemma update_frame_buffer_ok (g : Globals) (r : VulkanRenderer) (sp : ScreenParams)
    (d : Driver) (old view : Z) :
  frame_buffers_ r !! image_index g = Some old ->
  swapchain_views_ r !! image_index g = Some view ->
  let d0 := if negb (old =? VK_NULL_HANDLE) then destroying vkDestroyFramebuffer old d else d in
  let w := Int.to_uint32 (width sp) in
  let h := Int.to_uint32 (height sp) in
  let made := creating (Framebuffer (render_pass_ r) view w h)
                (fun res => vkCreateFramebuffer res (render_pass_ r) view w h) old d0 in
  update_frame_buffer g r sp d
  = Ok (mkVulkanRenderer (current_rendering_width_ r) (current_rendering_height_ r)
          (vulkan_interface_ r) (current_command_buffer_ r) (swapchain_images_ r)
          (swapchain_image_count_ r) (Nat.pred (frames_to_update_count_ r)) (render_pass_ r)
          (swapchain_views_ r) (<[image_index g := snd (fst made)]> (frame_buffers_ r)),
        snd made).
Proof.
  intros Hold Hview. simpl.
  unfold update_frame_buffer.
  rewrite (bind_ok _ _ d d old) by now apply at_ok.
  assert (Hlt : (image_index g < length (frame_buffers_ r))%nat)
    by (apply lookup_lt_is_Some; eauto).
  destruct (negb (old =? VK_NULL_HANDLE)); unfold bind, drv_, drv, ret; simpl;
    rewrite (at_ok _ _ _ view) by assumption; simpl;
    rewrite set_at_ok by assumption; reflexivity.
Qed.

(** One call of [RunRenderingPreProcessing] with the image index in range:
    it returns, sizes stay, and the counter is the one after the dimension
    check, less one unless it is zero. *)
Lemma RunRenderingPreProcessing_counter (g : Globals) (r : VulkanRenderer)
    (sp : ScreenParams) (cb : Z) (d : Driver) :
  sized r ->
  (image_index g < swapchain_image_count_ r)%nat ->
  exists r' d',
    RunRenderingPreProcessing g r sp cb d = Ok (r', d')
    /\ sized r'
    /\ swapchain_image_count_ r' = swapchain_image_count_ r
    /\ frames_to_update_count_ r' = Nat.pred (counter_after_check r sp)
    /\ current_rendering_width_ r' = viewport_width sp
    /\ current_rendering_height_ r' = viewport_height sp.
Proof.
  intros [Hfb Hv] Hi.
  destruct (note_dimensions_fields r sp cb) as (Hc & Hn & Hf & Hvs & _ & Hw & Hh).
  unfold RunRenderingPreProcessing.
  set (r1 := note_dimensions r sp cb) in *.
  assert (Hfb1 : length (frame_buffers_ r1) = swapchain_image_count_ r) by congruence.
  destruct (lookup_lt_is_Some_2 (frame_buffers_ r1) (image_index g)) as [old Hold]; [lia|].
  destruct (lookup_lt_is_Some_2 (swapchain_views_ r1) (image_index g)) as [view Hview];
    [rewrite Hvs; lia|].
  destruct (0 <? frames_to_update_count_ r1)%nat eqn:E.
  - pose proof (update_frame_buffer_ok g r1 sp d old view Hold Hview) as Hup.
    simpl in Hup.
    match type of Hup with _ = Ok (?x, ?y) => set (r2 := x) in *; set (d2 := y) in * end.
    rewrite (bind_ok _ _ _ _ _ Hup).
    assert (Hlen : length (frame_buffers_ r2) = swapchain_image_count_ r)
      by (subst r2; simpl; now rewrite length_insert).
    destruct (lookup_lt_is_Some_2 (frame_buffers_ r2) (image_index g)) as [fb Hfb2]; [lia|].
    rewrite (bind_ok _ _ _ _ _ (at_ok _ _ _ _ d2 Hfb2)).
    unfold bind, drv_, ret. eexists _, _. split; [reflexivity|].
    subst r2; simpl. unfold sized; simpl. rewrite length_insert.
    repeat split; congruence.
  - unfold ret at 1. unfold bind at 1.
    rewrite (bind_ok _ _ _ _ _ (at_ok _ _ _ _ d Hold)).
    unfold bind, drv_, ret. eexists _, _. split; [reflexivity|].
    apply Nat.ltb_ge in E.
    unfold sized. repeat split; try congruence. lia.
Qed.

(** X18: the pending-update counter over a run of per-frame calls, each on
    an image of the swapchain, from a manager with one slot per image.  The
    run returns and the image count stays.  The counter follows the law of
    one call ([counter_after]): each call sets it to the image count when
    it sees a dimension change, and then takes one off unless it is zero.
    So once the counter is within the image count, or as soon as the first
    call sees a dimension change, it stays within it; every prefix of a run
    is a run, so this holds after each call.  Nothing is said of a counter
    that starts above the image count and sees no dimension change. *)
Theorem frames_to_update_count_bounded (g : Globals) (frames : list Frame)
    (r : VulkanRenderer) (d : Driver) :
  sized r ->
  Forall (fun f => (acquired f < swapchain_image_count_ r)%nat) frames ->
  exists r' d',
    run_frames g frames r d = Ok (r', d')
    /\ swapchain_image_count_ r' = swapchain_image_count_ r
    /\ frames_to_update_count_ r'
       = counter_after (swapchain_image_count_ r) (current_rendering_width_ r)
           (current_rendering_height_ r) (frames_to_update_count_ r) frames
    /\ (((frames_to_update_count_ r <= swapchain_image_count_ r)%nat
         \/ exists f rest, frames = f :: rest /\ dimensions_changed r (screen f) = true) ->
        (frames_to_update_count_ r' <= swapchain_image_count_ r')%nat).
Proof.
  revert r d. induction frames as [|f rest IH]; intros r d Hs Hall.
  - exists r, d. simpl. split; [reflexivity|]. split; [reflexivity|]. split; [reflexivity|].
    intros [Hle|(f & rest & Hnil & _)]; [exact Hle|discriminate].
  - inversion Hall as [|? ? Hf Hrest]; subst.
    destruct (RunRenderingPreProcessing_counter (with_image_index g (acquired f)) r
                (screen f) (command_buffer f) d Hs Hf)
      as (r1 & d1 & Hrun & Hs1 & Hn1 & Hc1 & Hw1 & Hh1).
    destruct (IH r1 d1 Hs1) as (r' & d' & Hrun' & Hn' & Hc' & Hle').
    { rewrite Hn1. exact Hrest. }
    exists r', d'. simpl. rewrite (bind_ok _ _ _ _ _ Hrun).
    split; [exact Hrun'|]. split; [congruence|]. split.
    + rewrite Hc', Hn1, Hw1, Hh1, Hc1. reflexivity.
    + intros Hstart. apply Hle'. left.
      rewrite Hc1, Hn1. unfold counter_after_check.
      destruct Hstart as [Hle|(f' & rest' & Heq & Hch)].
      * destruct (dimensions_changed r (screen f)); lia.
      * injection Heq as -> ->. rewrite Hch. lia.
Qed.

(** The call, spelled out, when a framebuffer is due. *)
Lemma RunRenderingPreProcessing_update (g : Globals) (r : VulkanRenderer)
    (sp : ScreenParams) (cb : Z) (d : Driver) (old view : Z) :
  (0 < counter_after_check r sp)%nat ->
  frame_buffers_ r !! image_index g = Some old ->
  swapchain_views_ r !! image_index g = Some view ->
  let r1 := note_dimensions r sp cb in
  let d0 := if negb (old =? VK_NULL_HANDLE) then destroying vkDestroyFramebuffer old d else d in
  let w := Int.to_uint32 (width sp) in
  let h := Int.to_uint32 (height sp) in
  let made := creating (Framebuffer (render_pass_ r) view w h)
                (fun res => vkCreateFramebuffer res (render_pass_ r) view w h) old d0 in
  RunRenderingPreProcessing g r sp cb d
  = Ok (mkVulkanRenderer (viewport_width sp) (viewport_height sp)
          (vulkan_interface_ r) cb (swapchain_images_ r)
          (swapchain_image_count_ r) (Nat.pred (counter_after_check r sp)) (render_pass_ r)
          (swapchain_views_ r) (<[image_index g := snd (fst made)]> (frame_buffers_ r)),
        emit (vkCmdBeginRenderPass cb (render_pass_ r) (snd (fst made)) w h) (snd made)).
Proof.
  intros Hpos Hold Hview. simpl.
  destruct (note_dimensions_fields r sp cb) as (Hc & Hn & Hf & Hvs & Hrp & Hw & Hh).
  unfold RunRenderingPreProcessing.
  assert (Hcb : current_command_buffer_ (note_dimensions r sp cb) = cb)
    by (unfold note_dimensions; destruct (dimensions_changed r sp); reflexivity).
  assert (Hvi : vulkan_interface_ (note_dimensions r sp cb) = vulkan_interface_ r)
    by (unfold note_dimensions; destruct (dimensions_changed r sp); reflexivity).
  assert (Him : swapchain_images_ (note_dimensions r sp cb) = swapchain_images_ r)
    by (unfold note_dimensions; destruct (dimensions_changed r sp); reflexivity).
  set (r1 := note_dimensions r sp cb) in *.
  rewrite Hc. rewrite (proj2 (Nat.ltb_lt _ _) Hpos).
  rewrite <- Hf in Hold. rewrite <- Hvs in Hview.
  pose proof (update_frame_buffer_ok g r1 sp d old view Hold Hview) as Hup.
  simpl in Hup. rewrite (bind_ok _ _ _ _ _ Hup). clear Hup.
  assert (Hlt : (image_index g < length (frame_buffers_ r1))%nat)
    by (apply lookup_lt_is_Some; eauto).
  erewrite bind_ok by (apply at_ok; simpl; apply list_lookup_insert_eq; exact Hlt).
  unfold bind, drv_, ret. simpl.
  now rewrite Hw, Hh, Hcb, Hvi, Him, Hn, Hc, Hrp, Hvs, Hf.
Qed.

(** The call, spelled out, when no framebuffer is due. *)
Lemma RunRenderingPreProcessing_idle (g : Globals) (r : VulkanRenderer)
    (sp : ScreenParams) (cb : Z) (d : Driver) (fb : Z) :
  counter_after_check r sp = 0%nat ->
  frame_buffers_ r !! image_index g = Some fb ->
  RunRenderingPreProcessing g r sp cb d
  = Ok (note_dimensions r sp cb,
        emit (vkCmdBeginRenderPass cb (render_pass_ r) fb
                (Int.to_uint32 (width sp)) (Int.to_uint32 (height sp))) d).
Proof.
  intros Hzero Hfb.
  destruct (note_dimensions_fields r sp cb) as (Hc & Hn & Hf & Hvs & Hrp & Hw & Hh).
  unfold RunRenderingPreProcessing.
  assert (Hcb : current_command_buffer_ (note_dimensions r sp cb) = cb)
    by (unfold note_dimensions; destruct (dimensions_changed r sp); reflexivity).
  set (r1 := note_dimensions r sp cb) in *.
  rewrite Hc, Hzero. simpl. unfold ret at 1. unfold bind at 1.
  rewrite <- Hf in Hfb.
  rewrite (bind_ok _ _ _ _ _ (at_ok _ _ _ _ d Hfb)).
  unfold bind, drv_, ret. now rewrite Hcb, Hrp.
Qed.

Lemma counter_after_check_same (r : VulkanRenderer) (sp : ScreenParams) :
  current_rendering_width_ r = viewport_width sp ->
  current_rendering_height_ r = viewport_height sp ->
  counter_after_check r sp = frames_to_update_count_ r.
Proof.
  intros Hw Hh. unfold counter_after_check, dimensions_changed.
  now rewrite Hw, Hh, !Z.eqb_refl.
Qed.

(** A rebuild step: an image not yet done gets its framebuffer. *)
Lemma rebuilding_step (g : Globals) (h0 rp : Z) (views : list Z) (sp : ScreenParams)
    (done : list nat) (r : VulkanRenderer) (d : Driver) (cb : Z) :
  rebuilding h0 rp views sp done r d ->
  image_index g ∉ done ->
  (image_index g < length views)%nat ->
  (length done < length views)%nat ->
  exists r' d',
    RunRenderingPreProcessing g r sp cb d = Ok (r', d')
    /\ rebuilding h0 rp views sp (image_index g :: done) r' d'.
Proof.
  intros [[Hfb Hv] Hn Hvs Hrp Hp Hh Hc Hdone Htodo] Hnot Hi Hlen.
  destruct (lookup_lt_is_Some_2 (frame_buffers_ r) (image_index g)) as [old Hold]; [lia|].
  destruct (lookup_lt_is_Some_2 (swapchain_views_ r) (image_index g)) as [view Hview]; [lia|].
  pose proof (Htodo _ _ Hold Hnot) as Hold0.
  pose proof (RunRenderingPreProcessing_update g r sp cb d old view) as Hrun.
  simpl in Hrun. rewrite Hrun by (assumption || lia). clear Hrun.
  eexists _, _. split; [reflexivity|].
  assert (Hnh : forall b : bool, next_handle (if b then destroying vkDestroyFramebuffer old d else d)
                                 = next_handle d) by (now intros []).
  assert (Hpe : forall b : bool, pending (if b then destroying vkDestroyFramebuffer old d else d)
                                 = []) by (now intros []).
  assert (Hob : forall (b : bool) (k : Z), k <> old ->
             objects (if b then destroying vkDestroyFramebuffer old d else d) !! k
             = objects d !! k).
  { intros [] k Hk; simpl; [now rewrite lookup_delete_ne|reflexivity]. }
  unfold creating, next_result, create. simpl. rewrite !Hpe, !Hnh. simpl.
  constructor; simpl.
  - unfold sized; simpl. rewrite length_insert. split; assumption.
  - assumption.
  - assumption.
  - assumption.
  - reflexivity.
  - lia.
  - rewrite counter_after_check_same by reflexivity. simpl. lia.
  - intros i fb Hl Hin.
    destruct (decide (i = image_index g)) as [->|Hne].
    + rewrite list_lookup_insert_eq in Hl by lia. injection Hl as <-.
      split; [lia|]. exists view. split; [congruence|].
      rewrite lookup_insert_eq. now rewrite Hrp.
    + rewrite list_lookup_insert_ne in Hl by congruence.
      assert (Hin' : i ∈ done) by (apply elem_of_cons in Hin as [?|?]; [contradiction|assumption]).
      destruct (Hdone _ _ Hl Hin') as (Hrange & view' & Hv' & Ho').
      split; [lia|]. exists view'. split; [assumption|].
      rewrite lookup_insert_ne by lia. rewrite Hob by lia. exact Ho'.
  - intros i fb Hl Hnin.
    destruct (decide (i = image_index g)) as [->|Hne].
    + exfalso. apply Hnin. left.
    + rewrite list_lookup_insert_ne in Hl by congruence.
      apply (Htodo _ _ Hl). intros Hin. apply Hnin. now right.
Qed.

(** Once every image is done, further calls leave the framebuffers alone. *)
Lemma rebuilding_idle (g : Globals) (h0 rp : Z) (views : list Z) (sp : ScreenParams)
    (done : list nat) (r : VulkanRenderer) (d : Driver) (cb : Z) :
  rebuilding h0 rp views sp done r d ->
  (image_index g < length views)%nat ->
  length done = length views ->
  exists r' d',
    RunRenderingPreProcessing g r sp cb d = Ok (r', d')
    /\ rebuilding h0 rp views sp done r' d'.
Proof.
  intros [[Hfb Hv] Hn Hvs Hrp Hp Hh Hc Hdone Htodo] Hi Hlen.
  destruct (lookup_lt_is_Some_2 (frame_buffers_ r) (image_index g)) as [fb Hfbi]; [lia|].
  rewrite (RunRenderingPreProcessing_idle g r sp cb d fb) by (assumption || lia).
  destruct (note_dimensions_fields r sp cb) as (Hc1 & Hn1 & Hf1 & Hvs1 & Hrp1 & Hw1 & Hh1).
  eexists _, _. split; [reflexivity|].
  constructor; simpl.
  - unfold sized. rewrite Hf1, Hvs1, Hn1. split; assumption.
  - congruence.
  - congruence.
  - congruence.
  - assumption.
  - assumption.
  - rewrite counter_after_check_same by assumption. rewrite Hc1. exact Hc.
  - intros i fb'. rewrite Hf1. apply Hdone.
  - intros i fb'. rewrite Hf1. apply Htodo.
Qed.

Lemma run_frames_app (g : Globals) (fs1 fs2 : list Frame) (r : VulkanRenderer) (d : Driver) :
  run_frames g (fs1 ++ fs2) r d = bind (run_frames g fs1 r) (run_frames g fs2) d.
Proof.
  revert r d. induction fs1 as [|f fs1 IH]; intros r d; simpl.
  - reflexivity.
  - unfold bind in *.
    destruct (RunRenderingPreProcessing _ r (screen f) (command_buffer f) d) as [[r1 d1]|];
      [apply IH|reflexivity].
Qed.

(** Frames on pairwise distinct images, none done yet: all get rebuilt. *)
Lemma rebuilding_run (g : Globals) (h0 rp : Z) (views : list Z) (sp : ScreenParams)
    (fs : list Frame) :
  forall (done : list nat) (r : VulkanRenderer) (d : Driver),
  rebuilding h0 rp views sp done r d ->
  Forall (fun f => screen f = sp /\ (acquired f < length views)%nat) fs ->
  NoDup ((acquired <$> fs) ++ done) ->
  (length fs + length done <= length views)%nat ->
  exists r' d' done',
    run_frames g fs r d = Ok (r', d')
    /\ rebuilding h0 rp views sp done' r' d'
    /\ length done' = (length fs + length done)%nat
    /\ (forall i, i ∈ (acquired <$> fs) \/ i ∈ done -> i ∈ done').
Proof.
  induction fs as [|f fs IH]; intros done r d Hinv Hall Hnd Hlen.
  - exists r, d, done. simpl.
    split; [reflexivity|]. split; [assumption|]. split; [reflexivity|].
    intros i [Hi|Hi]; [now apply elem_of_nil in Hi|assumption].
  - inversion Hall as [|? ? [Hsp Hlt] Hrest]; subst.
    simpl in Hnd. apply NoDup_cons in Hnd as [Hnotin Hnd].
    assert (Hnot : acquired f ∉ done).
    { intros Hin. apply Hnotin. apply elem_of_app. now right. }
    simpl in Hlen.
    destruct (rebuilding_step (with_image_index g (acquired f)) h0 rp views (screen f) done r d
                (command_buffer f) Hinv Hnot Hlt) as (r1 & d1 & Hrun & Hinv1); [lia|].
    simpl in Hinv1.
    destruct (IH (acquired f :: done) r1 d1 Hinv1 Hrest)
      as (r' & d' & done' & Hrun' & Hinv' & Hl' & Hin').
    { apply NoDup_app. apply NoDup_app in Hnd as (Hnd1 & Hdisj & Hnd2).
      split; [assumption|]. split.
      - intros x Hx Hx'. apply elem_of_cons in Hx' as [->|Hx'].
        + apply Hnotin. apply elem_of_app. now left.
        + exact (Hdisj x Hx Hx').
      - apply NoDup_cons. split; assumption. }
    { simpl. lia. }
    exists r', d', done'. simpl. rewrite (bind_ok _ _ _ _ _ Hrun).
    split; [exact Hrun'|]. split; [exact Hinv'|]. split; [simpl in Hl'; lia|].
    intros i [Hi|Hi]; apply Hin'.
    + apply elem_of_cons in Hi as [->|Hi]; [right; left|now left].
    + right. now right.
Qed.

(** Frames after the rebuild is complete. *)
Lemma rebuilding_rest (g : Globals) (h0 rp : Z) (views : list Z) (sp : ScreenParams)
    (done : list nat) (fs : list Frame) :
  forall (r : VulkanRenderer) (d : Driver),
  rebuilding h0 rp views sp done r d ->
  length done = length views ->
  Forall (fun f => screen f = sp /\ (acquired f < length views)%nat) fs ->
  exists r' d',
    run_frames g fs r d = Ok (r', d') /\ rebuilding h0 rp views sp done r' d'.
Proof.
  induction fs as [|f fs IH]; intros r d Hinv Hlen Hall.
  - exists r, d. now split.
  - inversion Hall as [|? ? [Hsp Hlt] Hrest]; subst.
    destruct (rebuilding_idle (with_image_index g (acquired f)) h0 rp views (screen f) done r d
                (command_buffer f) Hinv Hlt Hlen) as (r1 & d1 & Hrun & Hinv1).
    destruct (IH r1 d1 Hinv1 Hlen Hrest) as (r' & d' & Hrun' & Hinv').
    exists r', d'. simpl. rewrite (bind_ok _ _ _ _ _ Hrun). now split.
Qed.

(** [n] pairwise distinct indices below [n] are all the indices below [n]. *)
Lemma distinct_indices_cover (l : list nat) (n i : nat) :
  NoDup l -> length l = n -> Forall (fun k => (k < n)%nat) l -> (i < n)%nat -> i ∈ l.
Proof.
  intros Hnd Hlen Hall Hi.
  assert (Hsub : l ⊆+ seq 0 n).
  { apply NoDup_submseteq; [assumption|].
    intros x Hx. apply elem_of_seq. rewrite Forall_forall in Hall.
    specialize (Hall x Hx). lia. }
  assert (Hperm : l ≡ₚ seq 0 n).
  { apply submseteq_length_Permutation; [assumption|]. rewrite length_seq. lia. }
  rewrite Hperm. apply elem_of_seq. lia.
Qed.

(** C4, amended: after a dimension change is seen by a call, once the
    swapchain_image_count_ calls from that one on were made on pairwise
    distinct images (so on every image), with the same screen parameters
    and a driver whose calls succeed, every image has a live framebuffer of
    the requested width and height, however many calls follow. *)
Theorem framebuffers_rebuilt_on_distinct_images (g : Globals) (frames : list Frame)
    (r : VulkanRenderer) (d : Driver) (sp : ScreenParams) :
  sized r ->
  pending d = [] ->
  0 < next_handle d ->
  Forall (fun fb => fb < next_handle d) (frame_buffers_ r) ->
  dimensions_changed r sp = true ->
  Forall (fun f => screen f = sp /\ (acquired f < swapchain_image_count_ r)%nat) frames ->
  (swapchain_image_count_ r <= length frames)%nat ->
  NoDup (acquired <$> take (swapchain_image_count_ r) frames) ->
  exists r' d',
    run_frames g frames r d = Ok (r', d') /\ all_framebuffers_current r' d' sp.
Proof.
  intros Hs Hp Hh Hold Hch Hall Hlen Hnd.
  set (n := swapchain_image_count_ r) in *.
  destruct Hs as [Hfb Hv].
  assert (Hinv : rebuilding (next_handle d) (render_pass_ r) (swapchain_views_ r) sp [] r d).
  { constructor.
    - now split.
    - now symmetry.
    - reflexivity.
    - reflexivity.
    - assumption.
    - lia.
    - unfold counter_after_check. rewrite Hch. simpl. fold n. lia.
    - intros i fb _ Hin. now apply elem_of_nil in Hin.
    - intros i fb Hl _. rewrite Forall_forall in Hold. apply Hold.
      apply list_elem_of_lookup. eauto. }
  rewrite <- (take_drop n frames), run_frames_app.
  assert (Hall1 : Forall (fun f => screen f = sp /\ (acquired f < length (swapchain_views_ r))%nat)
                    (take n frames)).
  { rewrite Hv. now apply Forall_take. }
  assert (Hall2 : Forall (fun f => screen f = sp /\ (acquired f < length (swapchain_views_ r))%nat)
                    (drop n frames)).
  { rewrite Hv. now apply Forall_drop. }
  assert (Htake : length (take n frames) = n) by (rewrite length_take; lia).
  destruct (rebuilding_run g _ _ _ sp (take n frames) [] r d Hinv Hall1)
    as (r1 & d1 & done & Hrun1 & Hinv1 & Hl1 & Hin1).
  { now rewrite app_nil_r. }
  { simpl. lia. }
  destruct (rebuilding_rest g _ _ _ sp done (drop n frames) r1 d1 Hinv1) as (r' & d' & Hrun' & Hinv').
  { simpl in Hl1. lia. }
  { exact Hall2. }
  exists r', d'. rewrite (bind_ok _ _ _ _ _ Hrun1). split; [exact Hrun'|].
  destruct Hinv' as [[Hfb' Hv'] Hn' Hvs' Hrp' _ _ _ Hdone' _].
  intros i Hi.
  destruct (lookup_lt_is_Some_2 (frame_buffers_ r') i) as [fb Hfbi]; [lia|].
  assert (Hin : i ∈ done).
  { apply Hin1. left.
    apply (distinct_indices_cover _ n); [assumption|now rewrite length_fmap| |lia].
    apply Forall_fmap. eapply Forall_impl; [exact Hall1|].
    intros f [_ Hf]. simpl. lia. }
  destruct (Hdone' i fb Hfbi Hin) as (_ & view & Hview & Hobj).
  exists fb, view. rewrite Hvs', Hrp'. now repeat split.
Qed.

Lemma frames_to_update_count_bounded_witness :
  exists r' d',
    run_frames fresh_globals frames_on_first_image (fst frame_target3) (snd frame_target3)
    = Ok (r', d')
    /\ swapchain_image_count_ r' = swapchain_image_count_ (fst frame_target3)
    /\ frames_to_update_count_ r'
       = counter_after (swapchain_image_count_ (fst frame_target3))
           (current_rendering_width_ (fst frame_target3))
           (current_rendering_height_ (fst frame_target3))
           (frames_to_update_count_ (fst frame_target3)) frames_on_first_image
    /\ (((frames_to_update_count_ (fst frame_target3)
          <= swapchain_image_count_ (fst frame_target3))%nat
         \/ exists f rest, frames_on_first_image = f :: rest
              /\ dimensions_changed (fst frame_target3) (screen f) = true) ->
        (frames_to_update_count_ r' <= swapchain_image_count_ r')%nat).
Proof.
  apply (frames_to_update_count_bounded fresh_globals frames_on_first_image
           (fst frame_target3) (snd frame_target3)).
  - vm_compute. split; reflexivity.
  - repeat constructor; vm_compute; lia.
Defined.

(** C4 as stated fails: the manager is built over three images and holds a
    counter, not a set of images; when the four calls from the dimension
    change on are all made on image 0, that image is rebuilt three times and
    images 1 and 2 never get a framebuffer. *)
Lemma framebuffers_stale_when_image_repeats :
  dimensions_changed (fst frame_target3) screen_1280x720 = true
  /\ Forall (fun f => screen f = screen_1280x720
                      /\ (acquired f < swapchain_image_count_ (fst frame_target3))%nat)
       frames_on_first_image
  /\ length frames_on_first_image = S (swapchain_image_count_ (fst frame_target3))
  /\ exists r' d',
       run_frames fresh_globals frames_on_first_image (fst frame_target3) (snd frame_target3)
       = Ok (r', d')
       /\ frames_to_update_count_ r' = 0%nat
       /\ ~ all_framebuffers_current r' d' screen_1280x720.
Proof.
  split; [reflexivity|]. split; [repeat constructor; vm_compute; lia|].
  split; [reflexivity|].
  eexists _, _. split; [vm_compute; reflexivity|]. split; [reflexivity|].
  intros H. destruct (H 1%nat) as (fb & view & Hfb & _ & Hobj); [simpl; lia|].
  vm_compute in Hfb. injection Hfb as <-. vm_compute in Hobj. discriminate.
Qed.

Lemma framebuffers_rebuilt_on_distinct_images_witness :
  exists r' d',
    run_frames fresh_globals frames_in_turn (fst frame_target3) (snd frame_target3) = Ok (r', d')
    /\ all_framebuffers_current r' d' screen_1280x720.
Proof.
  apply (framebuffers_rebuilt_on_distinct_images fresh_globals frames_in_turn
           (fst frame_target3) (snd frame_target3) screen_1280x720).
  - vm_compute. split; reflexivity.
  - reflexivity.
  - vm_compute. reflexivity.
  - vm_compute. repeat constructor.
  - reflexivity.
  - repeat constructor; vm_compute; lia.
  - vm_compute. lia.
  - vm_compute. apply (bool_decide_unpack (NoDup [0%nat; 1%nat; 2%nat])). exact I.
Defined.

(** C8 (the code departs from it): the constructor does not set
    [frames_to_update_count_], and it sets the rendering size to 0 by 0.
    When the first frame comes with a viewport of 0 by 0 no dimension
    change is seen, so the counter is not set to the image count either:
    the call works with what the memory held, and leaves it one less.  On
    the swapchain of three images a memory value of 77 leaves 76. *)
Theorem pending_count_starts_uninitialised (any : FrameTarget.Indeterminate) :
  exists r d r' d',
    VulkanRenderer_ctor any true fresh_globals driver3 = Ok (r, d)
    /\ swapchain_image_count_ r = 3%nat
    /\ RunRenderingPreProcessing fresh_globals r (mkScreenParams 0 0 0 0 0 0) 500 d
       = Ok (r', d')
    /\ swapchain_image_count_ r' = 3%nat
    /\ frames_to_update_count_ r' = Nat.pred (FrameTarget.some_frames_to_update any)
    /\ ((4 < FrameTarget.some_frames_to_update any)%nat ->
        (swapchain_image_count_ r' < frames_to_update_count_ r')%nat).
Proof.
  let t := eval vm_compute in (VulkanRenderer_ctor any true fresh_globals driver3) in
  assert (E : VulkanRenderer_ctor any true fresh_globals driver3 = t)
    by (vm_compute; reflexivity);
  match t with
  | Ok (?r, ?d) =>
      exists r, d;
      destruct (RunRenderingPreProcessing_counter fresh_globals r
                  (mkScreenParams 0 0 0 0 0 0) 500 d)
        as (r' & d' & Hrun & _ & Hn & Hc & _);
      [split; reflexivity|simpl; lia|];
      exists r', d'
  end.
  assert (Hc' : frames_to_update_count_ r'
                = Nat.pred (FrameTarget.some_frames_to_update any)) by exact Hc.
  assert (Hn' : swapchain_image_count_ r' = 3%nat) by exact Hn.
  split; [exact E|]. split; [reflexivity|]. split; [exact Hrun|].
  split; [exact Hn'|]. split; [exact Hc'|].
  intros Hbig. rewrite Hn', Hc'. lia.
Qed.

(** ** Widget overlay renderer *)

Lemma create_many_calls (res : Z) (n : nat) (obj : VkObject) (d : Driver) :
  calls (snd (create_many res n obj d)) = calls d
  /\ length (fst (create_many res n obj d)) = n.
Proof.
  revert d. induction n as [|n IH]; intros d; [now split|].
  cbn [create_many].
  destruct (IH (snd (create res obj VK_NULL_HANDLE d))) as [IH1 IH2].
  destruct (create res obj VK_NULL_HANDLE d) as [h d1] eqn:E1.
  assert (Hd1 : calls d1 = calls d)
    by (unfold create in E1; injection E1 as _ <-; reflexivity).
  simpl in IH1, IH2. destruct (create_many res n obj d1) as [hs d2].
  simpl in *. split; congruence.
Qed.

(** [vkAllocateDescriptorSets], spelled out. *)
Lemma CALL_VK_allocating (pool : Z) (n : nat) (out : list Z) (d : Driver) :
  length out = n ->
  exists res sets d',
    CALL_VK (allocating pool n out) d = Ok (sets, d')
    /\ length sets = n
    /\ calls d' = vkAllocateDescriptorSets res pool (Z.of_nat n) sets :: calls d.
Proof.
  intros Hout. unfold CALL_VK, allocating, next_result.
  set (d1 := mkDriver _ _ _ _ _ _ _ _ _ _).
  destruct (create_many_calls (hd VK_SUCCESS (pending d)) n (DescriptorSet pool) d1) as [Hc Hl].
  destruct (create_many (hd VK_SUCCESS (pending d)) n (DescriptorSet pool) d1) as [hs d2].
  simpl in Hc, Hl. eexists _, _, _. split; [reflexivity|]. split.
  - destruct (succeeded _); assumption.
  - simpl. rewrite Hc. reflexivity.
Qed.

(** *** The quad of a widget *)

Lemma wrap_int_id (z : Z) : Int.in_int z -> Int.wrap_int z = z.
Proof.
  unfold Int.in_int, Int.wrap_int. intros H.
  rewrite Z.mod_small by lia. lia.
Qed.

Section Quad.

Variable Lerp : spec_float -> spec_float -> spec_float -> spec_float.

(** C7: for a widget at host-space y = 0 of height [H] on a viewport of
    height [V > 0], the edge of the quad that its first and last vertex
    span (the top one in Vulkan's clip space, where y grows downwards) is at
    [Lerp(-1, +1, (V - H) / V)], the division being that of the two
    integers converted to [float]; the opposite edge is one NDC height
    [2H / V] further. *)
Theorem quad_top_edge_is_mirrored (H V : Z) (wx ww wt : Z) (sw sh vx vy vw : Z) :
  0 < V ->
  Int.in_int V ->
  Int.in_int (V - H) ->
  let top := Lerp (F32.of_int (-1)) (F32.of_int 1)
               (F32.div (F32.of_int (V - H)) (F32.of_int V)) in
  let height := F32.div (F32.mul (F32.of_int H) (F32.of_int 2)) (F32.of_int V) in
  exists v0 v1 v2 v3,
    quad_vertices Lerp (Widget.mkWidgetParams wx 0 ww H wt) (mkScreenParams sw sh vx vy vw V)
    = [v0; v1; v2; v3]
    /\ pos_y v0 = top /\ pos_y v3 = top
    /\ pos_y v1 = F32.add top height /\ pos_y v2 = F32.add top height.
Proof.
  intros Hpos HV HVH top height.
  unfold quad_vertices. simpl.
  unfold Int.sub. rewrite Z.sub_0_r, (wrap_int_id V HV), (wrap_int_id (V - H) HVH).
  eexists _, _, _, _. split; [reflexivity|]. simpl. repeat split.
Qed.

End Quad.

Lemma quad_top_edge_is_mirrored_witness :
  exists v0 v1 v2 v3,
    quad_vertices Math.Lerp (Widget.mkWidgetParams 0 0 100 50 7000)
                  (mkScreenParams 1280 720 0 0 1280 720)
    = [v0; v1; v2; v3]
    /\ pos_y v0 = Math.Lerp (F32.of_int (-1)) (F32.of_int 1)
                    (F32.div (F32.of_int (720 - 50)) (F32.of_int 720))
    /\ pos_y v3 = Math.Lerp (F32.of_int (-1)) (F32.of_int 1)
                    (F32.div (F32.of_int (720 - 50)) (F32.of_int 720))
    /\ pos_y v1 = F32.add (Math.Lerp (F32.of_int (-1)) (F32.of_int 1)
                             (F32.div (F32.of_int (720 - 50)) (F32.of_int 720)))
                          (F32.div (F32.mul (F32.of_int 50) (F32.of_int 2)) (F32.of_int 720))
    /\ pos_y v2 = F32.add (Math.Lerp (F32.of_int (-1)) (F32.of_int 1)
                             (F32.div (F32.of_int (720 - 50)) (F32.of_int 720)))
                          (F32.div (F32.mul (F32.of_int 50) (F32.of_int 2)) (F32.of_int 720)).
Proof.
  apply (quad_top_edge_is_mirrored Math.Lerp 50 720 0 100 7000 1280 720 0 0 1280);
    unfold Int.in_int; lia.
Defined.

(** C6: the renderer is constructed on a driver that has done nothing yet
    and renders the one widget (x = 0, y = 0, w = 100, h = 50) on the
    1280 x 720 viewport.  One quad of four vertices is uploaded: its x
    coordinates are -1 and -1 + 2 * 100 / 1280, both exact in binary32; its
    y coordinates are +1, exact, and the binary32 number that the
    computation yields for 1 - 2 * 50 / 720, which is within 2^-24 of it.
    One descriptor set is written and one indexed draw of 6 indices is
    recorded. *)
Theorem one_widget_end_to_end :
  exists r' d' memory v0 v1 v2 v3,
    RenderWidgets Math.Lerp (fst widgets_renderer) screen_1280x720 [widget_100x50] 500 900
                  (snd widgets_renderer) = Ok (r', d')
    /\ count is_vertex_upload (calls d') = 1%nat
    /\ latest is_vertex_upload (calls d') = Some (memcpy memory (Vertices [v0; v1; v2; v3]))
    /\ (F32.value (pos_x v0) == -1)%Q /\ pos_x v1 = pos_x v0
    /\ (F32.value (pos_x v2) == -1 + 2 * 100 / 1280)%Q /\ pos_x v3 = pos_x v2
    /\ (F32.value (pos_y v1) == 1)%Q /\ pos_y v2 = pos_y v1
    /\ (1 - 2 * 50 / 720 - 1 / 16777216 <= F32.value (pos_y v0))%Q
    /\ (F32.value (pos_y v0) <= 1 - 2 * 50 / 720 + 1 / 16777216)%Q
    /\ pos_y v3 = pos_y v0
    /\ count is_descriptor_write (calls d') = 1%nat
    /\ count is_draw (calls d') = 1%nat
    /\ latest is_draw (calls d') = Some (vkCmdDrawIndexed 500 6 1 0 0 0).
Proof.
  eexists _, _, _, _, _, _, _.
  split; [vm_compute; reflexivity|].
  split; [reflexivity|].
  split; [vm_compute; reflexivity|].
  repeat split; try (vm_compute; reflexivity); vm_compute; discriminate.
Qed.

(** C2 (the code departs from it): the widget count goes from two to one
    over two calls of [RenderWidgets].  Afterwards every per-widget vector
    has one slot, but nothing of the second slot was released: its vertex
    buffer (handle 11), its memory (12) and its image view (17) are alive in
    the driver, and so are the first descriptor pool (6) and its two sets
    (7, 8); the renderer holds none of these handles any more. *)
Theorem shrinking_leaks_the_dropped_slot :
  exists r' d',
    render_frames Math.Lerp two_then_one (fst widgets_renderer) (snd widgets_renderer)
    = Ok (r', d')
    /\ slots 1 r'
    /\ objects d' !! 11 = Some (Buffer 64 VK_BUFFER_USAGE_VERTEX_BUFFER_BIT) /\ leaked r' d' 11
    /\ objects d' !! 12 = Some (DeviceMemory 64 0) /\ leaked r' d' 12
    /\ objects d' !! 17 = Some (ImageView 7100 VK_FORMAT_ETC2_R8G8B8A8_UNORM_BLOCK)
    /\ leaked r' d' 17
    /\ objects d' !! 6 = Some (DescriptorPool 2 2) /\ leaked r' d' 6
    /\ objects d' !! 7 = Some (DescriptorSet 6) /\ leaked r' d' 7
    /\ objects d' !! 8 = Some (DescriptorSet 6) /\ leaked r' d' 8.
Proof.
  eexists _, _. split; [vm_compute; reflexivity|].
  split; [repeat split|].
  repeat match goal with
         | |- _ /\ _ => split
         | |- leaked _ _ _ =>
             split; [vm_compute; eauto
                    |vm_compute; repeat (constructor; [discriminate|]); constructor]
         | |- _ = _ => vm_compute; reflexivity
         end.
Qed.

(** *** The phases of [RenderWidgets] *)

(** A creating call under [CALL_VK], spelled out. *)
Lemma CALL_VK_creating (obj : VkObject) (call : Z -> Z -> VkCall) (out : Z) (d : Driver) :
  exists res h d',
    CALL_VK (creating obj call out) d = Ok (h, d')
    /\ calls d' = call res h :: calls d.
Proof.
  unfold CALL_VK, creating, next_result, create.
  eexists _, _, _. split; reflexivity.
Qed.

Lemma CreatePerWidgetVulkanObjects_ok (r : VulkanWidgetsRenderer) (d : Driver) :
  let n := widget_image_count_ r in
  let count := Int.to_uint32 (Z.of_nat n) in
  exists res1 pool res2 sets d',
    CreatePerWidgetVulkanObjects r d
    = Ok (set_vertex_buffers (resize n VK_NULL_HANDLE (vertex_buffers_ r))
            (resize n VK_NULL_HANDLE (vertex_buffers_memory_ r))
            (set_image_views (resize n VK_NULL_HANDLE (image_views_ r))
               (set_descriptors pool sets r)), d')
    /\ length sets = n
    /\ calls d' = [vkAllocateDescriptorSets res2 pool (Z.of_nat n) sets;
                   vkCreateDescriptorPool res1 count count pool] ++ calls d.
Proof.
  intros n count. unfold CreatePerWidgetVulkanObjects. fold n. fold count.
  destruct (CALL_VK_creating (DescriptorPool count count)
              (fun res => vkCreateDescriptorPool res count count) (descriptor_pool_ r) d)
    as (res1 & pool & d1 & E1 & C1).
  destruct (CALL_VK_allocating pool n (resize n VK_NULL_HANDLE (descriptor_sets_ r)) d1)
    as (res2 & sets & d2 & E2 & Hl & C2); [apply length_resize|].
  exists res1, pool, res2, sets, d2.
  rewrite (bind_ok _ _ _ _ _ E1), (bind_ok _ _ _ _ _ E2).
  split; [reflexivity|]. split; [exact Hl|]. rewrite C2, C1. reflexivity.
Qed.

Lemma CleanPipeline_ok (r : VulkanWidgetsRenderer) (d : Driver) :
  exists d',
    CleanPipeline r d = Ok (set_graphics_pipeline VK_NULL_HANDLE r, d')
    /\ calls d' = (if graphics_pipeline_ r =? VK_NULL_HANDLE then []
                   else [vkDestroyPipeline (graphics_pipeline_ r)]) ++ calls d.
Proof.
  unfold CleanPipeline.
  destruct (Z.eqb_spec (graphics_pipeline_ r) VK_NULL_HANDLE) as [E|E]; simpl.
  - exists d. split; [|reflexivity]. unfold ret. do 2 f_equal.
    destruct r; simpl in *. now subst.
  - eexists. split; reflexivity.
Qed.

Lemma CreateGraphicsPipeline_ok (r : VulkanWidgetsRenderer) (d : Driver) :
  exists r1 r2 vs fs res pipeline d',
    CreateGraphicsPipeline r d = Ok (set_graphics_pipeline pipeline r, d')
    /\ calls d' = [vkDestroyShaderModule fs; vkDestroyShaderModule vs;
                   vkCreateGraphicsPipelines res (pipeline_layout_ r) (current_render_pass_ r)
                     pipeline;
                   vkCreateShaderModule r2 fs; vkCreateShaderModule r1 vs]
                  ++ (if graphics_pipeline_ r =? VK_NULL_HANDLE then []
                      else [vkDestroyPipeline (graphics_pipeline_ r)]) ++ calls d.
Proof.
  unfold CreateGraphicsPipeline.
  destruct (CleanPipeline_ok r d) as (d0 & E0 & C0).
  rewrite (bind_ok _ _ _ _ _ E0).
  destruct (CALL_VK_creating ShaderModule vkCreateShaderModule VK_NULL_HANDLE d0)
    as (r1 & vs & d1 & E1 & C1).
  unfold LoadShader. rewrite (bind_ok _ _ _ _ _ E1).
  destruct (CALL_VK_creating ShaderModule vkCreateShaderModule VK_NULL_HANDLE d1)
    as (r2 & fs & d2 & E2 & C2).
  rewrite (bind_ok _ _ _ _ _ E2).
  simpl.
  destruct (CALL_VK_creating (Pipeline (pipeline_layout_ r) (current_render_pass_ r))
              (fun res => vkCreateGraphicsPipelines res (pipeline_layout_ r)
                            (current_render_pass_ r)) VK_NULL_HANDLE d2)
    as (res & p & d3 & E3 & C3).
  rewrite (bind_ok _ _ _ _ _ E3).
  exists r1, r2, vs, fs, res, p. eexists. split; [reflexivity|].
  simpl. rewrite C3, C2, C1, C0. reflexivity.
Qed.

(** *** Counting pipeline work over the frames *)

Section Frames.

Variable Lerp : spec_float -> spec_float -> spec_float -> spec_float.

(** C10: with no widget, [RenderWidgets] returns with every per-widget
    vector empty and has recorded nothing into the command buffer; it has
    still created a descriptor pool, for zero sets, and has still compared
    the render pass with the one it holds, creating a pipeline when they
    differ. *)
Theorem RenderWidgets_without_widgets (r : VulkanWidgetsRenderer) (sp : ScreenParams)
    (cb rp : Z) (d : Driver) :
  exists r' d',
    RenderWidgets Lerp r sp [] cb rp d = Ok (r', d')
    /\ descriptor_sets_ r' = [] /\ image_views_ r' = []
    /\ vertex_buffers_ r' = [] /\ vertex_buffers_memory_ r' = []
    /\ count is_command (calls d') = count is_command (calls d)
    /\ count is_empty_pool_creation (calls d') = S (count is_empty_pool_creation (calls d))
    /\ current_render_pass_ r' = rp
    /\ count is_pipeline_creation (calls d')
       = ((if (rp =? current_render_pass_ r)%Z then 0 else 1)
          + count is_pipeline_creation (calls d))%nat.
Proof.
  unfold RenderWidgets.
  set (r0 := set_widget_image_count (length []) r).
  destruct (CreatePerWidgetVulkanObjects_ok r0 d) as (res1 & pool & res2 & sets & d1 & E1 & Hl & C1).
  simpl in E1, Hl, C1. rewrite (bind_ok _ _ _ _ _ E1).
  destruct sets; [|discriminate].
  match type of E1 with _ = Ok (?x, _) => set (r1 := x) in * end.
  assert (E2 : UpdateVertexBuffers Lerp r1 [] sp d1 = Ok (r1, d1)) by reflexivity.
  rewrite (bind_ok _ _ _ _ _ E2).
  change (current_render_pass_ r1) with (current_render_pass_ r).
  assert (Hempty : descriptor_sets_ r1 = [] /\ image_views_ r1 = []
                   /\ vertex_buffers_ r1 = [] /\ vertex_buffers_memory_ r1 = []).
  { unfold r1. simpl. rewrite !resize_0. auto. }
  destruct Hempty as (H1 & H2 & H3 & H4).
  destruct (Z.eqb_spec rp (current_render_pass_ r)) as [Heq|Hne]; cbn [negb].
  - exists r1, d1. split; [reflexivity|].
    rewrite C1. simpl. repeat split; try assumption. now symmetry.
  - destruct (CreateGraphicsPipeline_ok (set_current_render_pass rp r1) d1)
      as (s1 & s2 & vs & fs & res & p & d3 & E3 & C3).
    rewrite (bind_ok _ _ _ _ _ E3).
    eexists _, _. split; [reflexivity|].
    rewrite C3, C1. simpl.
    destruct (graphics_pipeline_ r =? VK_NULL_HANDLE); simpl; repeat split; assumption.
Qed.

End Frames.

(** C5 as stated fails: over three calls the render pass goes from 900 to
    901 and back to 900; two distinct handles were passed in and three
    pipelines were created (and two destroyed). *)
Lemma pipeline_rebuilt_again_when_a_handle_returns :
  exists r' d',
    render_frames Math.Lerp there_and_back (fst widgets_renderer) (snd widgets_renderer)
    = Ok (r', d')
    /\ distinct_handles there_and_back = 2%nat
    /\ count is_pipeline_creation (calls d') = 3%nat
    /\ count is_pipeline_destruction (calls d') = 2%nat.
Proof.
  eexists _, _. split; [vm_compute; reflexivity|].
  repeat split.
Qed.

(** * Further properties *)

Import Lifecycle Observe.

(** ** Memory types *)

Lemma find_memory_type_from (type_filter properties : Z) (types : list Z) :
  forall (before : list Z) (i : Z),
  i = Z.of_nat (length before) ->
  match find_memory_type type_filter properties types i with
  | Some k =>
      i <= k
      /\ suitable type_filter properties (before ++ types) k
      /\ forall j, i <= j < k -> ~ suitable type_filter properties (before ++ types) j
  | None => forall j, i <= j -> ~ suitable type_filter properties (before ++ types) j
  end.
Proof.
  induction types as [|flags rest IH]; intros before i Hi; simpl.
  - intros j Hj (_ & _ & fl & Hl & _).
    rewrite app_nil_r in Hl. apply lookup_lt_Some in Hl. lia.
  - assert (Hhere : (before ++ flags :: rest) !! Z.to_nat i = Some flags).
    { rewrite Hi, Nat2Z.id. now rewrite lookup_app_r, Nat.sub_diag by lia. }
    destruct (Z.testbit type_filter i && (Z.land flags properties =? properties)) eqn:E.
    + apply andb_true_iff in E as [Hbit Hfl]. apply Z.eqb_eq in Hfl.
      split; [lia|]. split; [|intros j Hj; lia].
      split; [lia|]. split; [exact Hbit|]. now exists flags.
    + specialize (IH (before ++ [flags]) (i + 1)).
      rewrite <- app_assoc in IH. simpl in IH.
      assert (Hi1 : i + 1 = Z.of_nat (length (before ++ [flags])))
        by (rewrite length_app; simpl; lia).
      specialize (IH Hi1).
      assert (Hnot : ~ suitable type_filter properties (before ++ flags :: rest) i).
      { intros (_ & Hbit & fl & Hl & Hfl). rewrite Hhere in Hl. injection Hl as <-.
        apply andb_false_iff in E as [E|E]; [congruence|].
        apply Z.eqb_neq in E. contradiction. }
      destruct (find_memory_type type_filter properties rest (i + 1)) as [k|].
      * destruct IH as (Hk & Hs & Hleast). split; [lia|]. split; [exact Hs|].
        intros j Hj. destruct (Z.eq_dec j i) as [->|Hne]; [exact Hnot|].
        apply Hleast. lia.
      * intros j Hj. destruct (Z.eq_dec j i) as [->|Hne]; [exact Hnot|].
        apply IH. lia.
Qed.

Lemma first_suitable_or_zero (msg : string) (type_filter properties : Z) (d : Driver) :
  let found := find_memory_type type_filter properties (memory_types d) 0 in
  finds_first_suitable msg type_filter properties d
    (Ok (default 0 found,
         log_unless (bool_decide (is_Some found)) msg
           (emit vkGetPhysicalDeviceMemoryProperties d))).
Proof.
  simpl. unfold finds_first_suitable.
  pose proof (find_memory_type_from type_filter properties (memory_types d) [] 0 eq_refl) as H.
  simpl in H.
  destruct (find_memory_type type_filter properties (memory_types d) 0) as [k|].
  - exists k. eexists. split; [reflexivity|]. split; [reflexivity|]. left.
    destruct H as (Hk & Hs & Hleast). split; [exact Hs|]. split; [|reflexivity].
    intros j Hj Hsj. destruct (Z_lt_le_dec j 0) as [Hneg|Hpos].
    + destruct Hsj as (H0 & _). lia.
    + apply (Hleast j); [lia|exact Hsj].
  - exists 0. eexists. split; [reflexivity|]. split; [reflexivity|]. right.
    split; [|split; reflexivity].
    intros j Hsj. destruct (Z_lt_le_dec j 0) as [Hneg|Hpos].
    + destruct Hsj as (H0 & _). lia.
    + exact (H j Hpos Hsj).
Qed.

(** X1: [FindMemoryType], of either class, returns the index of the first
    memory type of the device that is in the filter and has all the
    requested properties, and logs nothing; when no type is suitable it
    logs one error and returns 0, the index a suitable type 0 would have. *)
Theorem FindMemoryType_first_suitable (type_filter properties : Z) (d : Driver) :
  finds_first_suitable "Failed to find suitable memory type!" type_filter properties d
    (Widgets.FindMemoryType type_filter properties d)
  /\ finds_first_suitable "failed to find suitable memory type!" type_filter properties d
       (Lifecycle.FindMemoryType type_filter properties d).
Proof.
  split; apply first_suitable_or_zero.
Qed.

(** ** Swapchain interceptor *)

(** X2: the create-swapchain hook changes no other variable than
    [cached_swapchain] (the resolver below, the two saved driver entry
    points and [image_index] are what they were), and [cached_swapchain]
    ends up equal to the caller's [*pSwapchain].
    When the driver succeeds that is the new handle, and it names a live
    swapchain; when the driver fails, nothing is created and the hook
    caches whatever the caller's variable held before the call.  The
    acquire hook does the same with [image_index], and changes no other
    variable either. *)
Theorem hooks_cache_the_output_argument (g : Globals) (pSwapchain : Z)
    (granted pImageIndex : nat) (swapchain : Z) (d : Driver) :
  let res := hd VK_SUCCESS (pending d) in
  let '((_, g1, out1), d1) := Hook_vkCreateSwapchainKHR g pSwapchain d in
  let '((_, g2, out2), d2) := Hook_vkAcquireNextImageKHR g granted swapchain pImageIndex d in
  cached_swapchain g1 = out1
  /\ image_index g1 = image_index g
  /\ Orig_GetInstanceProcAddr g1 = Orig_GetInstanceProcAddr g
  /\ Orig_vkCreateSwapchainKHR g1 = Orig_vkCreateSwapchainKHR g
  /\ Orig_vkAcquireNextImageKHR g1 = Orig_vkAcquireNextImageKHR g
  /\ (if succeeded res
      then out1 = next_handle d /\ objects d1 !! out1 = Some Swapchain
      else out1 = pSwapchain /\ objects d1 = objects d)
  /\ image_index g2 = out2
  /\ cached_swapchain g2 = cached_swapchain g
  /\ Orig_GetInstanceProcAddr g2 = Orig_GetInstanceProcAddr g
  /\ Orig_vkCreateSwapchainKHR g2 = Orig_vkCreateSwapchainKHR g
  /\ Orig_vkAcquireNextImageKHR g2 = Orig_vkAcquireNextImageKHR g
  /\ out2 = (if succeeded res then granted else pImageIndex)
  /\ objects d2 = objects d.
Proof.
  unfold Hook_vkCreateSwapchainKHR, Hook_vkAcquireNextImageKHR, creating, acquire,
    next_result, create. simpl.
  destruct (succeeded (hd VK_SUCCESS (pending d))); simpl;
    repeat split; try reflexivity.
  apply lookup_insert_eq.
Qed.

Lemma MyGetInstanceProcAddr_resolved (g : Globals) (instance : Z) (pName : string) :
  fst (MyGetInstanceProcAddr g instance pName)
  = resolved (Orig_GetInstanceProcAddr g) instance pName
  /\ Orig_GetInstanceProcAddr (snd (MyGetInstanceProcAddr g instance pName))
     = Orig_GetInstanceProcAddr g
  /\ cached_swapchain (snd (MyGetInstanceProcAddr g instance pName)) = cached_swapchain g
  /\ image_index (snd (MyGetInstanceProcAddr g instance pName)) = image_index g
  /\ Orig_vkCreateSwapchainKHR (snd (MyGetInstanceProcAddr g instance pName))
     = (if String.eqb pName "vkCreateSwapchainKHR"
        then Orig_GetInstanceProcAddr g instance pName else Orig_vkCreateSwapchainKHR g)
  /\ Orig_vkAcquireNextImageKHR (snd (MyGetInstanceProcAddr g instance pName))
     = (if String.eqb pName "vkAcquireNextImageKHR"
        then Orig_GetInstanceProcAddr g instance pName else Orig_vkAcquireNextImageKHR g).
Proof.
  unfold MyGetInstanceProcAddr, resolved.
  destruct (String.eqb_spec pName "vkCreateSwapchainKHR") as [->|H1].
  { simpl. repeat split. }
  destruct (Z.eqb_spec (strcmp pName "vkCreateSwapchainKHR") 0) as [e|_];
    [apply strcmp_zero in e; contradiction|].
  destruct (String.eqb_spec pName "vkAcquireNextImageKHR") as [->|H2].
  { simpl. repeat split. }
  destruct (Z.eqb_spec (strcmp pName "vkAcquireNextImageKHR") 0) as [e|_];
    [apply strcmp_zero in e; contradiction|].
  simpl. repeat split.
Qed.

(** X3: once [InterceptVulkanInitialization] has installed the wrapper over
    the host's resolver, whatever names the host resolves, in whatever
    order, it gets its own functions for all of them but the two
    intercepted ones; the swapchain binding is left alone, and after an
    intercepted name was resolved its original address is remembered. *)
Theorem interception_is_transparent (g : Globals) (host : Z -> string -> Z) (instance : Z)
    (names : list string) :
  let '(fs, g') := resolve_all (InterceptVulkanInitialization g host) instance names in
  fs = map (resolved host instance) names
  /\ Orig_GetInstanceProcAddr g' = host
  /\ cached_swapchain g' = cached_swapchain g
  /\ image_index g' = image_index g
  /\ Orig_vkCreateSwapchainKHR g'
     = (if bool_decide ("vkCreateSwapchainKHR"%string ∈ names)
        then host instance "vkCreateSwapchainKHR"%string else Orig_vkCreateSwapchainKHR g)
  /\ Orig_vkAcquireNextImageKHR g'
     = (if bool_decide ("vkAcquireNextImageKHR"%string ∈ names)
        then host instance "vkAcquireNextImageKHR"%string else Orig_vkAcquireNextImageKHR g).
Proof.
  assert (Gen : forall g0, Orig_GetInstanceProcAddr g0 = host ->
            let '(fs, g') := resolve_all g0 instance names in
            fs = map (resolved host instance) names
            /\ Orig_GetInstanceProcAddr g' = host
            /\ cached_swapchain g' = cached_swapchain g0
            /\ image_index g' = image_index g0
            /\ Orig_vkCreateSwapchainKHR g'
               = (if bool_decide ("vkCreateSwapchainKHR"%string ∈ names)
                  then host instance "vkCreateSwapchainKHR"%string
                  else Orig_vkCreateSwapchainKHR g0)
            /\ Orig_vkAcquireNextImageKHR g'
               = (if bool_decide ("vkAcquireNextImageKHR"%string ∈ names)
                  then host instance "vkAcquireNextImageKHR"%string
                  else Orig_vkAcquireNextImageKHR g0)).
  { induction names as [|n rest IH]; intros g0 Hhost.
    - simpl. repeat split. exact Hhost.
    - cbn [resolve_all].
      pose proof (MyGetInstanceProcAddr_resolved g0 instance n) as (Hf & Ho & Hc & Hi & H1 & H2).
      destruct (MyGetInstanceProcAddr g0 instance n) as [f g1]. simpl in *.
      specialize (IH g1). rewrite Ho in IH. specialize (IH Hhost).
      destruct (resolve_all g1 instance rest) as [fs g2].
      destruct IH as (IHf & IHo & IHc & IHi & IH1 & IH2).
      rewrite Hhost in *.
      split; [now rewrite Hf, IHf|]. split; [exact IHo|].
      split; [congruence|]. split; [congruence|].
      split.
      + rewrite IH1, H1.
        destruct (String.eqb_spec n "vkCreateSwapchainKHR") as [->|Hne].
        * rewrite (bool_decide_eq_true_2 (_ ∈ _ :: rest)) by left.
          destruct (bool_decide ("vkCreateSwapchainKHR"%string ∈ rest)); reflexivity.
        * destruct (bool_decide ("vkCreateSwapchainKHR"%string ∈ rest)) eqn:E.
          -- apply bool_decide_eq_true_1 in E.
             now rewrite (bool_decide_eq_true_2 (_ ∈ n :: rest)) by now right.
          -- apply bool_decide_eq_false_1 in E.
             rewrite (bool_decide_eq_false_2 (_ ∈ n :: rest)); [reflexivity|].
             intros Hin. apply elem_of_cons in Hin as [?|?]; [congruence|contradiction].
      + rewrite IH2, H2.
        destruct (String.eqb_spec n "vkAcquireNextImageKHR") as [->|Hne].
        * rewrite (bool_decide_eq_true_2 (_ ∈ _ :: rest)) by left.
          destruct (bool_decide ("vkAcquireNextImageKHR"%string ∈ rest)); reflexivity.
        * destruct (bool_decide ("vkAcquireNextImageKHR"%string ∈ rest)) eqn:E.
          -- apply bool_decide_eq_true_1 in E.
             now rewrite (bool_decide_eq_true_2 (_ ∈ n :: rest)) by now right.
          -- apply bool_decide_eq_false_1 in E.
             rewrite (bool_decide_eq_false_2 (_ ∈ n :: rest)); [reflexivity|].
             intros Hin. apply elem_of_cons in Hin as [?|?]; [congruence|contradiction]. }
  apply (Gen (InterceptVulkanInitialization g host)). reflexivity.
Qed.

(** ** Drivers that keep plugin code defined *)

Lemma later_refl (d : Driver) : later d d.
Proof. constructor; [reflexivity|now exists 0%nat|now exists 0%nat|lia]. Qed.

Lemma later_trans (d1 d2 d3 : Driver) : later d1 d2 -> later d2 d3 -> later d1 d3.
Proof.
  intros [H1 [k1 M1] [j1 P1] N1] [H2 [k2 M2] [j2 P2] N2].
  constructor; [congruence| | |lia].
  - exists (k1 + k2)%nat. now rewrite M2, M1, drop_drop.
  - exists (j1 + j2)%nat. now rewrite P2, P1, drop_drop.
Qed.

Lemma later_emit (c : VkCall) (d : Driver) : later d (emit c d).
Proof. constructor; simpl; [reflexivity|now exists 0%nat|now exists 0%nat|lia]. Qed.

Lemma later_log_error (msg : string) (d : Driver) : later d (log_error msg d).
Proof. constructor; simpl; [reflexivity|now exists 0%nat|now exists 0%nat|lia]. Qed.

Lemma later_log_unless (ok : bool) (msg : string) (d : Driver) : later d (log_unless ok msg d).
Proof. constructor; simpl; [reflexivity|now exists 0%nat|now exists 0%nat|lia]. Qed.

Lemma later_destroying (call : Z -> VkCall) (h : Z) (d : Driver) :
  later d (destroying call h d).
Proof. constructor; simpl; [reflexivity|now exists 0%nat|now exists 0%nat|lia]. Qed.

Lemma later_destroying_pool (pool : Z) (d : Driver) : later d (destroying_pool pool d).
Proof. constructor; simpl; [reflexivity|now exists 0%nat|now exists 0%nat|lia]. Qed.

Lemma later_next_result (d : Driver) : later d (snd (next_result d)).
Proof.
  constructor; simpl; [reflexivity|now exists 0%nat| |lia].
  exists 1%nat. now destruct (pending d).
Qed.

Lemma later_create (res : Z) (obj : VkObject) (out : Z) (d : Driver) :
  later d (snd (create res obj out d)).
Proof.
  constructor; simpl; [reflexivity|now exists 0%nat|now exists 0%nat|].
  destruct (succeeded res); lia.
Qed.

Lemma later_creating (obj : VkObject) (call : Z -> Z -> VkCall) (out : Z) (d : Driver) :
  later d (snd (creating obj call out d)).
Proof.
  unfold creating.
  pose proof (later_next_result d) as L1.
  destruct (next_result d) as [res d1]. simpl in L1.
  pose proof (later_create res obj out d1) as L2.
  destruct (create res obj out d1) as [h d2]. simpl in L2 |- *.
  eapply later_trans; [exact L1|]. eapply later_trans; [exact L2|apply later_emit].
Qed.

Lemma later_create_many (res : Z) (n : nat) (obj : VkObject) :
  forall d, later d (snd (create_many res n obj d)).
Proof.
  induction n as [|n IH]; intros d; [apply later_refl|].
  cbn [create_many].
  pose proof (later_create res obj VK_NULL_HANDLE d) as L1.
  destruct (create res obj VK_NULL_HANDLE d) as [h d1]. simpl in L1.
  pose proof (IH d1) as L2.
  destruct (create_many res n obj d1) as [hs d2]. simpl in L2 |- *.
  eapply later_trans; eassumption.
Qed.

Lemma later_allocating (pool : Z) (n : nat) (out : list Z) (d : Driver) :
  later d (snd (allocating pool n out d)).
Proof.
  unfold allocating.
  pose proof (later_next_result d) as L1.
  destruct (next_result d) as [res d1]. simpl in L1.
  pose proof (later_create_many res n (DescriptorSet pool) d1) as L2.
  destruct (create_many res n (DescriptorSet pool) d1) as [hs d2]. simpl in L2 |- *.
  eapply later_trans; [exact L1|]. eapply later_trans; [exact L2|apply later_emit].
Qed.

Lemma later_mapping (memory size : Z) (d : Driver) : later d (snd (mapping memory size d)).
Proof.
  constructor; simpl; [reflexivity| |now exists 0%nat|lia].
  exists 1%nat. now destruct (map_results d).
Qed.

Lemma calm_stable (H : gmap Z Z) : stable (calm H).
Proof.
  intros d d' [Hh [k Hm] _ _] [Hs Hd]. split; [|congruence].
  unfold maps_succeed. rewrite Hm. now apply Forall_drop.
Qed.

Lemma succeeding_stable (H : gmap Z Z) : stable (succeeding H).
Proof.
  intros d d' L (Hc & Hp & Hn). split; [eapply calm_stable; eassumption|].
  destruct L as [_ _ [k Hk] Hh]. split; [|lia].
  rewrite Hk, Hp. apply drop_nil.
Qed.

Lemma succeeding_calm (H : gmap Z Z) (d : Driver) : succeeding H d -> calm H d.
Proof. now intros [Hc _]. Qed.

(** Under [succeeding] no creating call hands out the null handle. *)
Lemma succeeding_handed_out (H : gmap Z Z) (out h : Z) :
  handed_out (succeeding H) out h -> h <> VK_NULL_HANDLE.
Proof.
  intros (d & (_ & Hp & Hn) & ->). rewrite Hp. simpl. unfold VK_NULL_HANDLE. lia.
Qed.

(** ** Rules for plugin code under a recording driver *)

Section Rules.

Context {X : Type} (Inv : Driver -> Prop) (f : VkCall -> option X).

Hypothesis Inv_stable : stable Inv.

Lemma wp_ret {A} (a : A) (acc : list X) (Q : A -> list X -> Prop) :
  Q a acc -> wp Inv f (ret a) acc Q.
Proof. intros HQ d Hd. exists a, d, []. now repeat split. Qed.

Lemma wp_bind {A B} (m : VK A) (k : A -> VK B) (acc : list X) (Q : B -> list X -> Prop) :
  wp Inv f m acc (fun a acc1 => wp Inv f (k a) acc1 Q) -> wp Inv f (bind m k) acc Q.
Proof.
  intros HW d Hd. destruct (HW d Hd) as (a & d1 & o1 & E1 & I1 & C1 & K).
  destruct (K d1 I1) as (b & d2 & o2 & E2 & I2 & C2 & HQ).
  exists b, d2, (o2 ++ o1). rewrite (bind_ok _ _ _ _ _ E1).
  split; [exact E2|]. split; [exact I2|].
  split; [now rewrite C2, C1, app_assoc|now rewrite <- app_assoc].
Qed.

Lemma wp_mono {A} (m : VK A) (acc : list X) (P Q : A -> list X -> Prop) :
  wp Inv f m acc P -> (forall a o, P a o -> Q a o) -> wp Inv f m acc Q.
Proof.
  intros HW HPQ d Hd. destruct (HW d Hd) as (a & d1 & o1 & E1 & I1 & C1 & HP).
  exists a, d1, o1. auto.
Qed.

Lemma wp_at {A} (name : string) (v : list A) (i : nat) (acc : list X)
    (Q : A -> list X -> Prop) :
  (i < length v)%nat -> (forall x, v !! i = Some x -> Q x acc) ->
  wp Inv f (at_ name v i) acc Q.
Proof.
  intros Hi HQ d Hd. destruct (lookup_lt_is_Some_2 v i Hi) as [x Hx].
  exists x, d, []. rewrite (at_ok _ _ _ _ _ Hx). repeat split; [exact Hd|]. now apply HQ.
Qed.

Lemma wp_set_at {A} (name : string) (v : list A) (i : nat) (x : A) (acc : list X)
    (Q : list A -> list X -> Prop) :
  (i < length v)%nat -> Q (<[i := x]> v) acc -> wp Inv f (set_at name v i x) acc Q.
Proof.
  intros Hi HQ d Hd. exists (<[i := x]> v), d, []. rewrite set_at_ok by assumption.
  now repeat split.
Qed.

(** A call that returns nothing and is recorded as [c]. *)
Lemma wp_recorded (g : Driver -> Driver) (c : VkCall) (acc : list X)
    (Q : unit -> list X -> Prop) :
  (forall d, later d (g d) /\ calls (g d) = c :: calls d) ->
  Q tt (option_list (f c) ++ acc) -> wp Inv f (drv_ g) acc Q.
Proof.
  intros Hg HQ d Hd. destruct (Hg d) as [L C].
  exists tt, (g d), (option_list (f c)).
  split; [reflexivity|]. split; [eapply Inv_stable; eassumption|].
  split; [|exact HQ]. rewrite C. simpl. now destruct (f c).
Qed.

Lemma wp_emit (c : VkCall) (acc : list X) (Q : unit -> list X -> Prop) :
  Q tt (option_list (f c) ++ acc) -> wp Inv f (drv_ (emit c)) acc Q.
Proof. apply wp_recorded. intros d. split; [apply later_emit|reflexivity]. Qed.

Lemma wp_destroying (call : Z -> VkCall) (h : Z) (acc : list X) (Q : unit -> list X -> Prop) :
  Q tt (option_list (f (call h)) ++ acc) -> wp Inv f (drv_ (destroying call h)) acc Q.
Proof. apply wp_recorded. intros d. split; [apply later_destroying|reflexivity]. Qed.

Lemma wp_destroying_pool (pool : Z) (acc : list X) (Q : unit -> list X -> Prop) :
  Q tt (option_list (f (vkDestroyDescriptorPool pool)) ++ acc) ->
  wp Inv f (drv_ (destroying_pool pool)) acc Q.
Proof. apply wp_recorded. intros d. split; [apply later_destroying_pool|reflexivity]. Qed.

Lemma wp_log_error (msg : string) (acc : list X) (Q : unit -> list X -> Prop) :
  Q tt acc -> wp Inv f (drv_ (log_error msg)) acc Q.
Proof.
  intros HQ d Hd. exists tt, (log_error msg d), [].
  repeat split; [|exact HQ]. eapply Inv_stable; [apply later_log_error|exact Hd].
Qed.

Lemma wp_log_unless (ok : bool) (msg : string) (acc : list X) (Q : unit -> list X -> Prop) :
  Q tt acc -> wp Inv f (drv_ (log_unless ok msg)) acc Q.
Proof.
  intros HQ d Hd. exists tt, (log_unless ok msg d), [].
  repeat split; [|exact HQ]. eapply Inv_stable; [apply later_log_unless|exact Hd].
Qed.

Lemma wp_read {A} (g : Driver -> A) (c : VkCall) (acc : list X) (Q : A -> list X -> Prop) :
  (forall a, Q a (option_list (f c) ++ acc)) ->
  wp Inv f (drv (fun d => (g d, emit c d))) acc Q.
Proof.
  intros HQ d Hd. exists (g d), (emit c d), (option_list (f c)).
  split; [reflexivity|]. split; [eapply Inv_stable; [apply later_emit|exact Hd]|].
  split; [|apply HQ]. simpl. now destruct (f c).
Qed.

Lemma wp_creating (obj : VkObject) (call : Z -> Z -> VkCall) (out : Z) (acc : list X)
    (Q : Z -> list X -> Prop) :
  (forall res h, handed_out Inv out h -> Q h (option_list (f (call res h)) ++ acc)) ->
  wp Inv f (CALL_VK (creating obj call out)) acc Q.
Proof.
  intros HQ d Hd.
  pose proof (later_creating obj call out d) as L.
  set (res := hd VK_SUCCESS (pending d)).
  set (h := if succeeded res then next_handle d else out).
  exists h, (log_unless (succeeded res) "Vulkan error." (snd (creating obj call out d))),
    (option_list (f (call res h))).
  split; [reflexivity|].
  split; [eapply Inv_stable; [|exact Hd];
          eapply later_trans; [exact L|apply later_log_unless]|].
  split.
  - change (omap f (call res h :: calls d) = option_list (f (call res h)) ++ omap f (calls d)).
    simpl. now destruct (f (call res h)).
  - apply HQ. exists d. split; [exact Hd|]. reflexivity.
Qed.

Lemma wp_allocating (pool : Z) (n : nat) (out : list Z) (acc : list X)
    (Q : list Z -> list X -> Prop) :
  length out = n ->
  (forall res sets, length sets = n ->
     Q sets (option_list (f (vkAllocateDescriptorSets res pool (Z.of_nat n) sets)) ++ acc)) ->
  wp Inv f (CALL_VK (allocating pool n out)) acc Q.
Proof.
  intros Hout HQ d Hd.
  destruct (CALL_VK_allocating pool n out d Hout) as (res & sets & d' & E & Hl & C).
  exists sets, d', (option_list (f (vkAllocateDescriptorSets res pool (Z.of_nat n) sets))).
  split; [exact E|]. split.
  - pose proof (later_allocating pool n out d) as L.
    unfold CALL_VK in E. destruct (allocating pool n out d) as [[res0 sets0] d0].
    injection E as _ <-. simpl in L.
    eapply Inv_stable; [|exact Hd]. eapply later_trans; [exact L|apply later_log_unless].
  - split; [|now apply HQ]. rewrite C. simpl.
    now destruct (f (vkAllocateDescriptorSets res pool (Z.of_nat n) sets)).
Qed.

(** The loop rule: [I i] holds of the state and of what was seen before
    iteration [i]. *)
Lemma wp_for {S} (I : nat -> S -> list X -> Prop) (body : nat -> S -> VK S) (n : nat) :
  forall (from : nat) (s : S) (acc : list X),
  (forall i s acc, (from <= i < from + n)%nat -> I i s acc ->
     wp Inv f (body i s) acc (I (Datatypes.S i))) ->
  I from s acc ->
  wp Inv f (for_ n from body s) acc (I (from + n)%nat).
Proof.
  induction n as [|n IH]; intros from s acc Hbody Hs; simpl.
  - apply wp_ret. now rewrite Nat.add_0_r.
  - apply wp_bind. eapply wp_mono.
    + apply Hbody; [lia|exact Hs].
    + intros s1 acc1 Hs1. simpl in Hs1.
      replace (from + Datatypes.S n)%nat with (Datatypes.S from + n)%nat by lia.
      apply IH; [|exact Hs1].
      intros i s' acc' Hi. apply Hbody. lia.
Qed.

Context (H : gmap Z Z).

Hypothesis Inv_calm : forall d, Inv d -> calm H d.

(** [vkMapMemory] under [CALL_VK]: the memory is mapped. *)
Lemma wp_mapping (memory size : Z) (acc : list X) (Q : bool -> list X -> Prop) :
  (forall res, Q true (option_list (f (vkMapMemory res memory size)) ++ acc)) ->
  wp Inv f (CALL_VK (mapping memory size)) acc Q.
Proof.
  intros HQ d Hd.
  assert (Hm : succeeded (hd VK_SUCCESS (map_results d)) = true).
  { destruct (Inv_calm d Hd) as [Hs _]. unfold maps_succeed in Hs.
    destruct Hs; [reflexivity|assumption]. }
  pose proof (later_mapping memory size d) as L.
  set (res := hd VK_SUCCESS (map_results d)) in *.
  exists true, (log_unless (succeeded res) "Vulkan error." (snd (mapping memory size d))),
    (option_list (f (vkMapMemory res memory size))).
  split; [unfold CALL_VK, mapping; fold res; now rewrite Hm|].
  split; [eapply Inv_stable; [|exact Hd];
          eapply later_trans; [exact L|apply later_log_unless]|].
  split; [|apply HQ].
  change (omap f (vkMapMemory res memory size :: calls d)
          = option_list (f (vkMapMemory res memory size)) ++ omap f (calls d)).
  simpl. now destruct (f (vkMapMemory res memory size)).
Qed.

(** [vkMapMemory] without [CALL_VK]. *)
Lemma wp_drv_mapping (memory size : Z) (acc : list X) (Q : Z * bool -> list X -> Prop) :
  (forall res, Q (res, true) (option_list (f (vkMapMemory res memory size)) ++ acc)) ->
  wp Inv f (drv (mapping memory size)) acc Q.
Proof.
  intros HQ d Hd.
  assert (Hm : succeeded (hd VK_SUCCESS (map_results d)) = true).
  { destruct (Inv_calm d Hd) as [Hs _]. unfold maps_succeed in Hs.
    destruct Hs; [reflexivity|assumption]. }
  pose proof (later_mapping memory size d) as L.
  set (res := hd VK_SUCCESS (map_results d)) in *.
  exists (res, true), (snd (mapping memory size d)),
    (option_list (f (vkMapMemory res memory size))).
  split; [unfold drv, mapping; fold res; now rewrite Hm|].
  split; [eapply Inv_stable; eassumption|].
  split; [|apply HQ].
  change (omap f (vkMapMemory res memory size :: calls d)
          = option_list (f (vkMapMemory res memory size)) ++ omap f (calls d)).
  simpl. now destruct (f (vkMapMemory res memory size)).
Qed.

Lemma wp_memcpy (memory : Z) (payload : Payload) (acc : list X)
    (Q : unit -> list X -> Prop) :
  Q tt (option_list (f (memcpy memory payload)) ++ acc) ->
  wp Inv f (memcpy_through true memory payload) acc Q.
Proof.
  intros HQ d Hd.
  exists tt, (emit (memcpy memory payload) d), (option_list (f (memcpy memory payload))).
  split; [reflexivity|]. split; [eapply Inv_stable; [apply later_emit|exact Hd]|].
  split; [|exact HQ]. simpl. now destruct (f (memcpy memory payload)).
Qed.

(** Reading the image behind a texture pointer that is valid. *)
Lemma wp_image_at (texture image : Z) (acc : list X) (Q : Z -> list X -> Prop) :
  texture <> 0 -> H !! texture = Some image -> Q image acc ->
  wp Inv f (image_at texture) acc Q.
Proof.
  intros Hn Hi HQ d Hd. exists image, d, [].
  destruct (Inv_calm d Hd) as [_ Hh].
  unfold image_at. rewrite (proj2 (Z.eqb_neq _ _) Hn), Hh, Hi.
  now repeat split.
Qed.

End Rules.

(** ** What [RenderWidgets] is seen to do *)

Ltac wp_step :=
  lazymatch goal with
  | |- wp _ _ (ret _) _ _ => apply wp_ret
  | |- wp _ _ (bind _ _) _ _ => apply wp_bind
  | |- wp _ _ (drv_ (emit _)) _ _ => apply wp_emit; [assumption|]
  | |- wp _ _ (drv_ (destroying _ _)) _ _ => apply wp_destroying; [assumption|]
  | |- wp _ _ (drv_ (destroying_pool _)) _ _ => apply wp_destroying_pool; [assumption|]
  | |- wp _ _ (drv_ (log_error _)) _ _ => apply wp_log_error; [assumption|]
  | |- wp _ _ (drv_ (log_unless _ _)) _ _ => apply wp_log_unless; [assumption|]
  | |- wp _ _ (CALL_VK (creating _ _ _)) _ _ => apply wp_creating; [assumption|intros ? ? ?]
  | |- wp _ _ (CALL_VK (mapping _ _)) _ _ =>
      eapply wp_mapping; [eassumption|eassumption|intros ?]
  | |- wp _ _ (drv (mapping _ _)) _ _ =>
      eapply wp_drv_mapping; [eassumption|eassumption|intros ?]
  | |- wp _ _ (memcpy_through true _ _) _ _ => eapply wp_memcpy; [eassumption|]
  | |- wp _ _ (drv _) _ _ => apply wp_read; [assumption|intros ?]
  end.

Ltac wp_go := repeat first [wp_step | progress (cbn beta; cbn [option_list see app])].

Lemma set_image_views_same (r : VulkanWidgetsRenderer) :
  set_image_views (image_views_ r) r = r.
Proof. now destruct r. Qed.

Lemma slot_insert (l : list Z) (i j : nat) (x : Z) :
  (i < length l)%nat -> slot (<[i := x]> l) j = if decide (i = j) then x else slot l j.
Proof.
  intros Hi. unfold slot. destruct (decide (i = j)) as [<-|Hne].
  - now rewrite list_lookup_insert_eq.
  - now rewrite list_lookup_insert_ne.
Qed.

Section Seeing.

Context (Inv : Driver -> Prop) (H : gmap Z Z).

Hypothesis Inv_stable : stable Inv.

Hypothesis Inv_calm : forall d, Inv d -> calm H d.

Variable Lerp : spec_float -> spec_float -> spec_float -> spec_float.

Lemma see_CreateBuffer (size : Z) (usage : VkBufferUsage) (properties buffer memory : Z)
    (acc : list Seen) (Q : Z * Z -> list Seen -> Prop) :
  (forall bm, Q bm acc) ->
  wp Inv see (CreateBuffer size usage properties buffer memory) acc Q.
Proof.
  intros HQ. unfold CreateBuffer, Widgets.FindMemoryType. wp_go. apply HQ.
Qed.

Lemma see_CreateVertexBuffer (r : VulkanWidgetsRenderer) (vertices : list Vertex) (index : nat)
    (acc : list Seen) (Q : VulkanWidgetsRenderer -> list Seen -> Prop) :
  (index < length (vertex_buffers_ r))%nat ->
  length (vertex_buffers_memory_ r) = length (vertex_buffers_ r) ->
  (forall b m,
     Q (set_vertex_buffers (<[index := b]> (vertex_buffers_ r))
          (<[index := m]> (vertex_buffers_memory_ r)) r)
       (SeenUpload m vertices :: acc)) ->
  wp Inv see (CreateVertexBuffer r vertices index) acc Q.
Proof.
  intros Hi Hm HQ. unfold CreateVertexBuffer.
  rewrite (proj2 (Nat.leb_gt _ _) Hi).
  wp_go. apply wp_at; [exact Hi|]. intros b _.
  wp_go. apply wp_at; [lia|]. intros m _.
  wp_go. apply see_CreateBuffer. intros [b' m'].
  wp_go. apply wp_set_at; [exact Hi|].
  wp_go. apply wp_set_at; [lia|].
  wp_go. apply HQ.
Qed.

Lemma see_CleanTextureImageView (r : VulkanWidgetsRenderer) (index : nat)
    (acc : list Seen) (Q : VulkanWidgetsRenderer -> list Seen -> Prop) :
  (index < length (image_views_ r))%nat ->
  Q (set_image_views (<[index := VK_NULL_HANDLE]> (image_views_ r)) r) acc ->
  wp Inv see (CleanTextureImageView r index) acc Q.
Proof.
  intros Hi HQ. unfold CleanTextureImageView.
  wp_go. apply wp_at; [exact Hi|]. intros view Hv. cbn beta.
  destruct (Z.eqb_spec view VK_NULL_HANDLE) as [->|Hne]; cbn [negb].
  - wp_go. rewrite (list_insert_id _ _ _ Hv), set_image_views_same in HQ. exact HQ.
  - wp_go. apply wp_set_at; [exact Hi|]. wp_go. exact HQ.
Qed.

Lemma see_CleanPipeline (r : VulkanWidgetsRenderer) (acc : list Seen)
    (Q : VulkanWidgetsRenderer -> list Seen -> Prop) :
  Q (set_graphics_pipeline VK_NULL_HANDLE r)
    ((if graphics_pipeline_ r =? VK_NULL_HANDLE then []
      else [SeenPipelineDestroyed (graphics_pipeline_ r)]) ++ acc) ->
  wp Inv see (CleanPipeline r) acc Q.
Proof.
  intros HQ. unfold CleanPipeline.
  destruct (Z.eqb_spec (graphics_pipeline_ r) VK_NULL_HANDLE) as [E|E]; simpl in *.
  - apply wp_ret.
    replace r with (set_graphics_pipeline VK_NULL_HANDLE r) at 1; [exact HQ|].
    destruct r; simpl in *. now subst.
  - wp_go. exact HQ.
Qed.

Lemma see_CreateGraphicsPipeline (r : VulkanWidgetsRenderer) (acc : list Seen)
    (Q : VulkanWidgetsRenderer -> list Seen -> Prop) :
  (forall pipeline,
     handed_out Inv VK_NULL_HANDLE pipeline ->
     Q (set_graphics_pipeline pipeline r)
       (SeenPipeline (pipeline_layout_ r) (current_render_pass_ r) pipeline
        :: (if graphics_pipeline_ r =? VK_NULL_HANDLE then []
            else [SeenPipelineDestroyed (graphics_pipeline_ r)]) ++ acc)) ->
  wp Inv see (CreateGraphicsPipeline r) acc Q.
Proof.
  intros HQ. unfold CreateGraphicsPipeline, LoadShader.
  wp_go. apply see_CleanPipeline. wp_go. now apply HQ.
Qed.

Lemma see_CreatePerWidgetVulkanObjects (r : VulkanWidgetsRenderer) (acc : list Seen)
    (Q : VulkanWidgetsRenderer -> list Seen -> Prop) :
  let n := widget_image_count_ r in
  (forall pool sets, length sets = n ->
     Q (set_vertex_buffers (resize n VK_NULL_HANDLE (vertex_buffers_ r))
          (resize n VK_NULL_HANDLE (vertex_buffers_memory_ r))
          (set_image_views (resize n VK_NULL_HANDLE (image_views_ r))
             (set_descriptors pool sets r)))
       (SeenSets pool (Z.of_nat n) sets
        :: SeenPool (Int.to_uint32 (Z.of_nat n)) (Int.to_uint32 (Z.of_nat n)) pool :: acc)) ->
  wp Inv see (CreatePerWidgetVulkanObjects r) acc Q.
Proof.
  intros n HQ. unfold CreatePerWidgetVulkanObjects. fold n.
  wp_go. apply wp_allocating; [assumption|apply length_resize|]. intros res2 sets Hl. wp_go.
  now apply HQ.
Qed.

Lemma see_UpdateVertexBuffer (r : VulkanWidgetsRenderer) (w : Widget.WidgetParams)
    (sp : ScreenParams) (index : nat) (acc : list Seen)
    (Q : VulkanWidgetsRenderer -> list Seen -> Prop) :
  (index < length (vertex_buffers_ r))%nat ->
  length (vertex_buffers_memory_ r) = length (vertex_buffers_ r) ->
  (forall b m,
     Q (set_vertex_buffers (<[index := b]> (vertex_buffers_ r))
          (<[index := m]> (vertex_buffers_memory_ r)) r)
       (SeenUpload m (quad_vertices Lerp w sp) :: acc)) ->
  wp Inv see (UpdateVertexBuffer Lerp r w sp index) acc Q.
Proof.
  intros Hi Hm HQ. unfold UpdateVertexBuffer.
  wp_go. apply wp_at; [exact Hi|]. intros b _. cbn beta.
  apply wp_bind.
  destruct (negb (b =? VK_NULL_HANDLE)).
  - wp_go. apply wp_at; [lia|]. intros m _. wp_go.
    now apply see_CreateVertexBuffer.
  - wp_go. now apply see_CreateVertexBuffer.
Qed.

Lemma uploaded_take (ms : list Z) (sp : ScreenParams) (ws : list Widget.WidgetParams)
    (i : nat) (w : Widget.WidgetParams) (b : Z) :
  ws !! i = Some w -> (i < length ms)%nat ->
  uploaded Lerp (<[i := b]> ms) sp (take (S i) ws)
  = uploaded Lerp ms sp (take i ws) ++ [SeenUpload b (quad_vertices Lerp w sp)].
Proof.
  intros Hw Hi. unfold uploaded.
  pose proof (lookup_lt_Some _ _ _ Hw) as Hlt.
  rewrite (take_S_r _ _ _ Hw), imap_app. f_equal.
  - apply imap_ext. intros j x Hj. apply lookup_lt_Some in Hj.
    rewrite length_take in Hj. rewrite slot_insert by exact Hi.
    destruct (decide (i = j)); [lia|reflexivity].
  - cbn [imap]. rewrite length_take, Nat.min_l, Nat.add_0_r by lia.
    rewrite slot_insert by exact Hi. now rewrite decide_True.
Qed.

Lemma see_UpdateVertexBuffers (r : VulkanWidgetsRenderer) (ws : list Widget.WidgetParams)
    (sp : ScreenParams) (acc : list Seen) (Q : VulkanWidgetsRenderer -> list Seen -> Prop) :
  widget_image_count_ r = length ws ->
  length (vertex_buffers_ r) = length ws ->
  length (vertex_buffers_memory_ r) = length ws ->
  (forall bs ms, length bs = length ws -> length ms = length ws ->
     Q (set_vertex_buffers bs ms r) (rev (uploaded Lerp ms sp ws) ++ acc)) ->
  wp Inv see (UpdateVertexBuffers Lerp r ws sp) acc Q.
Proof.
  intros Hn Hb Hm HQ. unfold UpdateVertexBuffers. rewrite Hn.
  eapply wp_mono.
  - apply (wp_for Inv see
             (fun i s o => exists bs ms,
                s = set_vertex_buffers bs ms r
                /\ length bs = length ws /\ length ms = length ws
                /\ o = rev (uploaded Lerp ms sp (take i ws)) ++ acc)).
    + intros i s o Hi (bs & ms & -> & Hbs & Hms & ->).
      wp_go. apply wp_at; [lia|]. intros w Hw. cbn beta.
      apply see_UpdateVertexBuffer; [simpl; lia|simpl; lia|].
      intros b m. cbn [vertex_buffers_ vertex_buffers_memory_ set_vertex_buffers].
      exists (<[i := b]> bs), (<[i := m]> ms).
      split; [reflexivity|]. rewrite !length_insert.
      split; [exact Hbs|]. split; [exact Hms|].
      rewrite (uploaded_take ms sp ws i w m Hw) by lia.
      now rewrite rev_app_distr.
    + exists (vertex_buffers_ r), (vertex_buffers_memory_ r).
      split; [now destruct r|]. auto.
  - intros s o (bs & ms & -> & Hbs & Hms & ->). simpl. rewrite firstn_all.
    now apply HQ.
Qed.

Lemma see_RenderWidget (r : VulkanWidgetsRenderer) (w : Widget.WidgetParams) (cb : Z)
    (index : nat) (sp : ScreenParams) (acc : list Seen)
    (Q : VulkanWidgetsRenderer -> list Seen -> Prop) :
  (index < length (image_views_ r))%nat ->
  (index < length (descriptor_sets_ r))%nat ->
  (index < length (vertex_buffers_ r))%nat ->
  Widget.texture w <> 0 ->
  is_Some (H !! Widget.texture w) ->
  (forall view,
     handed_out Inv VK_NULL_HANDLE view ->
     Q (set_image_views (<[index := view]> (image_views_ r)) r)
       (rev (widget_drawn H (set_image_views (<[index := view]> (image_views_ r)) r)
               cb sp index w) ++ acc)) ->
  wp Inv see (RenderWidget r w cb index sp) acc Q.
Proof.
  intros Hv Hds Hb Ht [image Him] HQ. unfold RenderWidget.
  wp_go. apply see_CleanTextureImageView; [exact Hv|].
  wp_go. eapply wp_image_at; [eassumption|exact Ht|exact Him|].
  cbn [image_views_ set_image_views descriptor_sets_ vertex_buffers_ texture_sampler_
       graphics_pipeline_ index_buffers_ pipeline_layout_ indices_count_].
  wp_go. apply wp_at; [now rewrite length_insert|]. intros old Hold.
  rewrite list_lookup_insert_eq in Hold by exact Hv. injection Hold as <-.
  wp_go. apply wp_set_at; [now rewrite length_insert|].
  rewrite list_insert_insert_eq.
  cbn [image_views_ set_image_views descriptor_sets_ vertex_buffers_ texture_sampler_
       graphics_pipeline_ index_buffers_ pipeline_layout_ indices_count_].
  wp_go. apply wp_at; [exact Hds|]. intros set Hset.
  wp_go. apply wp_at; [exact Hb|]. intros buffer Hbuffer. wp_go.
  match goal with h : handed_out _ _ _ |- _ => specialize (HQ _ h) end.
  unfold widget_drawn, slot, image_of in HQ.
  cbn [image_views_ set_image_views descriptor_sets_ vertex_buffers_ texture_sampler_
       graphics_pipeline_ index_buffers_ pipeline_layout_ indices_count_] in HQ.
  rewrite list_lookup_insert_eq, Hset, Hbuffer, Him in HQ by exact Hv.
  exact HQ.
Qed.

Lemma widget_drawn_insert (r : VulkanWidgetsRenderer) (vs : list Z) (cb : Z)
    (sp : ScreenParams) (i j : nat) (view : Z) (w : Widget.WidgetParams) :
  (i < length vs)%nat -> i <> j ->
  widget_drawn H (set_image_views (<[i := view]> vs) r) cb sp j w
  = widget_drawn H (set_image_views vs r) cb sp j w.
Proof.
  intros Hi Hne. unfold widget_drawn.
  cbn [image_views_ set_image_views descriptor_sets_ vertex_buffers_ texture_sampler_
       graphics_pipeline_ index_buffers_ pipeline_layout_ indices_count_].
  rewrite slot_insert by exact Hi. now rewrite decide_False.
Qed.

(** The draw loop of [RenderWidgets]. *)
Lemma see_draw_loop (r : VulkanWidgetsRenderer) (ws : list Widget.WidgetParams) (cb : Z)
    (sp : ScreenParams) (acc : list Seen) (Q : VulkanWidgetsRenderer -> list Seen -> Prop) :
  widget_image_count_ r = length ws ->
  slots (length ws) r ->
  textures_valid H ws ->
  (forall vs, length vs = length ws ->
     Q (set_image_views vs r)
       (rev (concat (imap (widget_drawn H (set_image_views vs r) cb sp) ws)) ++ acc)) ->
  wp Inv see (for_ (widget_image_count_ r) 0
                (fun i r => bind (at_ "widgets_params" ws i)
                              (fun w => RenderWidget r w cb i sp)) r) acc Q.
Proof.
  intros Hn (Hb & Hm & Hds & Hv) Ht HQ. rewrite Hn.
  eapply wp_mono.
  - apply (wp_for Inv see
             (fun i s o => exists vs,
                s = set_image_views vs r /\ length vs = length ws
                /\ o = rev (concat (imap (widget_drawn H s cb sp) (take i ws))) ++ acc)).
    + intros i s o Hi (vs & -> & Hvs & ->).
      wp_go. apply wp_at; [lia|]. intros w Hw. cbn beta.
      destruct (proj1 (Forall_lookup _ _) Ht i w Hw) as [Hnz Hsome].
      apply see_RenderWidget; [simpl; lia|simpl; lia|simpl; lia|exact Hnz|exact Hsome|].
      intros view _.
      change (set_image_views (<[i := view]> (image_views_ (set_image_views vs r)))
                (set_image_views vs r))
        with (set_image_views (<[i := view]> vs) r).
      exists (<[i := view]> vs). split; [reflexivity|].
      rewrite length_insert. split; [exact Hvs|].
      rewrite (take_S_r _ _ _ Hw), imap_app, concat_app, rev_app_distr, <- app_assoc.
      cbn [imap concat]. rewrite app_nil_r, length_take, Nat.min_l, Nat.add_0_r by lia.
      f_equal. f_equal. f_equal. f_equal.
      apply imap_ext. intros j x Hj. apply lookup_lt_Some in Hj.
      rewrite length_take in Hj. symmetry. apply widget_drawn_insert; lia.
    + exists (image_views_ r). split; [now rewrite set_image_views_same|]. auto.
  - intros s o (vs & -> & Hvs & ->). simpl. rewrite firstn_all. now apply HQ.
Qed.

Lemma rev_rendered (r r' : VulkanWidgetsRenderer) (sp : ScreenParams)
    (ws : list Widget.WidgetParams) (cb rp : Z) (acc : list Seen) :
  rev (rendered Lerp H r r' sp ws cb rp) ++ acc
  = rev (concat (imap (widget_drawn H r' cb sp) ws))
    ++ rev (pipeline_rebuilt r r' rp)
    ++ rev (uploaded Lerp (vertex_buffers_memory_ r') sp ws)
    ++ SeenSets (descriptor_pool_ r') (Z.of_nat (length ws)) (descriptor_sets_ r')
       :: SeenPool (Int.to_uint32 (Z.of_nat (length ws)))
            (Int.to_uint32 (Z.of_nat (length ws))) (descriptor_pool_ r') :: acc.
Proof.
  unfold rendered. cbv zeta. rewrite !rev_app_distr. simpl. now rewrite <- !app_assoc.
Qed.

Lemma see_RenderWidgets (r : VulkanWidgetsRenderer) (sp : ScreenParams)
    (ws : list Widget.WidgetParams) (cb rp : Z) (acc : list Seen)
    (Q : VulkanWidgetsRenderer -> list Seen -> Prop) :
  textures_valid H ws ->
  (forall r',
     after_render r rp (length ws) r' ->
     (rp <> current_render_pass_ r -> handed_out Inv VK_NULL_HANDLE (graphics_pipeline_ r')) ->
     Q r' (rev (rendered Lerp H r r' sp ws cb rp) ++ acc)) ->
  wp Inv see (RenderWidgets Lerp r sp ws cb rp) acc Q.
Proof.
  intros Ht HQ. unfold RenderWidgets.
  apply wp_bind, see_CreatePerWidgetVulkanObjects. simpl.
  intros pool sets Hl.
  apply wp_bind, see_UpdateVertexBuffers;
    [reflexivity|simpl; apply length_resize|simpl; apply length_resize|].
  intros bs ms Hbs Hms.
  cbn [current_render_pass_ set_vertex_buffers set_image_views set_descriptors
       set_widget_image_count].
  apply wp_bind.
  destruct (Z.eqb_spec rp (current_render_pass_ r)) as [Heq|Hne]; cbn [negb].
  - apply wp_ret. apply see_draw_loop;
      [reflexivity|unfold slots; simpl; rewrite length_resize; auto|exact Ht|].
    intros vs Hvs.
    match goal with |- Q ?x _ => set (r' := x) end.
    match goal with |- Q _ ?l =>
      replace l with (rev (rendered Lerp H r r' sp ws cb rp) ++ acc) end.
    + apply HQ; [|intros Hne; now elim Hne].
      constructor; try reflexivity; try (now symmetry).
      unfold slots. simpl. auto.
    + rewrite rev_rendered. unfold pipeline_rebuilt.
      rewrite (proj2 (Z.eqb_eq _ _) Heq). reflexivity.
  - apply see_CreateGraphicsPipeline. intros p Hp.
    apply see_draw_loop;
      [reflexivity|unfold slots; simpl; rewrite length_resize; auto|exact Ht|].
    intros vs Hvs.
    match goal with |- Q ?x _ => set (r' := x) end.
    match goal with |- Q _ ?l =>
      replace l with (rev (rendered Lerp H r r' sp ws cb rp) ++ acc) end.
    + apply HQ; [|intros _; exact Hp].
      constructor; try reflexivity.
      * unfold slots. simpl. auto.
      * intros Heq. now elim Hne.
    + rewrite rev_rendered. unfold pipeline_rebuilt.
      rewrite (proj2 (Z.eqb_neq _ _) Hne). simpl.
      destruct (graphics_pipeline_ r =? VK_NULL_HANDLE); reflexivity.
Qed.

(** The constructor is seen to do nothing; it leaves one widget announced
    and no slot. *)
Lemma see_ctor (any : Widgets.Indeterminate) (loaded : bool) (acc : list Seen)
    (Q : VulkanWidgetsRenderer -> list Seen -> Prop) :
  (forall r,
     widget_image_count_ r = 1%nat -> slots 0 r ->
     graphics_pipeline_ r = VK_NULL_HANDLE ->
     current_render_pass_ r = Widgets.some_render_pass any ->
     (loaded = true -> indices_count_ r = 6) ->
     Q r acc) ->
  wp Inv see (VulkanWidgetsRenderer_ctor any loaded) acc Q.
Proof.
  intros HQ. unfold VulkanWidgetsRenderer_ctor. destruct loaded; cbn [negb].
  - unfold CreateSharedVulkanObjects, CreateIndexBuffer.
    wp_go. apply see_CreateBuffer. intros [b m].
    wp_go. cbn iota. wp_go.
    apply HQ; try reflexivity; unfold slots; simpl; auto.
  - wp_go. apply HQ; try reflexivity; [unfold slots; simpl; auto|discriminate].
Qed.

(** The destructor, when the vectors have one entry per widget. *)
Lemma see_dtor (r : VulkanWidgetsRenderer) (acc : list Seen) (Q : unit -> list Seen -> Prop) :
  slots (widget_image_count_ r) r ->
  Q tt ((if graphics_pipeline_ r =? VK_NULL_HANDLE then []
         else [SeenPipelineDestroyed (graphics_pipeline_ r)])
        ++ SeenPoolDestroyed (descriptor_pool_ r) :: acc) ->
  wp Inv see (VulkanWidgetsRenderer_dtor r) acc Q.
Proof.
  intros (Hb & Hm & Hds & Hv) HQ. unfold VulkanWidgetsRenderer_dtor.
  apply wp_bind. eapply wp_mono.
  - apply (wp_for Inv see
             (fun i s o => exists vs, s = set_image_views vs r
                /\ length vs = widget_image_count_ r /\ o = acc)).
    + intros i s o Hi (vs & -> & Hvs & ->).
      apply see_CleanTextureImageView; [simpl; lia|].
      eexists. split; [reflexivity|]. now rewrite length_insert.
    + exists (image_views_ r). now rewrite set_image_views_same.
  - intros s o (vs & -> & Hvs & ->). cbn beta.
    cbn [texture_sampler_ pipeline_layout_ descriptor_set_layout_ descriptor_pool_
         set_image_views].
    wp_go. apply see_CleanPipeline. wp_go. simpl.
    eapply wp_mono.
    + apply (wp_for Inv see (fun i (_ : unit) o =>
               o = (if graphics_pipeline_ r =? VK_NULL_HANDLE then []
                    else [SeenPipelineDestroyed (graphics_pipeline_ r)])
                   ++ SeenPoolDestroyed (descriptor_pool_ r) :: acc)).
      * intros i [] o Hi ->.
        wp_go. apply wp_at; [lia|]. intros b _. cbn beta.
        destruct (negb (b =? VK_NULL_HANDLE)).
        -- wp_go. apply wp_at; [lia|]. intros m _. wp_go. reflexivity.
        -- wp_go. reflexivity.
      * reflexivity.
    + intros [] o ->. exact HQ.
Qed.

End Seeing.

(** ** Counting what was seen *)

Lemma tally_app (p : Seen -> bool) (a b : list Seen) :
  tally p (a ++ b) = (tally p a + tally p b)%nat.
Proof. unfold tally. now rewrite List.filter_app, length_app. Qed.

Lemma tally_rev (p : Seen -> bool) (a : list Seen) : tally p (rev a) = tally p a.
Proof.
  induction a as [|x a IH]; [reflexivity|].
  simpl rev. rewrite tally_app, IH. unfold tally. simpl.
  destruct (p x); simpl; lia.
Qed.

Lemma tally_imap_none {A} (p : Seen -> bool) (l : list A) :
  forall g : nat -> A -> Seen,
  (forall i x, p (g i x) = false) -> tally p (imap g l) = 0%nat.
Proof.
  induction l as [|x l IH]; intros g Hg; [reflexivity|].
  rewrite imap_cons. unfold tally in *. simpl. rewrite Hg. apply IH.
  intros i y. apply Hg.
Qed.

Lemma tally_concat_imap_none {A} (p : Seen -> bool) (l : list A) :
  forall g : nat -> A -> list Seen,
  (forall i x, tally p (g i x) = 0%nat) -> tally p (concat (imap g l)) = 0%nat.
Proof.
  induction l as [|x l IH]; intros g Hg; [reflexivity|].
  rewrite imap_cons. cbn [concat]. rewrite tally_app, Hg. apply IH.
  intros i y. apply Hg.
Qed.

Lemma count_pool_creation (cs : list VkCall) :
  count is_pool_creation cs = tally seen_pool_creation (omap see cs).
Proof.
  induction cs as [|c cs IH]; [reflexivity|].
  cbn [count]. rewrite IH. unfold tally.
  destruct c; try reflexivity. now destruct data.
Qed.

Lemma count_pool_destruction (cs : list VkCall) :
  count is_pool_destruction cs = tally seen_pool_destruction (omap see cs).
Proof.
  induction cs as [|c cs IH]; [reflexivity|].
  cbn [count]. rewrite IH. unfold tally.
  destruct c; try reflexivity. now destruct data.
Qed.

Lemma count_pipeline_creation (cs : list VkCall) :
  count is_pipeline_creation cs = tally seen_pipeline_creation (omap see cs).
Proof.
  induction cs as [|c cs IH]; [reflexivity|].
  cbn [count]. rewrite IH. unfold tally.
  destruct c; try reflexivity. now destruct data.
Qed.

Lemma count_pipeline_destruction (cs : list VkCall) :
  count is_pipeline_destruction cs = tally seen_pipeline_destruction (omap see cs).
Proof.
  induction cs as [|c cs IH]; [reflexivity|].
  cbn [count]. rewrite IH. unfold tally.
  destruct c; try reflexivity. now destruct data.
Qed.

(** What one call of [RenderWidgets] adds to the counts. *)
Lemma rendered_tally (Lerp : spec_float -> spec_float -> spec_float -> spec_float)
    (H : gmap Z Z) (r r' : VulkanWidgetsRenderer) (sp : ScreenParams)
    (ws : list Widget.WidgetParams) (cb rp : Z) :
  let o := rendered Lerp H r r' sp ws cb rp in
  tally seen_pool_creation o = 1%nat
  /\ tally seen_pool_destruction o = 0%nat
  /\ tally seen_pipeline_creation o = (if rp =? current_render_pass_ r then 0%nat else 1%nat)
  /\ tally seen_pipeline_destruction o
     = (if rp =? current_render_pass_ r then 0%nat
        else if graphics_pipeline_ r =? VK_NULL_HANDLE then 0%nat else 1%nat).
Proof.
  unfold rendered. cbv zeta.
  assert (Hup : forall p, (forall m vs, p (SeenUpload m vs) = false) ->
            tally p (uploaded Lerp (vertex_buffers_memory_ r') sp ws) = 0%nat).
  { intros p Hp. apply tally_imap_none. intros i x. apply Hp. }
  assert (Hdr : forall p, (forall i w, tally p (widget_drawn H r' cb sp i w) = 0%nat) ->
            tally p (concat (imap (widget_drawn H r' cb sp) ws)) = 0%nat).
  { intros p Hp. now apply tally_concat_imap_none. }
  repeat split; rewrite !tally_app, Hup, Hdr by reflexivity; unfold pipeline_rebuilt;
    destruct (rp =? current_render_pass_ r); try reflexivity;
    destruct (graphics_pipeline_ r =? VK_NULL_HANDLE); reflexivity.
Qed.

Section Counting.

Context (Inv : Driver -> Prop) (H : gmap Z Z).

Hypothesis Inv_stable : stable Inv.

Hypothesis Inv_calm : forall d, Inv d -> calm H d.

Variable Lerp : spec_float -> spec_float -> spec_float -> spec_float.

(** A run of calls: the pools and pipelines it is seen to create and
    destroy. *)
Lemma see_render_frames (cs : list Call) :
  forall (r : VulkanWidgetsRenderer) (acc : list Seen)
         (Q : VulkanWidgetsRenderer -> list Seen -> Prop),
  Forall (fun c => textures_valid H (call_widgets c)) cs ->
  (forall r' o,
     let n := changes (current_render_pass_ r) (call_render_pass <$> cs) in
     tally seen_pool_creation o = (length cs + tally seen_pool_creation acc)%nat ->
     tally seen_pool_destruction o = tally seen_pool_destruction acc ->
     tally seen_pipeline_creation o = (n + tally seen_pipeline_creation acc)%nat ->
     (tally seen_pipeline_destruction acc <= tally seen_pipeline_destruction o
      <= n + tally seen_pipeline_destruction acc)%nat ->
     ((forall h, handed_out Inv VK_NULL_HANDLE h -> h <> VK_NULL_HANDLE) ->
      tally seen_pipeline_destruction o
      = (n - (if (graphics_pipeline_ r =? VK_NULL_HANDLE)%Z then 1 else 0)
         + tally seen_pipeline_destruction acc)%nat) ->
     (cs = [] /\ r' = r) \/ slots (widget_image_count_ r') r' ->
     Q r' o) ->
  wp Inv see (render_frames Lerp cs r) acc Q.
Proof.
  induction cs as [|c cs IH]; intros r acc Q Ht HQ; cbn [render_frames].
  - apply wp_ret. apply HQ; simpl; auto; lia.
  - apply Forall_cons in Ht as [Ht1 Ht].
    apply wp_bind. apply (see_RenderWidgets Inv H Inv_stable Inv_calm); [exact Ht1|].
    intros r1 [Hn Hs Hrp Hkept _ _ _ _ _ _] Hmade. apply IH; [exact Ht|].
    intros r' o n Hpc Hpd Hc Hd Hx Hr'. subst n.
    destruct (rendered_tally Lerp H r r1 (call_screen c) (call_widgets c)
                (call_command_buffer c) (call_render_pass c)) as (T1 & T2 & T3 & T4).
    cbv zeta in T1, T2, T3, T4.
    rewrite tally_app, tally_rev in Hpc, Hpd, Hc, Hd.
    rewrite tally_app, tally_rev in Hx.
    rewrite T1 in Hpc. rewrite T2 in Hpd. rewrite T3 in Hc. rewrite T4 in Hd, Hx.
    rewrite Hrp in Hc, Hd, Hx.
    apply HQ; cbv zeta; rewrite ?fmap_cons; cbn [changes length].
    + lia.
    + exact Hpd.
    + lia.
    + destruct (call_render_pass c =? current_render_pass_ r); [lia|].
      destruct (graphics_pipeline_ r =? VK_NULL_HANDLE); lia.
    + intros Hfull. specialize (Hx Hfull).
      destruct (Z.eqb_spec (call_render_pass c) (current_render_pass_ r)) as [Heq|Hne].
      * rewrite (Hkept Heq) in Hx. lia.
      * specialize (Hfull _ (Hmade Hne)).
        rewrite (proj2 (Z.eqb_neq _ _) Hfull) in Hx.
        destruct (graphics_pipeline_ r =? VK_NULL_HANDLE); lia.
    + right. destruct Hr' as [[_ ->]|Hr']; [now rewrite Hn|exact Hr'].
Qed.

End Counting.

Section SeeingFrames.

Variable Lerp : spec_float -> spec_float -> spec_float -> spec_float.

(** X4: what one call of [RenderWidgets] is seen to do, for every state of
    the renderer and every widget list whose texture pointers are valid,
    over a driver where [vkMapMemory] succeeds, whatever it answers to the
    other calls.  The call returns, and the calls it made that take part in
    drawing are, in order: the creation of a descriptor pool for as many
    sets as there are widgets and their allocation from that pool; the
    upload of the quad of each widget, in list order, to the memory the
    widget's slot holds; the rebuild of the pipeline if the render pass is
    not the one the renderer held; and then, widget after widget in list
    order, the creation of the view of the image behind the widget's
    texture pointer, the write of that view and the sampler to the
    widget's descriptor set, the binding of the pipeline, viewport,
    scissor, the widget's vertex buffer, the index buffer and the widget's
    descriptor set, and one draw of [indices_count_] indices.  The handles
    are those the renderer holds when the call is over; result codes are
    not part of what is listed. *)
Theorem RenderWidgets_history (H : gmap Z Z) (r : VulkanWidgetsRenderer) (sp : ScreenParams)
    (ws : list Widget.WidgetParams) (cb rp : Z) (d : Driver) :
  calm H d ->
  textures_valid H ws ->
  exists r' d',
    RenderWidgets Lerp r sp ws cb rp d = Ok (r', d')
    /\ calm H d'
    /\ history see d' = history see d ++ rendered Lerp H r r' sp ws cb rp
    /\ after_render r rp (length ws) r'.
Proof.
  intros Hd Ht.
  destruct (see_RenderWidgets (calm H) H (calm_stable H) (fun _ h => h) Lerp r sp ws cb rp []
              (fun r' o => o = rev (rendered Lerp H r r' sp ws cb rp)
                           /\ after_render r rp (length ws) r') Ht) with (d := d)
    as (r' & d' & out & E & I & C & Ho & Ha).
  { intros r' Ha _. rewrite app_nil_r. auto. }
  { exact Hd. }
  exists r', d'. split; [exact E|]. split; [exact I|]. split; [|exact Ha].
  unfold history. rewrite C, rev_app_distr. rewrite app_nil_r in Ho.
  now rewrite Ho, rev_involutive.
Qed.

(** C5, amended: the renderer remembers one render pass, the one of the
    last call.  Take any run of [RenderWidgets] calls whose widgets have
    valid texture pointers, over a driver where [vkMapMemory] succeeds.
    The run returns, and the number of pipelines created is the number of
    calls whose render pass differs from that of the call before (for the
    first call: from the one the renderer holds); the number of pipelines
    destroyed is at most that, and when every call of the driver succeeds
    with a handle that is not null it is exactly that, less one if the
    renderer held no pipeline at first and a pipeline was created.  So a
    call with the render pass of the call before creates and destroys no
    pipeline, and a render pass that comes back after another one costs one
    more rebuild. *)
Theorem pipeline_rebuilt_on_each_change (H : gmap Z Z) (cs : list Call)
    (r : VulkanWidgetsRenderer) (d : Driver) :
  calm H d ->
  Forall (fun c => textures_valid H (call_widgets c)) cs ->
  let n := changes (current_render_pass_ r) (call_render_pass <$> cs) in
  exists r' d',
    render_frames Lerp cs r d = Ok (r', d')
    /\ count is_pipeline_creation (calls d')
       = (count is_pipeline_creation (calls d) + n)%nat
    /\ (count is_pipeline_destruction (calls d)
        <= count is_pipeline_destruction (calls d')
        <= count is_pipeline_destruction (calls d) + n)%nat
    /\ (pending d = [] -> 0 < next_handle d ->
        count is_pipeline_destruction (calls d')
        = (count is_pipeline_destruction (calls d)
           + (n - (if (graphics_pipeline_ r =? VK_NULL_HANDLE)%Z then 1 else 0)))%nat).
Proof.
  intros Hd Ht n.
  destruct (see_render_frames (calm H) H (calm_stable H) (fun _ h => h) Lerp cs r
              (omap see (calls d))
              (fun _ o =>
                 tally seen_pipeline_creation o
                 = (n + tally seen_pipeline_creation (omap see (calls d)))%nat
                 /\ (tally seen_pipeline_destruction (omap see (calls d))
                     <= tally seen_pipeline_destruction o
                     <= n + tally seen_pipeline_destruction (omap see (calls d)))%nat) Ht)
    with (d := d) as (r' & d' & out & E & _ & C & Hc & Hb).
  { intros r' o n' _ _ Hc Hb _ _. auto. }
  { exact Hd. }
  exists r', d'. rewrite !count_pipeline_creation, !count_pipeline_destruction, C.
  split; [exact E|]. split; [lia|]. split; [lia|].
  intros Hp Hn.
  destruct (see_render_frames (succeeding H) H (succeeding_stable H) (succeeding_calm H)
              Lerp cs r (omap see (calls d))
              (fun _ o =>
                 tally seen_pipeline_destruction o
                 = (n - (if (graphics_pipeline_ r =? VK_NULL_HANDLE)%Z then 1 else 0)
                    + tally seen_pipeline_destruction (omap see (calls d)))%nat) Ht)
    with (d := d) as (r2 & d2 & out2 & E2 & _ & C2 & Hx).
  { intros r2 o n' _ _ _ _ Hx _. apply Hx. intros h. apply succeeding_handed_out. }
  { split; [exact Hd|]. split; assumption. }
  rewrite E in E2. injection E2 as _ <-.
  rewrite C in C2. apply app_inv_tail in C2. subst out2. lia.
Qed.

(** X5: every call of [RenderWidgets] creates a descriptor pool and none
    destroys one.  Over any run of calls whose widgets have valid texture
    pointers, from any state of the renderer, over a driver where
    [vkMapMemory] succeeds and whatever it answers to the other calls, the
    run returns, as many pools were created as there were calls, and no
    pool was destroyed. *)
Theorem descriptor_pools_pile_up (H : gmap Z Z) (cs : list Call) (r : VulkanWidgetsRenderer)
    (d : Driver) :
  calm H d ->
  Forall (fun c => textures_valid H (call_widgets c)) cs ->
  exists r' d',
    render_frames Lerp cs r d = Ok (r', d')
    /\ count is_pool_creation (calls d')
       = (length cs + count is_pool_creation (calls d))%nat
    /\ count is_pool_destruction (calls d') = count is_pool_destruction (calls d).
Proof.
  intros Hd Ht.
  destruct (see_render_frames (calm H) H (calm_stable H) (fun _ h => h) Lerp cs r
              (omap see (calls d))
              (fun _ o =>
                 tally seen_pool_creation o
                 = (length cs + tally seen_pool_creation (omap see (calls d)))%nat
                 /\ tally seen_pool_destruction o
                    = tally seen_pool_destruction (omap see (calls d))) Ht) with (d := d)
    as (r' & d' & out & E & _ & C & Hc & Hx).
  { intros r' o n Hc Hx _ _ _ _. auto. }
  { exact Hd. }
  exists r', d'. rewrite !count_pool_creation, !count_pool_destruction, C. auto.
Qed.

(** X6: after at least one call of [RenderWidgets] the destructor of the
    widget renderer returns: the vectors it walks have one entry per
    widget of the last call.  It destroys one descriptor pool, so of the
    pools the calls created all but one are never destroyed.  The widgets
    have valid texture pointers and [vkMapMemory] succeeds; the driver may
    answer anything to the other calls. *)
Theorem destructor_after_rendering (H : gmap Z Z) (c : Call) (cs : list Call)
    (r : VulkanWidgetsRenderer) (d : Driver) :
  calm H d ->
  Forall (fun c => textures_valid H (call_widgets c)) (c :: cs) ->
  exists r' d' d'',
    render_frames Lerp (c :: cs) r d = Ok (r', d')
    /\ VulkanWidgetsRenderer_dtor r' d' = Ok (tt, d'')
    /\ count is_pool_creation (calls d'')
       = (S (length cs) + count is_pool_creation (calls d))%nat
    /\ count is_pool_destruction (calls d'')
       = (1 + count is_pool_destruction (calls d))%nat.
Proof.
  intros Hd Ht.
  destruct (see_render_frames (calm H) H (calm_stable H) (fun _ h => h) Lerp (c :: cs) r
              (omap see (calls d))
              (fun r' o =>
                 (tally seen_pool_creation o
                  = (length (c :: cs) + tally seen_pool_creation (omap see (calls d)))%nat
                  /\ tally seen_pool_destruction o
                     = tally seen_pool_destruction (omap see (calls d)))
                 /\ slots (widget_image_count_ r') r') Ht) with (d := d)
    as (r' & d' & out & E & I & C & [Hc Hx] & Hs).
  { intros r' o n Hc Hx _ _ _ [[Hnil _]|Hs]; [discriminate|]. auto. }
  { exact Hd. }
  rewrite <- C in Hc, Hx.
  destruct (see_dtor (calm H) (calm_stable H) r' (omap see (calls d'))
              (fun _ o =>
                 tally seen_pool_creation o = tally seen_pool_creation (omap see (calls d'))
                 /\ tally seen_pool_destruction o
                    = S (tally seen_pool_destruction (omap see (calls d')))) Hs)
    with (d := d') as ([] & d'' & out' & E' & _ & C' & Hc' & Hx').
  { rewrite !tally_app. unfold tally at 1 3.
    destruct (graphics_pipeline_ r' =? VK_NULL_HANDLE); simpl; auto. }
  { exact I. }
  exists r', d', d''. rewrite <- C' in Hc', Hx'.
  rewrite !count_pool_creation, !count_pool_destruction.
  split; [exact E|]. split; [exact E'|]. simpl in Hc. lia.
Qed.

End SeeingFrames.

(** ** Rules for plugin code, with the state of the driver *)

Lemma reaches_ret {A} (a : A) (d : Driver) (Q : A -> Driver -> Prop) :
  Q a d -> reaches (ret a) d Q.
Proof. intros H. now exists a, d. Qed.

Lemma reaches_bind {A B} (m : VK A) (k : A -> VK B) (d : Driver) (Q : B -> Driver -> Prop) :
  reaches m d (fun a d1 => reaches (k a) d1 Q) -> reaches (bind m k) d Q.
Proof.
  intros (a & d1 & E1 & b & d2 & E2 & HQ). exists b, d2.
  now rewrite (bind_ok _ _ _ _ _ E1).
Qed.

Lemma reaches_mono {A} (m : VK A) (d : Driver) (P Q : A -> Driver -> Prop) :
  reaches m d P -> (forall a d', P a d' -> Q a d') -> reaches m d Q.
Proof. intros (a & d1 & E1 & HP) H. exists a, d1. auto. Qed.

Lemma reaches_at {A} (name : string) (v : list A) (i : nat) (d : Driver)
    (Q : A -> Driver -> Prop) :
  (i < length v)%nat -> (forall x, v !! i = Some x -> Q x d) -> reaches (at_ name v i) d Q.
Proof.
  intros Hi HQ. destruct (lookup_lt_is_Some_2 v i Hi) as [x Hx].
  exists x, d. rewrite (at_ok _ _ _ _ _ Hx). auto.
Qed.

Lemma reaches_set_at {A} (name : string) (v : list A) (i : nat) (x : A) (d : Driver)
    (Q : list A -> Driver -> Prop) :
  (i < length v)%nat -> Q (<[i := x]> v) d -> reaches (set_at name v i x) d Q.
Proof.
  intros Hi HQ. exists (<[i := x]> v), d. now rewrite set_at_ok by assumption.
Qed.

Lemma reaches_drv {A} (f : Driver -> A * Driver) (d : Driver) (Q : A -> Driver -> Prop) :
  Q (fst (f d)) (snd (f d)) -> reaches (drv f) d Q.
Proof. intros HQ. exists (fst (f d)), (snd (f d)). unfold drv. now destruct (f d). Qed.

Lemma reaches_drv_ (f : Driver -> Driver) (d : Driver) (Q : unit -> Driver -> Prop) :
  Q tt (f d) -> reaches (drv_ f) d Q.
Proof. intros HQ. now exists tt, (f d). Qed.

Lemma reaches_for {S} (I : nat -> S -> Driver -> Prop) (body : nat -> S -> VK S) (n : nat) :
  forall (from : nat) (s : S) (d : Driver),
  (forall i s d, (from <= i < from + n)%nat -> I i s d ->
     reaches (body i s) d (I (Datatypes.S i))) ->
  I from s d ->
  reaches (for_ n from body s) d (I (from + n)%nat).
Proof.
  induction n as [|n IH]; intros from s d Hbody Hs; simpl.
  - apply reaches_ret. now rewrite Nat.add_0_r.
  - apply reaches_bind. eapply reaches_mono.
    + apply Hbody; [lia|exact Hs].
    + intros s1 d1 Hs1. simpl in Hs1.
      replace (from + Datatypes.S n)%nat with (Datatypes.S from + n)%nat by lia.
      apply IH; [|exact Hs1].
      intros i s' d' Hi. apply Hbody. lia.
Qed.

Lemma omap_cons {A B} (f : A -> option B) (x : A) (l : list A) :
  omap f (x :: l) = option_list (f x) ++ omap f l.
Proof. simpl. now destruct (f x). Qed.

Lemma reaches_CALL_VK {A} (func : Driver -> (VkResult * A) * Driver) (d : Driver)
    (Q : A -> Driver -> Prop) :
  Q (snd (fst (func d)))
    (log_unless (succeeded (fst (fst (func d)))) "Vulkan error." (snd (func d))) ->
  reaches (CALL_VK func) d Q.
Proof.
  intros HQ. unfold reaches, CALL_VK. destruct (func d) as [[res a] d1]. cbn [fst snd] in HQ.
  now exists a, (log_unless (succeeded res) "Vulkan error." d1).
Qed.

(** Driver calls other than [vkMapMemory] leave the results of the coming
    mappings as they are. *)
Lemma unmapped_creating (obj : VkObject) (call : Z -> Z -> VkCall) (out : Z) (d : Driver)
    (Q : Z -> Driver -> Prop) :
  (forall h d', map_results d' = map_results d -> Q h d') ->
  reaches (CALL_VK (creating obj call out)) d Q.
Proof. intros HQ. apply reaches_CALL_VK, HQ. reflexivity. Qed.

Lemma unmapped_emit (c : VkCall) (d : Driver) (Q : unit -> Driver -> Prop) :
  (forall d', map_results d' = map_results d -> Q tt d') -> reaches (drv_ (emit c)) d Q.
Proof. intros HQ. apply reaches_drv_, HQ. reflexivity. Qed.

Lemma unmapped_log_unless (ok : bool) (msg : string) (d : Driver)
    (Q : unit -> Driver -> Prop) :
  (forall d', map_results d' = map_results d -> Q tt d') ->
  reaches (drv_ (log_unless ok msg)) d Q.
Proof. intros HQ. apply reaches_drv_, HQ. reflexivity. Qed.

Lemma unmapped_read {A} (g : Driver -> A) (c : VkCall) (d : Driver)
    (Q : A -> Driver -> Prop) :
  (forall a d', map_results d' = map_results d -> Q a d') ->
  reaches (drv (fun d => (g d, emit c d))) d Q.
Proof. intros HQ. apply reaches_drv, HQ. reflexivity. Qed.

Ltac unmapped_step :=
  lazymatch goal with
  | |- reaches (bind _ _) _ _ => apply reaches_bind
  | |- reaches (ret _) _ _ => apply reaches_ret
  | |- reaches (CALL_VK (creating _ _ _)) _ _ => apply unmapped_creating; intros ? ? ?
  | |- reaches (drv_ (emit _)) _ _ => apply unmapped_emit; intros ? ?
  | |- reaches (drv_ (log_unless _ _)) _ _ => apply unmapped_log_unless; intros ? ?
  | |- reaches (drv _) _ _ => apply unmapped_read; intros ? ? ?
  end.

Lemma unmapped_CreateBuffer (size : Z) (usage : VkBufferUsage) (properties buffer memory : Z)
    (d : Driver) (Q : Z * Z -> Driver -> Prop) :
  (forall bm d', map_results d' = map_results d -> Q bm d') ->
  reaches (CreateBuffer size usage properties buffer memory) d Q.
Proof.
  intros HQ. unfold CreateBuffer, Widgets.FindMemoryType.
  repeat (unmapped_step; cbn beta).
  apply HQ. congruence.
Qed.

(** A fault after a part that returns. *)
Lemma bind_faults {A B} (m : VK A) (k : A -> VK B) (d : Driver) (f : Fault) :
  reaches m d (fun a d1 => k a d1 = Undefined f) -> bind m k d = Undefined f.
Proof. intros (a & d1 & E & Hk). now rewrite (bind_ok _ _ _ _ _ E). Qed.

(** [CreateIndexBuffer] copies the indices through [data] whether or not
    [vkMapMemory] has set it. *)
Lemma CreateIndexBuffer_cases (r : VulkanWidgetsRenderer) (indices : list Z) (d : Driver) :
  if succeeded (hd VK_SUCCESS (map_results d))
  then reaches (CreateIndexBuffer r indices) d
         (fun r' _ => exists b m, r' = set_index_buffer b m (Z.of_nat (length indices)) r)
  else CreateIndexBuffer r indices d = Undefined (Uninitialised "data").
Proof.
  destruct (succeeded (hd VK_SUCCESS (map_results d))) eqn:Hm; unfold CreateIndexBuffer.
  - apply reaches_bind, unmapped_CreateBuffer. intros [b m] d1 H1.
    apply reaches_bind, reaches_drv. unfold mapping. cbn [fst snd]. rewrite H1, Hm.
    apply reaches_bind. eexists tt, _. split; [reflexivity|].
    apply reaches_bind, reaches_drv_, reaches_ret. now exists b, m.
  - apply bind_faults, unmapped_CreateBuffer. intros [b m] d1 H1.
    unfold bind, drv, mapping. cbn [fst snd]. now rewrite H1, Hm.
Qed.

Lemma CreateSharedVulkanObjects_cases (r : VulkanWidgetsRenderer) (d : Driver) :
  if succeeded (hd VK_SUCCESS (map_results d))
  then reaches (CreateSharedVulkanObjects r) d
         (fun r' _ => exists set_layout layout sampler b m,
            r' = set_index_buffer b m 6 (set_shared set_layout layout sampler r))
  else CreateSharedVulkanObjects r d = Undefined (Uninitialised "data").
Proof.
  destruct (succeeded (hd VK_SUCCESS (map_results d))) eqn:Hm; unfold CreateSharedVulkanObjects.
  - repeat (unmapped_step; cbn beta).
    match goal with |- reaches (CreateIndexBuffer ?r' ?l) ?s _ =>
      pose proof (CreateIndexBuffer_cases r' l s) as Hc;
      replace (map_results s) with (map_results d) in Hc by congruence end.
    rewrite Hm in Hc. eapply reaches_mono; [exact Hc|].
    intros r' _ (b & m & ->). eauto 6.
  - repeat (apply bind_faults; unmapped_step; cbn beta).
    match goal with |- CreateIndexBuffer ?r' ?l ?s = _ =>
      pose proof (CreateIndexBuffer_cases r' l s) as Hc;
      replace (map_results s) with (map_results d) in Hc by congruence end.
    now rewrite Hm in Hc.
Qed.

(** The constructor of the widget renderer: it leaves one widget announced
    and no slot, unless Vulkan is loaded and [vkMapMemory] fails. *)
Lemma widgets_ctor_cases (any : Widgets.Indeterminate) (loaded : bool) (d : Driver) :
  if loaded && negb (succeeded (hd VK_SUCCESS (map_results d)))
  then VulkanWidgetsRenderer_ctor any loaded d = Undefined (Uninitialised "data")
  else reaches (VulkanWidgetsRenderer_ctor any loaded) d
         (fun r _ => widget_image_count_ r = 1%nat
            /\ slots 0 r
            /\ graphics_pipeline_ r = VK_NULL_HANDLE
            /\ current_render_pass_ r = Widgets.some_render_pass any
            /\ (loaded = true -> indices_count_ r = 6)).
Proof.
  unfold VulkanWidgetsRenderer_ctor. destruct loaded; cbn [negb andb].
  - match goal with |- context [CreateSharedVulkanObjects ?r0] =>
      pose proof (CreateSharedVulkanObjects_cases r0 d) as Hc end.
    destruct (succeeded (hd VK_SUCCESS (map_results d))); cbn [negb]; [|exact Hc].
    eapply reaches_mono; [exact Hc|].
    intros r' _ (sl & l & s & b & m & ->). unfold slots. simpl. auto 10.
  - apply reaches_bind, reaches_drv_, reaches_ret. unfold slots. simpl.
    repeat split. discriminate.
Qed.

(** C1 (the code departs from it).  When Vulkan is loaded and the
    [vkMapMemory] of the index buffer fails, the constructor itself copies
    the indices through a pointer that was never set.  In every other case,
    whatever [LoadVulkan] answered, the constructor returns and leaves
    [widget_image_count_] at 1 and the per-widget vectors empty, and the
    destructor, run before any [RenderWidgets], reads [image_views_[0]] of
    the empty vector in its first loop. *)
Theorem destructor_reads_out_of_bounds (any : Widgets.Indeterminate) (loaded : bool)
    (d : Driver) :
  if loaded && negb (succeeded (hd VK_SUCCESS (map_results d)))
  then VulkanWidgetsRenderer_ctor any loaded d = Undefined (Uninitialised "data")
  else exists r d',
    VulkanWidgetsRenderer_ctor any loaded d = Ok (r, d')
    /\ widget_image_count_ r = 1%nat
    /\ image_views_ r = []
    /\ vertex_buffers_ r = []
    /\ VulkanWidgetsRenderer_dtor r d' = Undefined (OutOfBounds "image_views_" 0 0).
Proof.
  pose proof (widgets_ctor_cases any loaded d) as Hc.
  destruct (loaded && negb (succeeded (hd VK_SUCCESS (map_results d)))); [exact Hc|].
  destruct Hc as (r & d' & Hctor & Hn & (Hb & _ & _ & Hv) & _).
  apply nil_length_inv in Hb, Hv.
  exists r, d'. repeat split; try assumption.
  unfold VulkanWidgetsRenderer_dtor. rewrite Hn. simpl.
  unfold bind at 1. unfold bind at 1. unfold CleanTextureImageView at 1. unfold bind at 1.
  rewrite Hv. reflexivity.
Qed.
(** ** The widget renderer inside the frame target manager *)

Lemma dtor_without_slots (r : VulkanWidgetsRenderer) (d : Driver) :
  widget_image_count_ r = 1%nat ->
  image_views_ r = [] ->
  VulkanWidgetsRenderer_dtor r d = Undefined (OutOfBounds "image_views_" 0 0).
Proof.
  intros Hn Hviews. unfold VulkanWidgetsRenderer_dtor. rewrite Hn. simpl.
  unfold bind at 1. unfold bind at 1. unfold CleanTextureImageView at 1. unfold bind at 1.
  rewrite Hviews. reflexivity.
Qed.

(** X7: [SetupWidgets] on a manager without widget renderer returns with
    one, unless Vulkan is loaded and the [vkMapMemory] of the index buffer
    fails: then the constructor copies through a pointer that was never
    set.  Until [RenderWidgets] has run, every way of getting rid of the
    renderer is undefined, since each runs the destructor over vectors
    that are still empty: [TeardownWidgets], the destructor of the
    manager, and a second [SetupWidgets], which first builds the new
    renderer (and may fail there as the first one) and then deletes the
    old one. *)
Theorem widgets_dropped_before_rendering (t : VulkanRenderer)
    (any again : Widgets.Indeterminate) (loaded reloaded : bool) (d : Driver) :
  if loaded && negb (succeeded (hd VK_SUCCESS (map_results d)))
  then SetupWidgets any loaded (mkPlugin t None) d = Undefined (Uninitialised "data")
  else exists w d',
    SetupWidgets any loaded (mkPlugin t None) d = Ok (mkPlugin t (Some w), d')
    /\ TeardownWidgets (mkPlugin t (Some w)) d'
       = Undefined (OutOfBounds "image_views_" 0 0)
    /\ Lifecycle.VulkanRenderer_dtor (mkPlugin t (Some w)) d'
       = Undefined (OutOfBounds "image_views_" 0 0)
    /\ SetupWidgets again reloaded (mkPlugin t (Some w)) d'
       = (if reloaded && negb (succeeded (hd VK_SUCCESS (map_results d')))
          then Undefined (Uninitialised "data")
          else Undefined (OutOfBounds "image_views_" 0 0)).
Proof.
  pose proof (widgets_ctor_cases any loaded d) as Hc.
  destruct (loaded && negb (succeeded (hd VK_SUCCESS (map_results d)))).
  { unfold SetupWidgets. unfold bind at 1. now rewrite Hc. }
  destruct Hc as (w & d' & Hctor & Hn & (_ & _ & _ & Hv) & _).
  apply nil_length_inv in Hv.
  exists w, d'.
  assert (Ht : TeardownWidgets (mkPlugin t (Some w)) d'
               = Undefined (OutOfBounds "image_views_" 0 0)).
  { unfold TeardownWidgets. cbn [widget_renderer_]. unfold bind.
    now rewrite dtor_without_slots. }
  split; [|split; [exact Ht|split]].
  - unfold SetupWidgets. rewrite (bind_ok _ _ _ _ _ Hctor). reflexivity.
  - unfold Lifecycle.VulkanRenderer_dtor. unfold bind at 1. now rewrite Ht.
  - pose proof (widgets_ctor_cases again reloaded d') as Hc2.
    destruct (reloaded && negb (succeeded (hd VK_SUCCESS (map_results d')))).
    + unfold SetupWidgets. unfold bind at 1. now rewrite Hc2.
    + destruct Hc2 as (w2 & d2 & Hctor2 & _).
      unfold SetupWidgets. rewrite (bind_ok _ _ _ _ _ Hctor2).
      cbn [widget_renderer_]. unfold bind at 1. now rewrite dtor_without_slots.
Qed.

(** X8: when the host has no [IUnityGraphicsVulkanV2] the constructor of
    the manager returns at once, without a call to the driver: the vectors
    are empty and [swapchain_image_count_] and [render_pass_] hold what
    the memory held.  The destructor then loops to that count: it reads
    [frame_buffers_[0]] of the empty vector unless the count happens to
    be 0, and in that case destroys the render pass under the handle the
    memory held. *)
Theorem destructor_without_interface (any : FrameTarget.Indeterminate) (g : Globals)
    (d : Driver) :
  exists r,
    VulkanRenderer_ctor any false g d = Ok (r, d)
    /\ frame_buffers_ r = [] /\ swapchain_views_ r = []
    /\ swapchain_image_count_ r = FrameTarget.some_image_count any
    /\ Lifecycle.VulkanRenderer_dtor (mkPlugin r None) d
       = (if (0 <? FrameTarget.some_image_count any)%nat
          then Undefined (OutOfBounds "frame_buffers_" 0 0)
          else Ok (tt, destroying vkDestroyRenderPass (FrameTarget.some_render_pass any) d)).
Proof.
  eexists. split; [reflexivity|]. cbn [frame_buffers_ swapchain_views_ swapchain_image_count_].
  split; [reflexivity|]. split; [reflexivity|]. split; [reflexivity|].
  unfold Lifecycle.VulkanRenderer_dtor, TeardownWidgets.
  cbn [widget_renderer_ target swapchain_image_count_ frame_buffers_ swapchain_views_
       render_pass_].
  destruct (FrameTarget.some_image_count any) as [|n]; reflexivity.
Qed.

(** ** The render pass of a frame *)

Lemma creating_calls (obj : VkObject) (call : Z -> Z -> VkCall) (out : Z) (d : Driver) :
  let made := creating obj call out d in
  calls (snd made) = call (fst (fst made)) (snd (fst made)) :: calls d
  /\ errors (snd made) = errors d
  /\ fst (fst made) = hd VK_SUCCESS (pending d)
  /\ (if succeeded (hd VK_SUCCESS (pending d))
      then snd (fst made) = next_handle d
           /\ objects (snd made) = <[next_handle d := obj]> (objects d)
           /\ next_handle (snd made) = next_handle d + 1
      else snd (fst made) = out
           /\ objects (snd made) = objects d
           /\ next_handle (snd made) = next_handle d).
Proof.
  unfold creating, next_result, create. simpl.
  destruct (succeeded (hd VK_SUCCESS (pending d))); repeat split.
Qed.

(** X9: a frame's render pass is begun and ended on the command buffer of
    that frame.  With the image index in range, [RunRenderingPreProcessing]
    returns and its last call begins the render pass of the manager on the
    framebuffer it now holds for the acquired image, with the width and
    height of the screen as unsigned numbers; it records no other command;
    and [RunRenderingPostProcessing] ends the pass on the command buffer
    the host gave to the pre-processing, whatever the manager held from
    the frame before. *)
Theorem render_pass_bracket (g : Globals) (r : VulkanRenderer) (sp : ScreenParams)
    (cb : Z) (d : Driver) :
  sized r ->
  (image_index g < swapchain_image_count_ r)%nat ->
  exists r' d' fb rest,
    RunRenderingPreProcessing g r sp cb d = Ok (r', d')
    /\ frame_buffers_ r' !! image_index g = Some fb
    /\ calls d' = vkCmdBeginRenderPass cb (render_pass_ r) fb
                    (Int.to_uint32 (width sp)) (Int.to_uint32 (height sp)) :: rest
    /\ count is_command rest = count is_command (calls d)
    /\ bind (RunRenderingPreProcessing g r sp cb)
            (fun r' => RunRenderingPostProcessing r') d
       = Ok (tt, emit (vkCmdEndRenderPass cb) d').
Proof.
  intros [Hfb Hv] Hi.
  destruct (lookup_lt_is_Some_2 (frame_buffers_ r) (image_index g)) as [old Hold]; [lia|].
  destruct (lookup_lt_is_Some_2 (swapchain_views_ r) (image_index g)) as [view Hview]; [lia|].
  destruct (Nat.eq_dec (counter_after_check r sp) 0%nat) as [Hz|Hnz].
  - pose proof (RunRenderingPreProcessing_idle g r sp cb d old Hz Hold) as E.
    exists (note_dimensions r sp cb), (emit (vkCmdBeginRenderPass cb (render_pass_ r) old
              (Int.to_uint32 (width sp)) (Int.to_uint32 (height sp))) d), old, (calls d).
    destruct (note_dimensions_fields r sp cb) as (_ & _ & Hf & _).
    split; [exact E|]. split; [now rewrite Hf|]. split; [reflexivity|].
    split; [reflexivity|].
    rewrite (bind_ok _ _ _ _ _ E). unfold RunRenderingPostProcessing, drv_.
    unfold note_dimensions. now destruct (dimensions_changed r sp).
  - pose proof (RunRenderingPreProcessing_update g r sp cb d old view
                  ltac:(lia) Hold Hview) as E.
    cbv zeta in E.
    set (d0 := if negb (old =? VK_NULL_HANDLE)
               then destroying vkDestroyFramebuffer old d else d) in E.
    destruct (creating_calls
                (Framebuffer (render_pass_ r) view (Int.to_uint32 (width sp))
                   (Int.to_uint32 (height sp)))
                (fun res => vkCreateFramebuffer res (render_pass_ r) view
                              (Int.to_uint32 (width sp)) (Int.to_uint32 (height sp)))
                old d0) as (Hc & _).
    cbv zeta in Hc.
    set (made := creating _ _ old d0) in *.
    eexists _, _, (snd (fst made)), (calls (snd made)).
    split; [exact E|].
    split; [cbn [frame_buffers_]; apply list_lookup_insert_eq; lia|].
    split; [reflexivity|].
    split; [|now rewrite (bind_ok _ _ _ _ _ E)].
    rewrite Hc. cbn [count is_command]. subst d0.
    destruct (negb (old =? VK_NULL_HANDLE)); reflexivity.
Qed.

(** X10: the result of [vkCreateFramebuffer] is not looked at.  In the
    driver model, where a failing call creates nothing and leaves its
    output argument as it was: when a framebuffer is due for the acquired
    image, the image has one, and the creation of the new one fails, the
    old framebuffer has been destroyed, the manager still holds its handle,
    the render pass is begun on it, nothing is logged, and the pending
    count has gone down as if the framebuffer had been rebuilt. *)
Theorem failed_framebuffer_creation (g : Globals) (r : VulkanRenderer) (sp : ScreenParams)
    (cb : Z) (d : Driver) (old view : Z) :
  (0 < counter_after_check r sp)%nat ->
  frame_buffers_ r !! image_index g = Some old ->
  swapchain_views_ r !! image_index g = Some view ->
  old <> VK_NULL_HANDLE ->
  succeeded (hd VK_SUCCESS (pending d)) = false ->
  exists r' d',
    RunRenderingPreProcessing g r sp cb d = Ok (r', d')
    /\ frame_buffers_ r' = frame_buffers_ r
    /\ objects d' !! old = None
    /\ frames_to_update_count_ r' = Nat.pred (counter_after_check r sp)
    /\ errors d' = errors d
    /\ calls d' = vkCmdBeginRenderPass cb (render_pass_ r) old
                    (Int.to_uint32 (width sp)) (Int.to_uint32 (height sp))
                  :: vkCreateFramebuffer (hd VK_SUCCESS (pending d)) (render_pass_ r) view
                       (Int.to_uint32 (width sp)) (Int.to_uint32 (height sp)) old
                  :: vkDestroyFramebuffer old :: calls d.
Proof.
  intros Hpos Hold Hview Hnull Hfail.
  pose proof (RunRenderingPreProcessing_update g r sp cb d old view Hpos Hold Hview) as E.
  cbv zeta in E.
  rewrite (proj2 (Z.eqb_neq old VK_NULL_HANDLE) Hnull) in E. cbn [negb] in E.
  destruct (creating_calls
              (Framebuffer (render_pass_ r) view (Int.to_uint32 (width sp))
                 (Int.to_uint32 (height sp)))
              (fun res => vkCreateFramebuffer res (render_pass_ r) view
                            (Int.to_uint32 (width sp)) (Int.to_uint32 (height sp)))
              old (destroying vkDestroyFramebuffer old d)) as (Hc & He & Hr & Hm).
  cbv zeta in Hc, He, Hr, Hm.
  set (made := creating _ _ old (destroying vkDestroyFramebuffer old d)) in *.
  change (pending (destroying vkDestroyFramebuffer old d)) with (pending d) in Hr, Hm.
  rewrite Hfail in Hm. destruct Hm as (Hh & Ho & _).
  eexists _, _. split; [exact E|]. cbn [frame_buffers_ frames_to_update_count_].
  split; [rewrite Hh; now apply list_insert_id|].
  split; [cbn [emit objects]; rewrite Ho; apply lookup_delete_eq|].
  split; [reflexivity|].
  split; [exact He|].
  cbn [emit calls]. now rewrite Hc, Hr, Hh.
Qed.

(** ** The life of the frame target manager *)

Lemma views_only_refl (r : VulkanRenderer) : views_only r r.
Proof. now constructor. Qed.

Lemma reaches_create_views (images : list Z) (r : VulkanRenderer) (d : Driver) :
  swapchain_images_ r = images ->
  length (swapchain_views_ r) = length images ->
  reaches (create_views images r) d (fun r' d' =>
    views_only r r'
    /\ omap watch (calls d')
       = rev (views_made images (swapchain_views_ r')) ++ omap watch (calls d)
    /\ (no_framebuffer d -> no_framebuffer d')
    /\ next_handle d <= next_handle d').
Proof.
  intros Him Hlen. unfold create_views.
  eapply reaches_mono.
  - apply (reaches_for (fun i s d' =>
        views_only r s
        /\ omap watch (calls d')
           = rev (views_made (take i images) (take i (swapchain_views_ s)))
             ++ omap watch (calls d)
        /\ (no_framebuffer d -> no_framebuffer d')
        /\ next_handle d <= next_handle d')).
    + intros i s d1 Hi (Hvo & Hcalls & Hnf & Hnh).
      pose proof Hvo as [? ? ? ? Hims ? ? ? ? Hvs].
      apply reaches_bind, reaches_at; [rewrite Hims, Him; lia|]. intros image Himage.
      apply reaches_bind, reaches_at; [lia|]. intros old Hold.
      apply reaches_bind, reaches_drv.
      destruct (creating_calls (ImageView image VK_FORMAT_R8G8B8A8_SRGB)
                  (fun res => vkCreateImageView res image VK_FORMAT_R8G8B8A8_SRGB) old d1)
        as (Hc & _ & _ & Hm).
      cbv zeta in Hc, Hm.
      destruct (creating _ _ old d1) as [[res view] d2]. cbn [fst snd] in *.
      apply reaches_bind, reaches_set_at; [lia|].
      apply reaches_ret. cbn [swapchain_views_].
      split; [constructor; cbn; try assumption; now rewrite length_insert|].
      split; [|split].
      * rewrite Hc, omap_cons. cbn [watch option_list app]. rewrite Hcalls.
        rewrite Hims, Him in Himage.
        rewrite (take_S_r _ _ _ Himage).
        rewrite (take_S_r (<[i := view]> (swapchain_views_ s)) i view)
          by (apply list_lookup_insert_eq; lia).
        rewrite take_insert_ge by lia.
        unfold views_made. rewrite zip_with_app by (rewrite !length_take; lia).
        rewrite rev_app_distr. reflexivity.
      * intros H0 h rp v w ht Hh. specialize (Hnf H0).
        destruct (succeeded (hd VK_SUCCESS (pending d1))).
        -- destruct Hm as (_ & Ho & _). rewrite Ho in Hh.
           apply lookup_insert_Some in Hh as [[_ Hh]|[_ Hh]]; [discriminate|].
           exact (Hnf _ _ _ _ _ Hh).
        -- destruct Hm as (_ & Ho & _). rewrite Ho in Hh. exact (Hnf _ _ _ _ _ Hh).
      * destruct (succeeded (hd VK_SUCCESS (pending d1)));
          destruct Hm as (_ & _ & Hn); lia.
    + split; [apply views_only_refl|]. split; [reflexivity|]. split; [auto|lia].
  - intros s d' (Hvo & Hcalls & Hnf & Hnh). cbn beta in *.
    split; [exact Hvo|]. split; [|auto].
    rewrite Hcalls. destruct Hvo.
    rewrite !take_ge by lia. reflexivity.
Qed.

Lemma reaches_ctor (any : FrameTarget.Indeterminate) (g : Globals) (d : Driver) :
  let res1 := hd VK_SUCCESS (pending d) in
  let res2 := hd VK_SUCCESS (tl (pending d)) in
  let size := if succeeded res1 then length (swapchain_images d)
              else FrameTarget.some_image_count any in
  let written := take size (swapchain_images d) in
  reaches (VulkanRenderer_ctor any true g) d (fun r d' =>
    length (swapchain_views_ r) = size
    /\ swapchain_image_count_ r = (if succeeded res2 then length written else size)
    /\ swapchain_images_ r
       = (if succeeded res2
          then written ++ drop (length written) (replicate size VK_NULL_HANDLE)
          else replicate size VK_NULL_HANDLE)
    /\ frame_buffers_ r = replicate size VK_NULL_HANDLE
    /\ frames_to_update_count_ r = FrameTarget.some_frames_to_update any
    /\ current_rendering_width_ r = 0 /\ current_rendering_height_ r = 0
    /\ omap watch (calls d')
       = MadeRenderPass (render_pass_ r)
         :: rev (views_made (swapchain_images_ r) (swapchain_views_ r))
         ++ omap watch (calls d)
    /\ (no_framebuffer d -> no_framebuffer d')
    /\ next_handle d <= next_handle d').
Proof.
  intros res1 res2 size written. unfold VulkanRenderer_ctor. cbn [negb].
  apply reaches_bind, reaches_drv. unfold counting_images, next_result. cbn [fst snd].
  fold res1. fold size.
  apply reaches_bind, reaches_drv. unfold fetching_images, next_result.
  cbn [fst snd pending emit swapchain_images]. fold res2. fold written.
  rewrite !resize_nil.
  set (d0 := emit _ (mkDriver _ _ _ _ _ _ _ _ _ _)).
  assert (Hlen : length (written ++ drop (length written) (replicate size VK_NULL_HANDLE))
                 = size).
  { rewrite length_app, length_drop, length_replicate.
    assert (length written <= size)%nat by (unfold written; rewrite length_take; lia). lia. }
  set (answer := if succeeded res2 then _ else _).
  assert (Hanswer : answer
            = (if succeeded res2 then length written else size,
               if succeeded res2
               then written ++ drop (length written) (replicate size VK_NULL_HANDLE)
               else replicate size VK_NULL_HANDLE))
    by (subst answer; now destruct (succeeded res2)).
  rewrite Hanswer. clear Hanswer answer. cbn [fst snd].
  set (count := if succeeded res2 then length written else size).
  set (images := if succeeded res2 then _ else _).
  assert (Himages : length images = size)
    by (subst images; destruct (succeeded res2); [exact Hlen|apply length_replicate]).
  apply reaches_bind. eapply reaches_mono.
  - apply reaches_create_views; [reflexivity|]. cbn [swapchain_views_].
    now rewrite length_replicate.
  - intros r1 d1 (Hvo & Hcalls & Hnf & Hnh). cbn beta.
    apply reaches_bind, reaches_drv.
    destruct (creating_calls RenderPass vkCreateRenderPass (render_pass_ r1) d1)
      as (Hc & _ & _ & Hm).
    cbv zeta in Hc, Hm.
    destruct (creating _ _ (render_pass_ r1) d1) as [[res pass] d2]. cbn [fst snd] in *.
    apply reaches_ret.
    destruct Hvo as [Hw Hh _ _ Hims Hcount Hcounter _ Hfbs Hvs]. cbn in *.
    rewrite length_replicate in Hvs.
    split; [exact Hvs|]. split; [exact Hcount|]. split; [exact Hims|].
    split; [exact Hfbs|].
    split; [exact Hcounter|]. split; [exact Hw|]. split; [exact Hh|].
    split; [|split].
    + rewrite Hc, omap_cons. cbn [watch option_list app]. now rewrite Hcalls, Hims.
    + intros H0 h rp v w ht Hh'. specialize (Hnf H0).
      destruct (succeeded (hd VK_SUCCESS (pending d1))).
      * destruct Hm as (_ & Ho & _). rewrite Ho in Hh'.
        apply lookup_insert_Some in Hh' as [[_ Hh']|[_ Hh']]; [discriminate|].
        exact (Hnf _ _ _ _ _ Hh').
      * destruct Hm as (_ & Ho & _). rewrite Ho in Hh'. exact (Hnf _ _ _ _ _ Hh').
    + change (next_handle d0) with (next_handle d) in Hnh.
      destruct (succeeded (hd VK_SUCCESS (pending d1)));
        destruct Hm as (_ & _ & Hn); lia.
Qed.

(** X11: with the Vulkan interface at hand the constructor returns,
    whatever the driver answers.  The results of the two calls of
    [vkGetSwapchainImagesKHR] are not looked at.  The vectors get as many
    slots as the first call leaves in [swapchain_image_count_]: the number
    of images of the cached swapchain, or what the memory held when the
    call fails.  The second call, when it succeeds, writes the images that
    fit and their number; when it fails the image slots stay null.  One
    view is created per image slot, in order and with the sRGB format,
    then the render pass; the framebuffers are all null and the sizes 0;
    the pending count is not set and holds what the memory held.  When the
    first call succeeds there is one slot per image of the swapchain, and
    when both do the slots hold the images. *)
Theorem constructor_wraps_each_image (any : FrameTarget.Indeterminate) (g : Globals)
    (d : Driver) :
  let res1 := hd VK_SUCCESS (pending d) in
  let res2 := hd VK_SUCCESS (tl (pending d)) in
  let size := if succeeded res1 then length (swapchain_images d)
              else FrameTarget.some_image_count any in
  let written := take size (swapchain_images d) in
  exists r d',
    VulkanRenderer_ctor any true g d = Ok (r, d')
    /\ length (swapchain_views_ r) = size
    /\ frame_buffers_ r = replicate size VK_NULL_HANDLE
    /\ swapchain_image_count_ r = (if succeeded res2 then length written else size)
    /\ swapchain_images_ r
       = (if succeeded res2
          then written ++ drop (length written) (replicate size VK_NULL_HANDLE)
          else replicate size VK_NULL_HANDLE)
    /\ current_rendering_width_ r = 0 /\ current_rendering_height_ r = 0
    /\ frames_to_update_count_ r = FrameTarget.some_frames_to_update any
    /\ history watch d'
       = history watch d ++ views_made (swapchain_images_ r) (swapchain_views_ r)
         ++ [MadeRenderPass (render_pass_ r)]
    /\ (succeeded res1 = true ->
        sized r /\ swapchain_image_count_ r = length (swapchain_images d))
    /\ (succeeded res1 = true -> succeeded res2 = true ->
        swapchain_images_ r = swapchain_images d).
Proof.
  intros res1 res2 size written.
  destruct (reaches_ctor any g d)
    as (r & d' & E & Hv & Hn & Him & Hfb & Hc & Hw & Hh & Hcalls & _).
  fold res1 res2 in Hv, Hn, Him, Hfb. fold size in Hv, Hn, Him, Hfb.
  fold written in Hn, Him.
  exists r, d'. repeat (split; [assumption|]).
  split; [|split].
  - unfold history. rewrite Hcalls. cbn [rev]. rewrite rev_app_distr, rev_involutive.
    now rewrite <- app_assoc.
  - intros H1. unfold sized. rewrite Hfb, length_replicate, Hv, Hn.
    unfold written, size. rewrite H1, take_ge by lia.
    destruct (succeeded res2); auto.
  - intros H1 H2. rewrite Him, H2. unfold written, size. rewrite H1, take_ge by lia.
    rewrite drop_ge by (rewrite length_replicate; lia). apply app_nil_r.
Qed.

(** The loop and the last call of the destructor. *)
Lemma reaches_dtor (r : VulkanRenderer) (d : Driver) :
  sized r ->
  reaches (Lifecycle.VulkanRenderer_dtor (mkPlugin r None)) d (fun _ d' =>
    omap watch (calls d')
    = DroppedRenderPass (render_pass_ r)
      :: rev (flat_map image_dropped (zip (frame_buffers_ r) (swapchain_views_ r)))
      ++ omap watch (calls d)
    /\ only_destroyed d d'
    /\ forall h, h ∈ frame_buffers_ r \/ h ∈ swapchain_views_ r \/ h = render_pass_ r ->
                 objects d' !! h = None).
Proof.
  intros [Hfb Hv]. unfold Lifecycle.VulkanRenderer_dtor, TeardownWidgets.
  cbn [widget_renderer_]. apply reaches_bind, reaches_ret. cbn [target].
  apply reaches_bind. eapply reaches_mono.
  - apply (reaches_for (fun i (_ : unit) d' =>
        omap watch (calls d')
        = rev (flat_map image_dropped (take i (zip (frame_buffers_ r) (swapchain_views_ r))))
          ++ omap watch (calls d)
        /\ only_destroyed d d'
        /\ forall j h, (j < i)%nat ->
             frame_buffers_ r !! j = Some h \/ swapchain_views_ r !! j = Some h ->
             objects d' !! h = None)).
    + intros i [] d1 Hi (Hcalls & Hsub & Hgone).
      apply reaches_bind, reaches_at; [lia|]. intros fb Hfbi.
      apply reaches_bind, reaches_drv_.
      apply reaches_bind, reaches_at; [lia|]. intros view Hview.
      apply reaches_drv_.
      split; [|split].
      * cbn [destroying emit calls destroy]. rewrite !omap_cons.
        cbn [watch option_list app]. rewrite Hcalls.
        assert (Hz : zip (frame_buffers_ r) (swapchain_views_ r) !! i = Some (fb, view)).
        { apply lookup_zip_with_Some. eauto. }
        rewrite (take_S_r _ _ _ Hz), flat_map_app, rev_app_distr. reflexivity.
      * intros h o Ho. apply Hsub. cbn [destroying emit objects destroy] in Ho.
        apply lookup_delete_Some in Ho as [_ Ho].
        now apply lookup_delete_Some in Ho as [_ Ho].
      * intros j h Hj Hh. cbn [destroying emit objects destroy].
        destruct (Z.eq_dec view h) as [->|Hne1]; [apply lookup_delete_eq|].
        rewrite lookup_delete_ne by assumption.
        destruct (Z.eq_dec fb h) as [->|Hne2]; [apply lookup_delete_eq|].
        rewrite lookup_delete_ne by assumption.
        destruct (Nat.eq_dec j i) as [->|Hji].
        -- destruct Hh as [Hh|Hh]; congruence.
        -- apply (Hgone j); [lia|exact Hh].
    + split; [reflexivity|]. split; [now intros h o|]. intros j h Hj. lia.
  - intros [] d1 (Hcalls & Hsub & Hgone). cbn beta. apply reaches_drv_.
    split; [|split].
    + cbn [destroying emit calls destroy]. rewrite omap_cons.
      cbn [watch option_list app]. rewrite Hcalls.
      rewrite take_ge; [reflexivity|]. rewrite length_zip_with. lia.
    + intros h o Ho. apply Hsub. cbn [destroying emit objects destroy] in Ho.
      now apply lookup_delete_Some in Ho as [_ Ho].
    + intros h Hh. cbn [destroying emit objects destroy].
      destruct (Z.eq_dec (render_pass_ r) h) as [->|Hne]; [apply lookup_delete_eq|].
      rewrite lookup_delete_ne by assumption.
      destruct Hh as [Hh|[Hh|Hh]]; [| |congruence].
      * apply list_elem_of_lookup_1 in Hh as [j Hj].
        apply (Hgone j h); [apply lookup_lt_Some in Hj; lia|now left].
      * apply list_elem_of_lookup_1 in Hh as [j Hj].
        apply (Hgone j h); [apply lookup_lt_Some in Hj; lia|now right].
Qed.

(** X12: the destructor of a manager without widget renderer returns when
    the two vectors have one entry per image.  Image after image it
    destroys the framebuffer and the view, null handles included, and at
    the end the render pass; it creates nothing, and no handle the manager
    held names a live object afterwards. *)
Theorem destructor_releases_what_is_held (r : VulkanRenderer) (d : Driver) :
  sized r ->
  exists d',
    Lifecycle.VulkanRenderer_dtor (mkPlugin r None) d = Ok (tt, d')
    /\ history watch d'
       = history watch d
         ++ flat_map image_dropped (zip (frame_buffers_ r) (swapchain_views_ r))
         ++ [DroppedRenderPass (render_pass_ r)]
    /\ only_destroyed d d'
    /\ forall h, h ∈ frame_buffers_ r \/ h ∈ swapchain_views_ r \/ h = render_pass_ r ->
                 objects d' !! h = None.
Proof.
  intros Hs. destruct (reaches_dtor r d Hs) as ([] & d' & E & Hcalls & Hsub & Hgone).
  exists d'. split; [exact E|]. split; [|auto].
  unfold history. rewrite Hcalls. cbn [rev]. rewrite rev_app_distr, rev_involutive.
  now rewrite <- app_assoc.
Qed.

(** One frame keeps every live framebuffer in the hands of the manager. *)
Lemma framebuffers_held_step (g : Globals) (r : VulkanRenderer) (sp : ScreenParams)
    (cb : Z) (d : Driver) :
  sized r ->
  (image_index g < swapchain_image_count_ r)%nat ->
  framebuffers_held r d ->
  exists r' d',
    RunRenderingPreProcessing g r sp cb d = Ok (r', d')
    /\ sized r'
    /\ swapchain_image_count_ r' = swapchain_image_count_ r
    /\ framebuffers_held r' d'.
Proof.
  intros [Hfb Hv] Hi [Hpos Hheld].
  destruct (lookup_lt_is_Some_2 (frame_buffers_ r) (image_index g)) as [old Hold]; [lia|].
  destruct (lookup_lt_is_Some_2 (swapchain_views_ r) (image_index g)) as [view Hview]; [lia|].
  destruct (note_dimensions_fields r sp cb) as (_ & Hn & Hf & Hvs & _).
  destruct (Nat.eq_dec (counter_after_check r sp) 0%nat) as [Hz|Hnz].
  - rewrite (RunRenderingPreProcessing_idle g r sp cb d old Hz Hold).
    eexists _, _. split; [reflexivity|].
    split; [unfold sized; now rewrite Hf, Hvs, Hn|]. split; [exact Hn|].
    split; [exact Hpos|]. intros h rp v w ht Hh. rewrite Hf. exact (Hheld _ _ _ _ _ Hh).
  - pose proof (RunRenderingPreProcessing_update g r sp cb d old view
                  ltac:(lia) Hold Hview) as E.
    cbv zeta in E.
    set (d0 := if negb (old =? VK_NULL_HANDLE)
               then destroying vkDestroyFramebuffer old d else d) in E.
    assert (Hn0 : next_handle d0 = next_handle d)
      by (subst d0; now destruct (negb (old =? VK_NULL_HANDLE))).
    assert (Hp0 : pending d0 = pending d)
      by (subst d0; now destruct (negb (old =? VK_NULL_HANDLE))).
    assert (Ho0 : forall h rp v w ht, objects d0 !! h = Some (Framebuffer rp v w ht) ->
              objects d !! h = Some (Framebuffer rp v w ht) /\ h <> old).
    { intros h rp v w ht Hh. subst d0.
      destruct (Z.eqb_spec old VK_NULL_HANDLE) as [Hnull|Hnull]; cbn [negb] in Hh.
      - split; [exact Hh|]. intros ->. now destruct (Hheld _ _ _ _ _ Hh).
      - cbn [destroying emit objects destroy] in Hh.
        apply lookup_delete_Some in Hh as [Hne Hh]. split; [exact Hh|congruence]. }
    destruct (creating_calls
                (Framebuffer (render_pass_ r) view (Int.to_uint32 (width sp))
                   (Int.to_uint32 (height sp)))
                (fun res => vkCreateFramebuffer res (render_pass_ r) view
                              (Int.to_uint32 (width sp)) (Int.to_uint32 (height sp)))
                old d0) as (_ & _ & _ & Hm).
    cbv zeta in Hm.
    set (made := creating _ _ old d0) in *.
    eexists _, _. split; [exact E|].
    split; [unfold sized; cbn; now rewrite length_insert|]. split; [reflexivity|].
    unfold framebuffers_held. cbn [frame_buffers_ emit next_handle objects].
    destruct (succeeded (hd VK_SUCCESS (pending d0))).
    + destruct Hm as (Hh & Ho & Hnx). rewrite Hh, Ho, Hnx, Hn0.
      split; [lia|]. intros h rp v w ht Hlive.
      apply lookup_insert_Some in Hlive as [[<- _]|[Hne Hlive]].
      * split; [unfold VK_NULL_HANDLE; lia|]. apply list_elem_of_insert. lia.
      * destruct (Ho0 _ _ _ _ _ Hlive) as [Hd Hnold].
        destruct (Hheld _ _ _ _ _ Hd) as [Hnn Hin]. split; [exact Hnn|].
        apply list_elem_of_lookup_1 in Hin as [j Hj].
        apply (list_elem_of_lookup_2 _ j).
        rewrite list_lookup_insert_ne; [exact Hj|]. intros <-. congruence.
    + destruct Hm as (Hh & Ho & Hnx). rewrite Hh, Ho, Hnx, Hn0.
      split; [exact Hpos|]. intros h rp v w ht Hlive.
      destruct (Ho0 _ _ _ _ _ Hlive) as [Hd _].
      rewrite list_insert_id by exact Hold. exact (Hheld _ _ _ _ _ Hd).
Qed.

Lemma framebuffers_held_run (g : Globals) (frames : list Frame) :
  forall (r : VulkanRenderer) (d : Driver),
  sized r ->
  Forall (fun f => (acquired f < swapchain_image_count_ r)%nat) frames ->
  framebuffers_held r d ->
  exists r' d',
    run_frames g frames r d = Ok (r', d') /\ sized r' /\ framebuffers_held r' d'.
Proof.
  induction frames as [|f rest IH]; intros r d Hs Hall Hheld.
  - exists r, d. now split.
  - inversion Hall as [|? ? Hf Hrest]; subst.
    destruct (framebuffers_held_step (with_image_index g (acquired f)) r (screen f)
                (command_buffer f) d Hs Hf Hheld) as (r1 & d1 & E1 & Hs1 & Hn1 & Hheld1).
    destruct (IH r1 d1 Hs1) as (r' & d' & E' & Hs' & Hheld'); [now rewrite Hn1|exact Hheld1|].
    exists r', d'. cbn [run_frames]. now rewrite (bind_ok _ _ _ _ _ E1).
Qed.

(** X13: no framebuffer outlives the manager.  Over a driver that has no
    framebuffer alive, does not hand out the null handle and answers the
    first [vkGetSwapchainImagesKHR] with success, whatever it answers to
    the other calls: the constructor returns, the frames run, each on an
    image of the swapchain, with whatever screens and in whatever order,
    and then the destructor returns and no framebuffer is alive.  Each
    framebuffer a frame replaces is destroyed by that frame, and the
    destructor destroys the ones left. *)
Theorem no_framebuffer_outlives_the_manager (any : FrameTarget.Indeterminate) (g : Globals)
    (frames : list Frame) (d : Driver) :
  0 < next_handle d ->
  no_framebuffer d ->
  succeeded (hd VK_SUCCESS (pending d)) = true ->
  Forall (fun f => (acquired f < length (swapchain_images d))%nat) frames ->
  exists r d1 r' d2 d3,
    VulkanRenderer_ctor any true g d = Ok (r, d1)
    /\ run_frames g frames r d1 = Ok (r', d2)
    /\ Lifecycle.VulkanRenderer_dtor (mkPlugin r' None) d2 = Ok (tt, d3)
    /\ no_framebuffer d3.
Proof.
  intros Hpos Hnone Hfirst Hall.
  destruct (reaches_ctor any g d)
    as (r & d1 & E1 & Hv & Hn & _ & Hfb & _ & _ & _ & _ & Hnf & Hnh).
  rewrite Hfirst in Hv, Hn, Hfb. rewrite take_ge in Hn by lia.
  assert (Hn' : swapchain_image_count_ r = length (swapchain_images d))
    by (rewrite Hn; now destruct (succeeded (hd VK_SUCCESS (tail (pending d))))).
  clear Hn.
  assert (Hs : sized r) by (unfold sized; now rewrite Hfb, length_replicate, Hv, Hn').
  assert (Hheld : framebuffers_held r d1).
  { split; [lia|]. intros h rp v w ht Hh. now destruct (Hnf Hnone _ _ _ _ _ Hh). }
  destruct (framebuffers_held_run g frames r d1 Hs) as (r' & d2 & E2 & Hs' & [_ Hheld']);
    [now rewrite Hn'|exact Hheld|].
  destruct (reaches_dtor r' d2 Hs') as ([] & d3 & E3 & _ & Hsub & Hgone).
  exists r, d1, r', d2, d3. split; [exact E1|]. split; [exact E2|]. split; [exact E3|].
  intros h rp v w ht Hh.
  destruct (Hheld' _ _ _ _ _ (Hsub _ _ Hh)) as [_ Hin].
  rewrite Hgone in Hh by now left. discriminate.
Qed.

(** ** Buffers *)

Lemma creating_device (obj : VkObject) (call : Z -> Z -> VkCall) (out : Z) (d : Driver) :
  memory_types (snd (creating obj call out d)) = memory_types d
  /\ memory_type_bits (snd (creating obj call out d)) = memory_type_bits d.
Proof. unfold creating, next_result, create. now split. Qed.

(** X14: a buffer is allocated even when the device has no memory type
    for it.  When no memory type is in the filter of the buffer with the
    requested properties, [CreateBuffer] still returns: the failure of
    [FindMemoryType] is logged, the memory is allocated from memory type
    0, and it is bound to the buffer, the last call made. *)
Theorem CreateBuffer_without_suitable_memory (size : Z) (usage : VkBufferUsage)
    (properties buffer memory : Z) (d : Driver) :
  (forall j, ~ suitable (memory_type_bits d) properties (memory_types d) j) ->
  exists b m d' res rest,
    CreateBuffer size usage properties buffer memory d = Ok ((b, m), d')
    /\ calls d' = vkBindBufferMemory b m :: vkAllocateMemory res size 0 m :: rest
    /\ "Failed to find suitable memory type!"%string ∈ errors d'.
Proof.
  intros Hnone.
  assert (Hfind : find_memory_type (memory_type_bits d) properties (memory_types d) 0 = None).
  { pose proof (find_memory_type_from (memory_type_bits d) properties (memory_types d) [] 0
                  eq_refl) as H.
    destruct (find_memory_type _ _ _ 0) as [k|]; [|reflexivity].
    destruct H as (_ & Hk & _). now destruct (Hnone k). }
  assert (R : reaches (CreateBuffer size usage properties buffer memory) d
            (fun bm d' => exists res rest,
               calls d' = vkBindBufferMemory (fst bm) (snd bm)
                          :: vkAllocateMemory res size 0 (snd bm) :: rest
               /\ "Failed to find suitable memory type!"%string ∈ errors d')).
  { unfold CreateBuffer, Widgets.FindMemoryType.
    apply reaches_bind, reaches_CALL_VK.
    destruct (creating_device (Buffer size usage) (fun res => vkCreateBuffer res size usage)
                buffer d) as [Ht Hb].
    destruct (creating (Buffer size usage) _ buffer d) as [[res1 b] d1]. cbn [fst snd] in *.
    apply reaches_bind, reaches_drv. cbn [fst snd log_unless memory_type_bits].
    apply reaches_bind, reaches_bind, reaches_drv.
    cbn [fst snd emit log_unless memory_types].
    rewrite Hb, Ht, Hfind.
    apply reaches_bind, reaches_drv_. apply reaches_ret. cbn [default].
    apply reaches_bind, reaches_CALL_VK.
    match goal with
    | |- context [creating ?o ?c memory ?s] =>
        destruct (creating_calls o c memory s) as (Hc & He & _);
        cbv zeta in Hc, He; destruct (creating o c memory s) as [[res2 m] d2]
    end.
    cbn [fst snd] in *.
    apply reaches_bind, reaches_drv_. apply reaches_ret.
    exists res2. eexists. cbn [fst snd emit log_unless calls errors].
    split; [now rewrite Hc|].
    rewrite He. cbn [log_unless errors emit bool_decide].
    destruct (succeeded res2); [|apply list_elem_of_further]; apply list_elem_of_here. }
  destruct R as ([b m] & d' & E & res & rest & Hc & He).
  exists b, m, d', res, rest. auto.
Qed.

(** X15: the bounds check of [CreateVertexBuffer] comes too late for its
    caller.  Called with an index past the end of the vector it logs an
    error, calls nothing and changes nothing; but [UpdateVertexBuffer],
    the one caller, has read [vertex_buffers_[index]] before, so with
    such an index the check is never reached. *)
Theorem vertex_buffer_index_checked_too_late
    (Lerp : spec_float -> spec_float -> spec_float -> spec_float)
    (r : VulkanWidgetsRenderer) (vertices : list Vertex) (w : Widget.WidgetParams)
    (sp : ScreenParams) (index : nat) (d : Driver) :
  (length (vertex_buffers_ r) <= index)%nat ->
  CreateVertexBuffer r vertices index d
  = Ok (r, log_error "Index is bigger than the buffers vector size." d)
  /\ UpdateVertexBuffer Lerp r w sp index d
     = Undefined (OutOfBounds "vertex_buffers_" index (length (vertex_buffers_ r))).
Proof.
  intros Hi. split.
  - unfold CreateVertexBuffer.
    rewrite (proj2 (Nat.leb_le (length (vertex_buffers_ r)) index) Hi). reflexivity.
  - unfold UpdateVertexBuffer. unfold bind at 1.
    now rewrite at_fault by exact Hi.
Qed.

(** ** From construction to the first frame *)

(** X16: the first [RenderWidgets] after the constructor, Vulkan loaded,
    over a driver where [vkMapMemory] succeeds, whatever it answers to the
    other calls, and for widgets with valid texture pointers.  Both
    return; the call is seen to do what [rendered] lists; each widget's
    last command is an indexed draw of the 6 indices the constructor
    uploaded; no pipeline is destroyed, and one is created unless the
    render pass passed in equals what the memory of
    [current_render_pass_], which the constructor does not set, happened
    to hold: then the widgets are drawn with the null pipeline bound, none
    having been created. *)
Theorem first_frame_after_construction
    (Lerp : spec_float -> spec_float -> spec_float -> spec_float) (H : gmap Z Z)
    (any : Widgets.Indeterminate) (sp : ScreenParams) (ws : list Widget.WidgetParams)
    (cb rp : Z) (d : Driver) :
  calm H d ->
  textures_valid H ws ->
  exists r d1 r' d2,
    VulkanWidgetsRenderer_ctor any true d = Ok (r, d1)
    /\ RenderWidgets Lerp r sp ws cb rp d1 = Ok (r', d2)
    /\ history see d2 = history see d1 ++ rendered Lerp H r r' sp ws cb rp
    /\ pipeline_rebuilt r r' rp
       = (if rp =? Widgets.some_render_pass any then []
          else [SeenPipeline (pipeline_layout_ r') rp (graphics_pipeline_ r')])
    /\ (rp = Widgets.some_render_pass any -> graphics_pipeline_ r' = VK_NULL_HANDLE)
    /\ forall i w, last (widget_drawn H r' cb sp i w) = Some (SeenDraw cb 6 1 0 0 0).
Proof.
  intros Hd Ht.
  destruct (see_ctor (calm H) H (calm_stable H) (fun _ h => h) any true []
              (fun r _ => graphics_pipeline_ r = VK_NULL_HANDLE
                          /\ current_render_pass_ r = Widgets.some_render_pass any
                          /\ indices_count_ r = 6)) with (d := d)
    as (r & d1 & out1 & E1 & I1 & _ & Hg & Hrp & Hi).
  { intros r _ _ Hg Hrp Hi. auto. }
  { exact Hd. }
  destruct (see_RenderWidgets (calm H) H (calm_stable H) (fun _ h => h) Lerp r sp ws cb rp []
              (fun r' o => o = rev (rendered Lerp H r r' sp ws cb rp)
                           /\ after_render r rp (length ws) r') Ht) with (d := d1)
    as (r' & d2 & out & E2 & _ & C & Ho & Ha).
  { intros r' Ha _. rewrite app_nil_r. auto. }
  { exact I1. }
  exists r, d1, r', d2. split; [exact E1|]. split; [exact E2|].
  destruct Ha as [_ _ _ Hkept _ _ _ Hic _ _].
  split; [|split; [|split]].
  - unfold history. rewrite C, rev_app_distr. rewrite app_nil_r in Ho.
    now rewrite Ho, rev_involutive.
  - unfold pipeline_rebuilt. rewrite Hrp, Hg. reflexivity.
  - intros ->. rewrite Hkept by (now symmetry). exact Hg.
  - intros i w. unfold widget_drawn. rewrite Hic, Hi. reflexivity.
Qed.

(** ** The objects made per widget *)

Lemma nothing_new_refl (d : Driver) : nothing_new d d.
Proof. split; [apply later_refl|auto]. Qed.

Lemma nothing_new_trans (d1 d2 d3 : Driver) :
  nothing_new d1 d2 -> nothing_new d2 d3 -> nothing_new d1 d3.
Proof.
  intros [H1 K1] [H2 K2]. split; [eapply later_trans; eassumption|].
  intros h o Ho Hh. eauto.
Qed.

Lemma held_nothing_new (bs vs : list Z) (d d' : Driver) :
  widget_objects_held bs vs d -> nothing_new d d' -> widget_objects_held bs vs d'.
Proof.
  intros [Hp Hh] [[_ _ _ Hn] Ho]. split; [lia|]. intros h o Hw Hl. eauto.
Qed.

Lemma calm_nothing_new (H : gmap Z Z) (d d' : Driver) :
  calm H d -> nothing_new d d' -> calm H d'.
Proof. intros Hc [L _]. eapply calm_stable; eassumption. Qed.

Lemma calm_maps (H : gmap Z Z) (d : Driver) :
  calm H d -> succeeded (hd VK_SUCCESS (map_results d)) = true.
Proof. intros [Hs _]. unfold maps_succeed in Hs. destruct Hs; [reflexivity|assumption]. Qed.

Lemma vacant_nothing_new (d d' : Driver) (h : Z) :
  vacant d h -> nothing_new d d' -> vacant d' h.
Proof. intros Hv [_ Ho] o Hw Hl. exact (Hv o Hw (Ho _ _ Hw Hl)). Qed.

Lemma held_grow (bs vs bs' vs' : list Z) (d : Driver) :
  widget_objects_held bs vs d ->
  (forall h, h ∈ bs -> h ∈ bs') -> (forall h, h ∈ vs -> h ∈ vs') ->
  widget_objects_held bs' vs' d.
Proof.
  intros [Hp Hh] Hb Hv. split; [exact Hp|]. intros h o Hw Hl.
  destruct (Hh h o Hw Hl) as [Hn Hin]. split; [exact Hn|].
  destruct (is_buffer o); auto.
Qed.

Lemma nothing_new_same (d d' : Driver) :
  later d d' -> objects d' = objects d -> nothing_new d d'.
Proof. intros Hn Ho. split; [exact Hn|]. intros h o _. now rewrite Ho. Qed.

Lemma nothing_new_emit (c : VkCall) (d : Driver) : nothing_new d (emit c d).
Proof. apply nothing_new_same; [apply later_emit|reflexivity]. Qed.

Lemma nothing_new_log_error (msg : string) (d : Driver) : nothing_new d (log_error msg d).
Proof. apply nothing_new_same; [apply later_log_error|reflexivity]. Qed.

Lemma nothing_new_log_unless (ok : bool) (msg : string) (d : Driver) :
  nothing_new d (log_unless ok msg d).
Proof. apply nothing_new_same; [apply later_log_unless|reflexivity]. Qed.

Lemma nothing_new_destroying (call : Z -> VkCall) (h : Z) (d : Driver) :
  nothing_new d (destroying call h d).
Proof.
  split; [apply later_destroying|]. intros k o _ Hk.
  cbn [destroying emit objects destroy] in Hk.
  now apply lookup_delete_Some in Hk as [_ Hk].
Qed.

Lemma vacant_destroying (call : Z -> VkCall) (h : Z) (d : Driver) :
  vacant (destroying call h d) h.
Proof.
  intros o _. cbn [destroying emit objects destroy]. now rewrite lookup_delete_eq.
Qed.

Lemma nothing_new_destroying_pool (pool : Z) (d : Driver) :
  nothing_new d (destroying_pool pool d).
Proof.
  split; [apply later_destroying_pool|]. intros k o _ Hk.
  cbn [destroying_pool emit objects] in Hk.
  apply map_lookup_filter_Some in Hk as [Hk _].
  now apply lookup_delete_Some in Hk as [_ Hk].
Qed.

Lemma nothing_new_create (res : Z) (obj : VkObject) (out : Z) (d : Driver) :
  per_widget obj = false -> nothing_new d (snd (create res obj out d)).
Proof.
  intros Hobj. split; [apply later_create|]. unfold create. cbn [snd].
  - intros k o Hw Hk. cbn [objects] in Hk. destruct (succeeded res); [|exact Hk].
    apply lookup_insert_Some in Hk as [[_ <-]|[_ Hk]]; [congruence|exact Hk].
Qed.

Lemma nothing_new_next_result (d : Driver) : nothing_new d (snd (next_result d)).
Proof. apply nothing_new_same; [apply later_next_result|reflexivity]. Qed.

Lemma nothing_new_creating (obj : VkObject) (call : Z -> Z -> VkCall) (out : Z) (d : Driver) :
  per_widget obj = false -> nothing_new d (snd (creating obj call out d)).
Proof.
  intros Hobj. unfold creating.
  pose proof (nothing_new_create (fst (next_result d)) obj out (snd (next_result d)) Hobj) as H.
  destruct (next_result d) as [res d1] eqn:E. cbn [fst snd] in H.
  destruct (create res obj out d1) as [h d2]. cbn [snd] in *.
  eapply nothing_new_trans; [|apply nothing_new_emit].
  eapply nothing_new_trans; [|exact H].
  replace d1 with (snd (next_result d)) by now rewrite E.
  apply nothing_new_next_result.
Qed.

Lemma nothing_new_create_many (res : Z) (n : nat) (obj : VkObject) :
  per_widget obj = false ->
  forall d, nothing_new d (snd (create_many res n obj d)).
Proof.
  intros Hobj. induction n as [|n IH]; intros d; cbn [create_many].
  - apply nothing_new_refl.
  - pose proof (nothing_new_create res obj VK_NULL_HANDLE d Hobj) as H.
    destruct (create res obj VK_NULL_HANDLE d) as [h d1]. cbn [snd] in H.
    specialize (IH d1). destruct (create_many res n obj d1) as [hs d2]. cbn [snd] in *.
    eapply nothing_new_trans; eassumption.
Qed.

Lemma nothing_new_allocating (pool : Z) (n : nat) (out : list Z) (d : Driver) :
  nothing_new d (snd (allocating pool n out d)).
Proof.
  unfold allocating.
  destruct (next_result d) as [res d1] eqn:E.
  pose proof (nothing_new_create_many res n (DescriptorSet pool) eq_refl d1) as H.
  destruct (create_many res n (DescriptorSet pool) d1) as [hs d2]. cbn [snd] in *.
  eapply nothing_new_trans; [|apply nothing_new_emit].
  eapply nothing_new_trans; [|exact H].
  replace d1 with (snd (next_result d)) by now rewrite E.
  apply nothing_new_next_result.
Qed.

Lemma nothing_new_mapping (memory size : Z) (d : Driver) :
  nothing_new d (snd (mapping memory size d)).
Proof. apply nothing_new_same; [apply later_mapping|reflexivity]. Qed.

(** *** Rules for code that creates no per-widget object *)

Lemma quietly_ret {A} (a : A) (Q : A -> Prop) : Q a -> quietly (ret a) Q.
Proof. intros H d. exists a, d. split; [reflexivity|]. split; [apply nothing_new_refl|exact H]. Qed.

Lemma quietly_bind {A B} (m : VK A) (k : A -> VK B) (Q : B -> Prop) :
  quietly m (fun a => quietly (k a) Q) -> quietly (bind m k) Q.
Proof.
  intros H d. destruct (H d) as (a & d1 & E1 & N1 & K).
  destruct (K d1) as (b & d2 & E2 & N2 & HQ).
  exists b, d2. rewrite (bind_ok _ _ _ _ _ E1).
  split; [exact E2|]. split; [eapply nothing_new_trans; eassumption|exact HQ].
Qed.

Lemma quietly_mono {A} (m : VK A) (P Q : A -> Prop) :
  quietly m P -> (forall a, P a -> Q a) -> quietly m Q.
Proof.
  intros H HPQ d. destruct (H d) as (a & d1 & E1 & N1 & HP). exists a, d1. auto.
Qed.

Lemma quietly_at {A} (name : string) (v : list A) (i : nat) (Q : A -> Prop) :
  (i < length v)%nat -> (forall x, v !! i = Some x -> Q x) -> quietly (at_ name v i) Q.
Proof.
  intros Hi HQ d. destruct (lookup_lt_is_Some_2 v i Hi) as [x Hx].
  exists x, d. rewrite (at_ok _ _ _ _ _ Hx).
  split; [reflexivity|]. split; [apply nothing_new_refl|auto].
Qed.

Lemma quietly_drv_ (f : Driver -> Driver) (Q : unit -> Prop) :
  (forall d, nothing_new d (f d)) -> Q tt -> quietly (drv_ f) Q.
Proof. intros Hf HQ d. exists tt, (f d). auto. Qed.

Lemma quietly_drv {A} (f : Driver -> A * Driver) (Q : A -> Prop) :
  (forall d, nothing_new d (snd (f d))) -> (forall a, Q a) -> quietly (drv f) Q.
Proof.
  intros Hf HQ d. exists (fst (f d)), (snd (f d)). unfold drv.
  split; [now destruct (f d)|]. auto.
Qed.

Lemma quietly_CALL_VK {A} (func : Driver -> (VkResult * A) * Driver) (Q : A -> Prop) :
  (forall d, nothing_new d (snd (func d))) -> (forall a, Q a) -> quietly (CALL_VK func) Q.
Proof.
  intros Hf HQ d. unfold CALL_VK. specialize (Hf d).
  destruct (func d) as [[res a] d1]. cbn [snd] in Hf.
  exists a, (log_unless (succeeded res) "Vulkan error." d1).
  split; [reflexivity|]. split; [|apply HQ].
  eapply nothing_new_trans; [exact Hf|apply nothing_new_log_unless].
Qed.

Lemma quietly_allocating (pool : Z) (n : nat) (out : list Z) (Q : list Z -> Prop) :
  length out = n ->
  (forall sets, length sets = n -> Q sets) ->
  quietly (CALL_VK (allocating pool n out)) Q.
Proof.
  intros Hout HQ d.
  destruct (CALL_VK_allocating pool n out d Hout) as (res & sets & d' & E & Hl & _).
  exists sets, d'. split; [exact E|]. split; [|now apply HQ].
  unfold CALL_VK in E. pose proof (nothing_new_allocating pool n out d) as H.
  destruct (allocating pool n out d) as [[res0 sets0] d0]. cbn [snd] in H.
  injection E as _ <-.
  eapply nothing_new_trans; [exact H|apply nothing_new_log_unless].
Qed.

Lemma reaches_quietly {A} (m : VK A) (d : Driver) (P : A -> Prop) (Q : A -> Driver -> Prop) :
  quietly m P ->
  (forall a d', nothing_new d d' -> P a -> Q a d') ->
  reaches m d Q.
Proof.
  intros H HQ. destruct (H d) as (a & d' & E & N & HP). exists a, d'. auto.
Qed.

Ltac quietly_step :=
  lazymatch goal with
  | |- quietly (ret _) _ => apply quietly_ret
  | |- quietly (bind _ _) _ => apply quietly_bind
  | |- quietly (drv_ (emit _)) _ =>
      apply quietly_drv_; [intros; apply nothing_new_emit|]
  | |- quietly (drv_ (destroying _ _)) _ =>
      apply quietly_drv_; [intros; apply nothing_new_destroying|]
  | |- quietly (drv_ (destroying_pool _)) _ =>
      apply quietly_drv_; [intros; apply nothing_new_destroying_pool|]
  | |- quietly (drv_ (log_error _)) _ =>
      apply quietly_drv_; [intros; apply nothing_new_log_error|]
  | |- quietly (drv_ (log_unless _ _)) _ =>
      apply quietly_drv_; [intros; apply nothing_new_log_unless|]
  | |- quietly (CALL_VK (creating _ _ _)) _ =>
      apply quietly_CALL_VK; [intros; apply nothing_new_creating; reflexivity|intros ?]
  | |- quietly (drv _) _ =>
      apply quietly_drv; [intros; apply nothing_new_emit|intros ?]
  end.

Ltac quietly_go := repeat first [quietly_step | progress cbn beta].

Ltac quiet_then N :=
  apply reaches_bind; eapply reaches_quietly with (P := fun _ => True);
  [quietly_go; exact I
  |let d' := fresh "d" in
   let N' := fresh "N" in
   intros ? d' N' _; cbn beta;
   apply (nothing_new_trans _ _ _ N) in N'; clear N; rename N' into N].

Lemma quietly_FindMemoryType (type_filter properties : Z) (Q : Z -> Prop) :
  (forall i, Q i) -> quietly (Widgets.FindMemoryType type_filter properties) Q.
Proof. intros HQ. unfold Widgets.FindMemoryType. quietly_go. apply HQ. Qed.

Lemma quietly_CleanPipeline (r : VulkanWidgetsRenderer) (Q : VulkanWidgetsRenderer -> Prop) :
  Q (set_graphics_pipeline VK_NULL_HANDLE r) -> quietly (CleanPipeline r) Q.
Proof.
  intros HQ. unfold CleanPipeline.
  destruct (Z.eqb_spec (graphics_pipeline_ r) VK_NULL_HANDLE) as [E|E]; cbn [negb].
  - apply quietly_ret.
    replace r with (set_graphics_pipeline VK_NULL_HANDLE r) at 1; [exact HQ|].
    destruct r; simpl in *. now subst.
  - quietly_go. exact HQ.
Qed.

Lemma quietly_CreateGraphicsPipeline (r : VulkanWidgetsRenderer)
    (Q : VulkanWidgetsRenderer -> Prop) :
  (forall pipeline, Q (set_graphics_pipeline pipeline r)) ->
  quietly (CreateGraphicsPipeline r) Q.
Proof.
  intros HQ. unfold CreateGraphicsPipeline, LoadShader.
  quietly_go. apply quietly_CleanPipeline. quietly_go. apply HQ.
Qed.

Lemma quietly_CreatePerWidgetVulkanObjects (r : VulkanWidgetsRenderer)
    (Q : VulkanWidgetsRenderer -> Prop) :
  let n := widget_image_count_ r in
  (forall pool sets, length sets = n ->
     Q (set_vertex_buffers (resize n VK_NULL_HANDLE (vertex_buffers_ r))
          (resize n VK_NULL_HANDLE (vertex_buffers_memory_ r))
          (set_image_views (resize n VK_NULL_HANDLE (image_views_ r))
             (set_descriptors pool sets r)))) ->
  quietly (CreatePerWidgetVulkanObjects r) Q.
Proof.
  intros n HQ. unfold CreatePerWidgetVulkanObjects. fold n.
  quietly_go. apply quietly_allocating; [apply length_resize|]. intros sets Hl.
  quietly_go. now apply HQ.
Qed.

(** *** The steps that create a per-widget object *)

Lemma creating_objects (obj : VkObject) (call : Z -> Z -> VkCall) (out : Z) (d : Driver) :
  0 < next_handle d ->
  let made := creating obj call out d in
  next_handle d <= next_handle (snd made)
  /\ forall k o, objects (snd made) !! k = Some o ->
       objects d !! k = Some o
       \/ (k = snd (fst made) /\ o = obj /\ k <> VK_NULL_HANDLE).
Proof.
  intros Hpos. destruct (creating_calls obj call out d) as (_ & _ & _ & Hm).
  cbv zeta in *. destruct (succeeded (hd VK_SUCCESS (pending d))).
  - destruct Hm as (Hh & Ho & Hn). split; [lia|]. intros k o Hk.
    rewrite Ho in Hk. apply lookup_insert_Some in Hk as [[<- <-]|[_ Hk]]; [|now left].
    right. rewrite Hh. split; [reflexivity|]. split; [reflexivity|].
    unfold VK_NULL_HANDLE. lia.
  - destruct Hm as (_ & Ho & Hn). split; [lia|]. intros k o Hk.
    rewrite Ho in Hk. now left.
Qed.

(** A slot of [vertex_buffers_] gets the buffer just created. *)
Lemma held_replace_buffer (obj : VkObject) (call : Z -> Z -> VkCall) (bs vs : list Z)
    (i : nat) (old : Z) (d : Driver) :
  is_buffer obj = true ->
  bs !! i = Some old ->
  widget_objects_held bs vs d ->
  (old <> VK_NULL_HANDLE -> vacant d old) ->
  widget_objects_held (<[i := snd (fst (creating obj call old d))]> bs) vs
    (snd (creating obj call old d)).
Proof.
  intros Hkind Hold [Hpos Hheld] Hvac.
  destruct (creating_objects obj call old d Hpos) as [Hn Hobj]. cbv zeta in *.
  split; [lia|]. intros k o Hw Hk.
  destruct (Hobj k o Hk) as [Hbefore|(-> & -> & Hnn)].
  - destruct (Hheld k o Hw Hbefore) as [Hnn Hin]. split; [exact Hnn|].
    destruct (is_buffer o); [|exact Hin].
    apply list_elem_of_lookup_1 in Hin as [j Hj].
    apply (list_elem_of_lookup_2 _ j).
    rewrite list_lookup_insert_ne; [exact Hj|].
    intros <-. assert (k = old) by congruence. subst k.
    exact (Hvac Hnn o Hw Hbefore).
  - split; [exact Hnn|]. rewrite Hkind.
    apply list_elem_of_insert. now apply lookup_lt_Some in Hold.
Qed.

(** A slot of [image_views_] gets the view just created. *)
Lemma held_replace_view (obj : VkObject) (call : Z -> Z -> VkCall) (bs vs : list Z)
    (i : nat) (old : Z) (d : Driver) :
  is_buffer obj = false ->
  vs !! i = Some old ->
  widget_objects_held bs vs d ->
  (old <> VK_NULL_HANDLE -> vacant d old) ->
  widget_objects_held bs (<[i := snd (fst (creating obj call old d))]> vs)
    (snd (creating obj call old d)).
Proof.
  intros Hkind Hold [Hpos Hheld] Hvac.
  destruct (creating_objects obj call old d Hpos) as [Hn Hobj]. cbv zeta in *.
  split; [lia|]. intros k o Hw Hk.
  destruct (Hobj k o Hk) as [Hbefore|(-> & -> & Hnn)].
  - destruct (Hheld k o Hw Hbefore) as [Hnn Hin]. split; [exact Hnn|].
    destruct (is_buffer o); [exact Hin|].
    apply list_elem_of_lookup_1 in Hin as [j Hj].
    apply (list_elem_of_lookup_2 _ j).
    rewrite list_lookup_insert_ne; [exact Hj|].
    intros <-. assert (k = old) by congruence. subst k.
    exact (Hvac Hnn o Hw Hbefore).
  - split; [exact Hnn|]. rewrite Hkind.
    apply list_elem_of_insert. now apply lookup_lt_Some in Hold.
Qed.

(** A slot of [image_views_] is cleared once its view is gone. *)
Lemma held_clear_view (bs vs : list Z) (i : nat) (v : Z) (d : Driver) :
  vs !! i = Some v ->
  widget_objects_held bs vs d ->
  (v <> VK_NULL_HANDLE -> vacant d v) ->
  widget_objects_held bs (<[i := VK_NULL_HANDLE]> vs) d.
Proof.
  intros Hv [Hpos Hheld] Hvac. split; [exact Hpos|]. intros k o Hw Hk.
  destruct (Hheld k o Hw Hk) as [Hnn Hin]. split; [exact Hnn|].
  destruct (is_buffer o); [exact Hin|].
  apply list_elem_of_lookup_1 in Hin as [j Hj].
  apply (list_elem_of_lookup_2 _ j).
  rewrite list_lookup_insert_ne; [exact Hj|].
  intros <-. assert (k = v) by congruence. subst k.
  exact (Hvac Hnn o Hw Hk).
Qed.

Lemma reaches_CreateBuffer (size : Z) (usage : VkBufferUsage) (properties buffer memory : Z)
    (d : Driver) (Q : Z * Z -> Driver -> Prop) :
  (forall m' d',
     nothing_new (snd (creating (Buffer size usage)
                         (fun res => vkCreateBuffer res size usage) buffer d)) d' ->
     Q (snd (fst (creating (Buffer size usage)
                    (fun res => vkCreateBuffer res size usage) buffer d)), m') d') ->
  reaches (CreateBuffer size usage properties buffer memory) d Q.
Proof.
  intros HQ. unfold CreateBuffer. apply reaches_bind, reaches_CALL_VK.
  set (made := creating (Buffer size usage) _ buffer d) in *. cbn beta.
  eapply reaches_quietly with (P := fun bm => fst bm = snd (fst made)).
  - quietly_go. apply quietly_FindMemoryType. intros mt. quietly_go. reflexivity.
  - intros [b' m'] d' N E. cbn [fst] in E. subst b'. apply HQ.
    eapply nothing_new_trans; [apply nothing_new_log_unless|exact N].
Qed.

(** The memory is mapped and the payload copied. *)
Lemma reaches_mapped_copy {A} (H : gmap Z Z) (memory size : Z) (payload : Payload)
    (k : VK A) (d : Driver) (Q : A -> Driver -> Prop) :
  calm H d ->
  (forall d', nothing_new d d' -> reaches k d' Q) ->
  reaches (bind (CALL_VK (mapping memory size))
             (fun mapped => bind (memcpy_through mapped memory payload) (fun _ => k))) d Q.
Proof.
  intros Hc Hk. apply reaches_bind, reaches_CALL_VK.
  pose proof (nothing_new_mapping memory size d) as N.
  unfold mapping in N |- *. cbn [fst snd] in N |- *. rewrite (calm_maps H d Hc).
  apply reaches_bind. eexists tt, _. split; [reflexivity|]. apply Hk.
  eapply nothing_new_trans; [exact N|].
  eapply nothing_new_trans; [apply nothing_new_log_unless|apply nothing_new_emit].
Qed.

(** The same where the result of [vkMapMemory] is not looked at. *)
Lemma reaches_mapped_copy_unchecked {A} (H : gmap Z Z) (memory size : Z) (payload : Payload)
    (k : VK A) (d : Driver) (Q : A -> Driver -> Prop) :
  calm H d ->
  (forall d', nothing_new d d' -> reaches k d' Q) ->
  reaches (bind (drv (mapping memory size))
             (fun x => let '(_, mapped) := x in
                       bind (memcpy_through mapped memory payload) (fun _ => k))) d Q.
Proof.
  intros Hc Hk. apply reaches_bind, reaches_drv.
  pose proof (nothing_new_mapping memory size d) as N.
  unfold mapping in N |- *. cbn [fst snd] in N |- *. rewrite (calm_maps H d Hc).
  apply reaches_bind. eexists tt, _. split; [reflexivity|]. apply Hk.
  eapply nothing_new_trans; [exact N|apply nothing_new_emit].
Qed.

(** The constructor creates no per-widget object. *)
Lemma reaches_widgets_ctor (H : gmap Z Z) (any : Widgets.Indeterminate) (loaded : bool)
    (d : Driver) :
  calm H d ->
  reaches (VulkanWidgetsRenderer_ctor any loaded) d (fun r d' =>
    nothing_new d d' /\ widget_image_count_ r = 1%nat
    /\ vertex_buffers_ r = [] /\ image_views_ r = []).
Proof.
  intros Hc. unfold VulkanWidgetsRenderer_ctor. destruct loaded; cbn [negb].
  - unfold CreateSharedVulkanObjects, CreateIndexBuffer.
    pose proof (nothing_new_refl d) as N.
    do 4 quiet_then N.
    apply reaches_bind.
    eapply reaches_quietly with (P := fun _ => True).
    { unfold CreateBuffer. quietly_go. apply quietly_FindMemoryType. intros mt.
      quietly_go. exact I. }
    intros [b m] e1 N1 _. cbn beta iota.
    apply (nothing_new_trans _ _ _ N) in N1. clear N.
    apply (reaches_mapped_copy_unchecked H); [eapply calm_nothing_new; eassumption|].
    intros e2 N2. apply reaches_bind, reaches_drv_, reaches_ret.
    split; [|cbn; auto].
    eapply nothing_new_trans; [exact N1|].
    eapply nothing_new_trans; [exact N2|apply nothing_new_emit].
  - apply reaches_bind, reaches_drv_, reaches_ret.
    split; [apply nothing_new_log_error|cbn; auto].
Qed.

Section Held.

Context (H : gmap Z Z).

Variable Lerp : spec_float -> spec_float -> spec_float -> spec_float.

Lemma reaches_UpdateVertexBuffer (r : VulkanWidgetsRenderer) (w : Widget.WidgetParams)
    (sp : ScreenParams) (index : nat) (vs : list Z) (d : Driver)
    (Q : VulkanWidgetsRenderer -> Driver -> Prop) :
  (index < length (vertex_buffers_ r))%nat ->
  length (vertex_buffers_memory_ r) = length (vertex_buffers_ r) ->
  calm H d ->
  widget_objects_held (vertex_buffers_ r) vs d ->
  (forall b m d',
     calm H d' ->
     widget_objects_held (<[index := b]> (vertex_buffers_ r)) vs d' ->
     Q (set_vertex_buffers (<[index := b]> (vertex_buffers_ r))
          (<[index := m]> (vertex_buffers_memory_ r)) r) d') ->
  reaches (UpdateVertexBuffer Lerp r w sp index) d Q.
Proof.
  intros Hi Hm Hc Hheld HQ. unfold UpdateVertexBuffer.
  apply reaches_bind, reaches_at; [exact Hi|]. intros b Hb. cbn beta.
  apply reaches_bind.
  eapply reaches_mono with
    (P := fun _ d1 => nothing_new d d1 /\ (b <> VK_NULL_HANDLE -> vacant d1 b)).
  - destruct (Z.eqb_spec b VK_NULL_HANDLE) as [Hnull|Hnull]; cbn [negb].
    + apply reaches_ret. split; [apply nothing_new_refl|]. intros X. contradiction.
    + apply reaches_bind, reaches_drv_. cbn beta.
      apply reaches_bind, reaches_at; [lia|]. intros m _. cbn beta.
      apply reaches_drv_. split.
      * eapply nothing_new_trans; apply nothing_new_destroying.
      * intros _. eapply vacant_nothing_new;
          [apply vacant_destroying|apply nothing_new_destroying].
  - intros [] d1 [N1 V1]. cbn beta.
    unfold CreateVertexBuffer.
    rewrite (proj2 (Nat.leb_gt (length (vertex_buffers_ r)) index) Hi).
    apply reaches_bind, reaches_at; [exact Hi|]. intros b0 Hb0. cbn beta.
    assert (b0 = b) by congruence. subst b0.
    apply reaches_bind, reaches_at; [lia|]. intros m0 _. cbn beta.
    apply reaches_bind, reaches_CreateBuffer. intros m' d2 N2. cbn beta iota.
    pose proof (held_replace_buffer
                  (Buffer (sizeof_Vertex * Z.of_nat (length (quad_vertices Lerp w sp)))
                     VK_BUFFER_USAGE_VERTEX_BUFFER_BIT)
                  (fun res => vkCreateBuffer res
                     (sizeof_Vertex * Z.of_nat (length (quad_vertices Lerp w sp)))
                     VK_BUFFER_USAGE_VERTEX_BUFFER_BIT)
                  (vertex_buffers_ r) vs index b d1 eq_refl Hb
                  (held_nothing_new _ _ _ _ Hheld N1) V1) as Hheld2.
    assert (Hc2 : calm H d2).
    { eapply calm_nothing_new; [|exact N2].
      eapply calm_stable; [apply later_creating|].
      eapply calm_nothing_new; eassumption. }
    set (made := creating _ _ b d1) in *.
    apply reaches_bind, reaches_set_at; [exact Hi|]. cbn beta.
    apply reaches_bind, reaches_set_at; [lia|]. cbn beta.
    apply (reaches_mapped_copy H); [exact Hc2|]. intros d3 N3.
    apply reaches_bind, reaches_drv_, reaches_ret.
    pose proof (nothing_new_trans _ _ _ N3 (nothing_new_emit (vkUnmapMemory m') d3)) as N4.
    apply HQ.
    + eapply calm_nothing_new; eassumption.
    + eapply held_nothing_new; [|exact N4].
      eapply held_nothing_new; [exact Hheld2|exact N2].
Qed.

Lemma reaches_UpdateVertexBuffers (r : VulkanWidgetsRenderer) (ws : list Widget.WidgetParams)
    (sp : ScreenParams) (vs : list Z) (d : Driver)
    (Q : VulkanWidgetsRenderer -> Driver -> Prop) :
  widget_image_count_ r = length ws ->
  length (vertex_buffers_ r) = length ws ->
  length (vertex_buffers_memory_ r) = length ws ->
  calm H d ->
  widget_objects_held (vertex_buffers_ r) vs d ->
  (forall bs ms d',
     length bs = length ws -> length ms = length ws ->
     calm H d' -> widget_objects_held bs vs d' ->
     Q (set_vertex_buffers bs ms r) d') ->
  reaches (UpdateVertexBuffers Lerp r ws sp) d Q.
Proof.
  intros Hn Hb Hm Hc Hheld HQ. unfold UpdateVertexBuffers. rewrite Hn.
  eapply reaches_mono.
  - apply (reaches_for (fun (i : nat) s d' => exists bs ms,
        s = set_vertex_buffers bs ms r
        /\ length bs = length ws /\ length ms = length ws
        /\ calm H d' /\ widget_objects_held bs vs d')).
    + intros i s d1 Hi (bs & ms & -> & Hbs & Hms & Hc1 & Hh).
      apply reaches_bind, reaches_at; [lia|]. intros w _. cbn beta.
      apply (reaches_UpdateVertexBuffer _ w sp i vs); [simpl; lia|simpl; lia|exact Hc1|exact Hh|].
      intros b m d2 Hc2 Hh2. cbn [vertex_buffers_ vertex_buffers_memory_ set_vertex_buffers].
      exists (<[i := b]> bs), (<[i := m]> ms). rewrite !length_insert. auto.
    + exists (vertex_buffers_ r), (vertex_buffers_memory_ r).
      split; [now destruct r|]. auto.
  - intros s d' (bs & ms & -> & Hbs & Hms & Hc' & Hh). now apply HQ.
Qed.

Lemma reaches_CleanTextureImageView (r : VulkanWidgetsRenderer) (index : nat) (d : Driver)
    (Q : VulkanWidgetsRenderer -> Driver -> Prop) :
  (index < length (image_views_ r))%nat ->
  (forall d',
     nothing_new d d' ->
     (forall v, image_views_ r !! index = Some v -> v <> VK_NULL_HANDLE -> vacant d' v) ->
     Q (set_image_views (<[index := VK_NULL_HANDLE]> (image_views_ r)) r) d') ->
  reaches (CleanTextureImageView r index) d Q.
Proof.
  intros Hi HQ. unfold CleanTextureImageView.
  apply reaches_bind, reaches_at; [exact Hi|]. intros view Hview. cbn beta.
  destruct (Z.eqb_spec view VK_NULL_HANDLE) as [Hnull|Hnull]; cbn [negb].
  - apply reaches_ret. subst view.
    specialize (HQ d (nothing_new_refl d)).
    rewrite (list_insert_id _ _ _ Hview), set_image_views_same in HQ.
    apply HQ. intros v Hv Hnn. congruence.
  - apply reaches_bind, reaches_drv_. cbn beta.
    apply reaches_bind, reaches_set_at; [exact Hi|]. cbn beta.
    apply reaches_ret. apply HQ.
    + apply nothing_new_destroying.
    + intros v Hv _. assert (v = view) by congruence. subst v. apply vacant_destroying.
Qed.

Lemma reaches_RenderWidget (r : VulkanWidgetsRenderer) (w : Widget.WidgetParams) (cb : Z)
    (index : nat) (sp : ScreenParams) (d : Driver)
    (Q : VulkanWidgetsRenderer -> Driver -> Prop) :
  (index < length (image_views_ r))%nat ->
  (index < length (descriptor_sets_ r))%nat ->
  (index < length (vertex_buffers_ r))%nat ->
  Widget.texture w <> 0 ->
  is_Some (H !! Widget.texture w) ->
  calm H d ->
  widget_objects_held (vertex_buffers_ r) (image_views_ r) d ->
  (forall view d',
     calm H d' ->
     widget_objects_held (vertex_buffers_ r) (<[index := view]> (image_views_ r)) d' ->
     Q (set_image_views (<[index := view]> (image_views_ r)) r) d') ->
  reaches (RenderWidget r w cb index sp) d Q.
Proof.
  intros Hv Hds Hb Hnz [image Him] Hc Hheld HQ. unfold RenderWidget.
  destruct (lookup_lt_is_Some_2 (image_views_ r) index Hv) as [v0 Hv0].
  apply reaches_bind, reaches_CleanTextureImageView; [exact Hv|].
  intros d1 N1 V1. cbn beta.
  assert (Hc1 : calm H d1) by (eapply calm_nothing_new; eassumption).
  assert (Hheld1 : widget_objects_held (vertex_buffers_ r)
                     (<[index := VK_NULL_HANDLE]> (image_views_ r)) d1).
  { apply (held_clear_view _ _ _ v0); [exact Hv0| |now apply V1].
    eapply held_nothing_new; eassumption. }
  apply reaches_bind. exists image, d1. split.
  { unfold image_at. destruct Hc1 as [_ Hh].
    now rewrite (proj2 (Z.eqb_neq _ _) Hnz), Hh, Him. }
  cbn [image_views_ set_image_views].
  apply reaches_bind, reaches_at; [now rewrite length_insert|]. intros old Hold. cbn beta.
  pose proof Hold as Hzero.
  rewrite list_lookup_insert_eq in Hzero by exact Hv. injection Hzero as <-.
  apply reaches_bind, reaches_CALL_VK.
  pose proof (held_replace_view
                (ImageView image VK_FORMAT_ETC2_R8G8B8A8_UNORM_BLOCK)
                (fun res => vkCreateImageView res image VK_FORMAT_ETC2_R8G8B8A8_UNORM_BLOCK)
                (vertex_buffers_ r) (<[index := VK_NULL_HANDLE]> (image_views_ r))
                index VK_NULL_HANDLE d1 eq_refl Hold Hheld1
                ltac:(intros X; contradiction)) as Hheld2.
  rewrite list_insert_insert_eq in Hheld2.
  assert (Hc2 : calm H (snd (creating
                               (ImageView image VK_FORMAT_ETC2_R8G8B8A8_UNORM_BLOCK)
                               (fun res => vkCreateImageView res image
                                             VK_FORMAT_ETC2_R8G8B8A8_UNORM_BLOCK)
                               VK_NULL_HANDLE d1)))
    by (eapply calm_stable; [apply later_creating|exact Hc1]).
  set (made := creating _ _ VK_NULL_HANDLE d1) in *. cbn beta.
  apply reaches_bind, reaches_set_at; [now rewrite length_insert|].
  rewrite list_insert_insert_eq. cbn beta.
  eapply reaches_quietly with
    (P := fun r' => r' = set_image_views (<[index := snd (fst made)]> (image_views_ r)) r).
  - quietly_go. apply quietly_at; [exact Hds|]. intros set _.
    quietly_go. apply quietly_at; [exact Hb|]. intros buffer _.
    quietly_go. reflexivity.
  - intros r' d3 N3 ->.
    pose proof (nothing_new_trans _ _ _
                  (nothing_new_log_unless (succeeded (fst (fst made))) "Vulkan error."
                     (snd made)) N3) as N4.
    apply HQ.
    + eapply calm_nothing_new; eassumption.
    + eapply held_nothing_new; eassumption.
Qed.

Lemma elem_of_resize_ge (l : list Z) (n : nat) (h : Z) :
  (length l <= n)%nat -> h ∈ l -> h ∈ resize n VK_NULL_HANDLE l.
Proof. intros Hn Hin. rewrite resize_ge by exact Hn. apply elem_of_app. now left. Qed.

Lemma reaches_RenderWidgets (r : VulkanWidgetsRenderer) (sp : ScreenParams)
    (ws : list Widget.WidgetParams) (cb rp : Z) (d : Driver)
    (Q : VulkanWidgetsRenderer -> Driver -> Prop) :
  (length (vertex_buffers_ r) <= length ws)%nat ->
  (length (image_views_ r) <= length ws)%nat ->
  textures_valid H ws ->
  calm H d ->
  widget_objects_held (vertex_buffers_ r) (image_views_ r) d ->
  (forall r' d',
     widget_image_count_ r' = length ws -> slots (length ws) r' ->
     calm H d' ->
     widget_objects_held (vertex_buffers_ r') (image_views_ r') d' -> Q r' d') ->
  reaches (RenderWidgets Lerp r sp ws cb rp) d Q.
Proof.
  intros Hlb Hlv Ht Hc Hheld HQ. unfold RenderWidgets.
  apply reaches_bind.
  eapply reaches_quietly with
    (P := fun r1 => exists pool sets, length sets = length ws
            /\ r1 = set_vertex_buffers
                      (resize (length ws) VK_NULL_HANDLE (vertex_buffers_ r))
                      (resize (length ws) VK_NULL_HANDLE (vertex_buffers_memory_ r))
                      (set_image_views (resize (length ws) VK_NULL_HANDLE (image_views_ r))
                         (set_descriptors pool sets
                            (set_widget_image_count (length ws) r)))).
  { apply quietly_CreatePerWidgetVulkanObjects. simpl. intros pool sets Hl.
    now exists pool, sets. }
  intros r1 d1 N1 (pool & sets & Hl & ->). cbn beta.
  assert (Hc1 : calm H d1) by (eapply calm_nothing_new; eassumption).
  assert (Hheld1 : widget_objects_held
                     (resize (length ws) VK_NULL_HANDLE (vertex_buffers_ r))
                     (resize (length ws) VK_NULL_HANDLE (image_views_ r)) d1).
  { eapply held_nothing_new; [|exact N1].
    eapply held_grow; [exact Hheld| |]; intros h; now apply elem_of_resize_ge. }
  apply reaches_bind.
  apply (reaches_UpdateVertexBuffers _ ws sp
           (resize (length ws) VK_NULL_HANDLE (image_views_ r)));
    [reflexivity|simpl; apply length_resize|simpl; apply length_resize|exact Hc1
    |exact Hheld1|].
  intros bs ms d2 Hbs Hms Hc2 Hheld2. cbn beta.
  match goal with |- reaches (bind _ _) _ _ =>
    set (r2 := set_vertex_buffers bs ms _) end.
  assert (Hn2 : widget_image_count_ r2 = length ws) by reflexivity.
  assert (Hs2 : slots (length ws) r2)
    by (unfold slots, r2; simpl; rewrite length_resize; auto).
  assert (Hvb2 : vertex_buffers_ r2 = bs) by reflexivity.
  assert (Hiv2 : image_views_ r2 = resize (length ws) VK_NULL_HANDLE (image_views_ r))
    by reflexivity.
  clearbody r2.
  apply reaches_bind.
  eapply reaches_mono with
    (P := fun r3 d3 => widget_image_count_ r3 = length ws /\ slots (length ws) r3
                       /\ calm H d3
                       /\ widget_objects_held (vertex_buffers_ r3) (image_views_ r3) d3).
  - destruct (negb (rp =? current_render_pass_ r2)).
    + eapply reaches_quietly with
        (P := fun r3 => exists p, r3 = set_graphics_pipeline p (set_current_render_pass rp r2)).
      * apply quietly_CreateGraphicsPipeline. intros p. now exists p.
      * intros r3 d3 N3 [p ->]. simpl. split; [exact Hn2|]. split; [exact Hs2|].
        split; [eapply calm_nothing_new; eassumption|].
        rewrite Hvb2, Hiv2. eapply held_nothing_new; eassumption.
    + apply reaches_ret. rewrite Hvb2, Hiv2. auto.
  - intros r3 d3 (Hn3 & Hs3 & Hc3 & Hheld3). cbn beta. rewrite Hn3.
    pose proof Hs3 as (Hb3 & Hm3 & Hds3 & Hv3).
    eapply reaches_mono.
    + apply (reaches_for (fun (i : nat) s d' => exists ivs,
          s = set_image_views ivs r3 /\ length ivs = length ws
          /\ calm H d' /\ widget_objects_held (vertex_buffers_ r3) ivs d')).
      * intros i s d4 Hi (ivs & -> & Hivs & Hc4 & Hh).
        apply reaches_bind, reaches_at; [lia|]. intros w Hw. cbn beta.
        destruct (proj1 (Forall_lookup _ _) Ht i w Hw) as [Hnz Hsome].
        apply reaches_RenderWidget;
          [simpl; lia|simpl; lia|simpl; lia|exact Hnz|exact Hsome|exact Hc4|exact Hh|].
        intros view d5 Hc5 Hh5.
        change (set_image_views (<[i := view]> (image_views_ (set_image_views ivs r3)))
                  (set_image_views ivs r3))
          with (set_image_views (<[i := view]> ivs) r3).
        exists (<[i := view]> ivs). rewrite length_insert. auto.
      * exists (image_views_ r3). rewrite set_image_views_same. auto.
    + intros s d' (ivs & -> & Hivs & Hc' & Hh). cbn beta in *. apply HQ.
      * exact Hn3.
      * unfold slots. simpl. auto.
      * exact Hc'.
      * exact Hh.
Qed.

Lemma reaches_render_frames (cs : list Call) :
  forall (r : VulkanWidgetsRenderer) (d : Driver) (before : nat),
  (length (vertex_buffers_ r) <= before)%nat ->
  (length (image_views_ r) <= before)%nat ->
  never_shrinks before cs = true ->
  Forall (fun c => textures_valid H (call_widgets c)) cs ->
  calm H d ->
  widget_objects_held (vertex_buffers_ r) (image_views_ r) d ->
  reaches (render_frames Lerp cs r) d (fun r' d' =>
    widget_objects_held (vertex_buffers_ r') (image_views_ r') d'
    /\ ((cs = [] /\ r' = r) \/ slots (widget_image_count_ r') r')).
Proof.
  induction cs as [|c cs IH]; intros r d before Hlb Hlv Hmono Ht Hc Hheld;
    cbn [render_frames].
  - apply reaches_ret. auto.
  - cbn [never_shrinks] in Hmono. apply andb_true_iff in Hmono as [Hle Hrest].
    apply Nat.leb_le in Hle. apply Forall_cons in Ht as [Ht1 Ht].
    apply reaches_bind, reaches_RenderWidgets; [lia|lia|exact Ht1|exact Hc|exact Hheld|].
    intros r1 d1 Hn1 Hs1 Hc1 Hheld1. cbn beta.
    pose proof Hs1 as (Hb1 & _ & _ & Hv1).
    eapply reaches_mono.
    + apply (IH r1 d1 (length (call_widgets c)));
        [lia|lia|exact Hrest|exact Ht|exact Hc1|exact Hheld1].
    + intros r' d' [Hh [[_ ->]|Hsl]]; (split; [exact Hh|right]).
      * now rewrite Hn1.
      * exact Hsl.
Qed.

(** The destructor, with every live per-widget object in the vectors. *)
Lemma reaches_widgets_dtor (r : VulkanWidgetsRenderer) (d : Driver) :
  slots (widget_image_count_ r) r ->
  widget_objects_held (vertex_buffers_ r) (image_views_ r) d ->
  reaches (VulkanWidgetsRenderer_dtor r) d (fun _ d' => no_widget_object d').
Proof.
  intros Hs Hheld. unfold VulkanWidgetsRenderer_dtor.
  set (n := widget_image_count_ r) in *.
  apply reaches_bind. eapply reaches_mono.
  - apply (reaches_for (fun (i : nat) s d1 => exists ivs,
        s = set_image_views ivs r /\ length ivs = n
        /\ nothing_new d d1
        /\ (forall j, (i <= j)%nat -> ivs !! j = image_views_ r !! j)
        /\ (forall j v, (j < i)%nat -> image_views_ r !! j = Some v ->
              v <> VK_NULL_HANDLE -> vacant d1 v))).
    + intros i s d1 Hi (ivs & -> & Hivs & N & Hrest & Hgone).
      apply reaches_CleanTextureImageView; [simpl; lia|].
      intros d2 N' V'. cbn [image_views_ set_image_views] in V' |- *.
      change (set_image_views (<[i := VK_NULL_HANDLE]> (image_views_ (set_image_views ivs r)))
                (set_image_views ivs r))
        with (set_image_views (<[i := VK_NULL_HANDLE]> ivs) r).
      exists (<[i := VK_NULL_HANDLE]> ivs). split; [reflexivity|].
      rewrite length_insert. split; [exact Hivs|].
      split; [eapply nothing_new_trans; eassumption|]. split.
      * intros j Hj. rewrite list_lookup_insert_ne by lia. apply Hrest. lia.
      * intros j v Hj Hjv Hnn. destruct (Nat.eq_dec j i) as [->|Hne].
        -- apply V'; [|exact Hnn]. rewrite Hrest by lia. exact Hjv.
        -- eapply vacant_nothing_new; [|exact N']. apply (Hgone j); [lia|exact Hjv|exact Hnn].
    + exists (image_views_ r). split; [now rewrite set_image_views_same|].
      destruct Hs as (_ & _ & _ & Hv). split; [exact Hv|].
      split; [apply nothing_new_refl|]. split; [reflexivity|]. intros j v Hj. lia.
  - intros s d1 (ivs & -> & Hivs & N1 & _ & Hgone1). cbn beta in *.
    pose proof Hs as (Hb & Hm & _ & Hv).
    cbn [texture_sampler_ pipeline_layout_ descriptor_set_layout_ descriptor_pool_
         set_image_views].
    pose proof (nothing_new_refl d1) as M.
    do 4 quiet_then M.
    apply reaches_bind.
    eapply reaches_quietly with
      (P := fun s' => s' = set_graphics_pipeline VK_NULL_HANDLE (set_image_views ivs r));
      [now apply quietly_CleanPipeline|].
    intros s' d6 M' ->. cbn beta. apply (nothing_new_trans _ _ _ M) in M'. clear M.
    rename M' into M.
    do 2 quiet_then M.
    cbn [set_graphics_pipeline set_image_views widget_image_count_ vertex_buffers_
         vertex_buffers_memory_].
    fold n.
    eapply reaches_mono.
    + apply (reaches_for (fun (i : nat) (_ : unit) d' =>
          nothing_new d1 d'
          /\ (forall j b, (j < i)%nat -> vertex_buffers_ r !! j = Some b ->
                b <> VK_NULL_HANDLE -> vacant d' b))).
      * intros i [] d' Hi [N Hgone].
        apply reaches_bind, reaches_at; [lia|]. intros b Hbi. cbn beta.
        eapply reaches_mono with
          (P := fun _ d'' => nothing_new d' d'' /\ (b <> VK_NULL_HANDLE -> vacant d'' b)).
        -- destruct (Z.eqb_spec b VK_NULL_HANDLE) as [Hnull|Hnull]; cbn [negb].
           ++ apply reaches_ret. split; [apply nothing_new_refl|]. intros X. contradiction.
           ++ apply reaches_bind, reaches_drv_. cbn beta.
              apply reaches_bind, reaches_at; [lia|]. intros m _. cbn beta.
              apply reaches_drv_. split.
              ** eapply nothing_new_trans; apply nothing_new_destroying.
              ** intros _. eapply vacant_nothing_new;
                   [apply vacant_destroying|apply nothing_new_destroying].
        -- intros [] d'' [N' V']. split; [eapply nothing_new_trans; eassumption|].
           intros j b' Hj Hjb Hnn. destruct (Nat.eq_dec j i) as [->|Hne].
           ++ assert (b' = b) by congruence. subst b'. now apply V'.
           ++ eapply vacant_nothing_new; [|exact N'].
              apply (Hgone j); [lia|exact Hjb|exact Hnn].
      * split; [exact M|]. intros j b Hj. lia.
    + intros [] d' [N Hgone]. cbn beta in *.
      intros h o Hl. destruct (per_widget o) eqn:Hw; [exfalso|reflexivity].
      assert (Hd : objects d !! h = Some o).
      { destruct N1 as [_ K1]. destruct N as [_ K]. eauto. }
      destruct Hheld as [_ Hheld]. destruct (Hheld h o Hw Hd) as [Hnn Hin].
      destruct (is_buffer o).
      * apply list_elem_of_lookup_1 in Hin as [j Hj].
        pose proof (lookup_lt_Some _ _ _ Hj) as Hlt.
        assert (Hvac : vacant d' h) by (apply (Hgone j); [lia|exact Hj|exact Hnn]).
        exact (Hvac o Hw Hl).
      * apply list_elem_of_lookup_1 in Hin as [j Hj].
        pose proof (lookup_lt_Some _ _ _ Hj) as Hlt.
        assert (Hvac : vacant d1 h) by (apply (Hgone1 j); [lia|exact Hj|exact Hnn]).
        exact (vacant_nothing_new _ _ _ Hvac N o Hw Hl).
Qed.

(** X17: neither a vertex buffer nor a view of a widget texture outlives
    the widget renderer, as long as the number of widgets never goes down
    from one call of [RenderWidgets] to the next.  Over a driver that has
    no such object alive, does not hand out the null handle and maps
    memory whenever asked, whatever it answers to the other calls, and for
    widgets with valid texture pointers: the constructor returns, the
    calls run, the destructor returns, and no such object is alive.  Each
    call destroys the buffer and the view a slot holds before it puts new
    ones there, and the destructor destroys what the slots hold at the
    end. *)
Theorem no_widget_object_outlives_the_renderer (any : Widgets.Indeterminate) (loaded : bool)
    (c : Call) (cs : list Call) (d : Driver) :
  0 < next_handle d ->
  no_widget_object d ->
  calm H d ->
  Forall (fun c => textures_valid H (call_widgets c)) (c :: cs) ->
  never_shrinks 0 (c :: cs) = true ->
  exists r d1 r' d2 d3,
    VulkanWidgetsRenderer_ctor any loaded d = Ok (r, d1)
    /\ render_frames Lerp (c :: cs) r d1 = Ok (r', d2)
    /\ VulkanWidgetsRenderer_dtor r' d2 = Ok (tt, d3)
    /\ no_widget_object d3.
Proof.
  intros Hpos Hnone Hc Ht Hmono.
  destruct (reaches_widgets_ctor H any loaded d Hc) as (r & d1 & E1 & N1 & _ & Hvb & Hiv).
  assert (Hheld : widget_objects_held (vertex_buffers_ r) (image_views_ r) d1).
  { apply (held_nothing_new _ _ d); [|exact N1]. split; [exact Hpos|].
    intros h o Hw Hl. rewrite (Hnone h o Hl) in Hw. discriminate. }
  destruct (reaches_render_frames (c :: cs) r d1 0%nat) as (r' & d2 & E2 & Hheld2 & Hs2);
    [rewrite Hvb; simpl; lia|rewrite Hiv; simpl; lia|exact Hmono|exact Ht
    |eapply calm_nothing_new; eassumption|exact Hheld|].
  destruct Hs2 as [[Hnil _]|Hs2]; [discriminate|].
  destruct (reaches_widgets_dtor r' d2 Hs2 Hheld2) as ([] & d3 & E3 & Hnone3).
  exists r, d1, r', d2, d3. auto.
Qed.

End Held.
(** ** The properties at work *)

Import Scenario Cases.

Lemma render_pass_bracket_witness :
  exists r' d' fb rest,
    RunRenderingPreProcessing fresh_globals (fst frame_target3) screen_1280x720 500
      (snd frame_target3) = Ok (r', d')
    /\ frame_buffers_ r' !! image_index fresh_globals = Some fb
    /\ calls d' = vkCmdBeginRenderPass 500 (render_pass_ (fst frame_target3)) fb
                    (Int.to_uint32 (width screen_1280x720))
                    (Int.to_uint32 (height screen_1280x720)) :: rest
    /\ count is_command rest = count is_command (calls (snd frame_target3))
    /\ bind (RunRenderingPreProcessing fresh_globals (fst frame_target3) screen_1280x720 500)
            (fun r' => RunRenderingPostProcessing r') (snd frame_target3)
       = Ok (tt, emit (vkCmdEndRenderPass 500) d').
Proof.
  apply (render_pass_bracket fresh_globals (fst frame_target3) screen_1280x720 500
           (snd frame_target3)).
  - vm_compute. split; reflexivity.
  - vm_compute. lia.
Defined.

Lemma failed_framebuffer_creation_witness :
  exists r' d',
    RunRenderingPreProcessing fresh_globals one_image_target screen_1280x720 500 out_of_memory
    = Ok (r', d')
    /\ frame_buffers_ r' = frame_buffers_ one_image_target
    /\ objects d' !! 3 = None
    /\ frames_to_update_count_ r'
       = Nat.pred (counter_after_check one_image_target screen_1280x720)
    /\ errors d' = errors out_of_memory
    /\ calls d' = vkCmdBeginRenderPass 500 (render_pass_ one_image_target) 3
                    (Int.to_uint32 (width screen_1280x720))
                    (Int.to_uint32 (height screen_1280x720))
                  :: vkCreateFramebuffer (hd VK_SUCCESS (pending out_of_memory))
                       (render_pass_ one_image_target) 2
                       (Int.to_uint32 (width screen_1280x720))
                       (Int.to_uint32 (height screen_1280x720)) 3
                  :: vkDestroyFramebuffer 3 :: calls out_of_memory.
Proof.
  apply (failed_framebuffer_creation fresh_globals one_image_target screen_1280x720 500
           out_of_memory 3 2).
  - vm_compute. lia.
  - reflexivity.
  - reflexivity.
  - vm_compute. discriminate.
  - reflexivity.
Defined.

Lemma destructor_releases_what_is_held_witness :
  exists d',
    Lifecycle.VulkanRenderer_dtor (mkPlugin (fst frame_target3) None) (snd frame_target3)
    = Ok (tt, d')
    /\ history watch d'
       = history watch (snd frame_target3)
         ++ flat_map image_dropped (zip (frame_buffers_ (fst frame_target3))
                                        (swapchain_views_ (fst frame_target3)))
         ++ [DroppedRenderPass (render_pass_ (fst frame_target3))]
    /\ only_destroyed (snd frame_target3) d'
    /\ forall h, h ∈ frame_buffers_ (fst frame_target3)
                 \/ h ∈ swapchain_views_ (fst frame_target3)
                 \/ h = render_pass_ (fst frame_target3) ->
                 objects d' !! h = None.
Proof.
  apply (destructor_releases_what_is_held (fst frame_target3) (snd frame_target3)).
  vm_compute. split; reflexivity.
Defined.

Lemma no_framebuffer_outlives_the_manager_witness :
  exists r d1 r' d2 d3,
    VulkanRenderer_ctor garbage true fresh_globals driver3 = Ok (r, d1)
    /\ run_frames fresh_globals frames_in_turn r d1 = Ok (r', d2)
    /\ Lifecycle.VulkanRenderer_dtor (mkPlugin r' None) d2 = Ok (tt, d3)
    /\ no_framebuffer d3.
Proof.
  apply (no_framebuffer_outlives_the_manager garbage fresh_globals frames_in_turn driver3).
  - vm_compute. reflexivity.
  - intros h rp view w ht. simpl. rewrite lookup_empty. discriminate.
  - reflexivity.
  - repeat constructor; vm_compute; lia.
Defined.

Lemma CreateBuffer_without_suitable_memory_witness :
  exists b m d' res rest,
    CreateBuffer 64 VK_BUFFER_USAGE_VERTEX_BUFFER_BIT host_visible_coherent 0 0
      no_memory_types = Ok ((b, m), d')
    /\ calls d' = vkBindBufferMemory b m :: vkAllocateMemory res 64 0 m :: rest
    /\ "Failed to find suitable memory type!"%string ∈ errors d'.
Proof.
  apply (CreateBuffer_without_suitable_memory 64 VK_BUFFER_USAGE_VERTEX_BUFFER_BIT
           host_visible_coherent 0 0 no_memory_types).
  intros j (_ & _ & flags & Hl & _). simpl in Hl. rewrite lookup_nil in Hl. discriminate.
Defined.

Lemma vertex_buffer_index_checked_too_late_witness :
  CreateVertexBuffer no_widgets_renderer [] 0 driver3
  = Ok (no_widgets_renderer,
        log_error "Index is bigger than the buffers vector size." driver3)
  /\ UpdateVertexBuffer Math.Lerp no_widgets_renderer widget_100x50 screen_1280x720 0 driver3
     = Undefined (OutOfBounds "vertex_buffers_" 0 (length (vertex_buffers_ no_widgets_renderer))).
Proof.
  apply (vertex_buffer_index_checked_too_late Math.Lerp no_widgets_renderer []
           widget_100x50 screen_1280x720 0 driver3).
  simpl. lia.
Defined.

Lemma no_widget_object_outlives_the_renderer_witness :
  exists r d1 r' d2 d3,
    VulkanWidgetsRenderer_ctor widgets_garbage true driver3 = Ok (r, d1)
    /\ render_frames Math.Lerp (one_widget_first :: two_widgets_then) r d1 = Ok (r', d2)
    /\ VulkanWidgetsRenderer_dtor r' d2 = Ok (tt, d3)
    /\ no_widget_object d3.
Proof.
  apply (no_widget_object_outlives_the_renderer (host_images driver3) Math.Lerp
           widgets_garbage true one_widget_first two_widgets_then driver3).
  - vm_compute. reflexivity.
  - intros h o Hl. simpl in Hl. rewrite lookup_empty in Hl. discriminate.
  - split; [constructor|reflexivity].
  - repeat constructor; try discriminate; vm_compute; eauto.
  - reflexivity.
Defined.

Lemma RenderWidgets_history_witness :
  exists r' d',
    RenderWidgets Math.Lerp (fst widgets_renderer) screen_1280x720
      [widget_100x50; widget_other] 500 900 (snd widgets_renderer) = Ok (r', d')
    /\ calm (host_images driver3) d'
    /\ history see d'
       = history see (snd widgets_renderer)
         ++ rendered Math.Lerp (host_images driver3) (fst widgets_renderer) r'
              screen_1280x720 [widget_100x50; widget_other] 500 900
    /\ after_render (fst widgets_renderer) 900 (length [widget_100x50; widget_other]) r'.
Proof.
  apply (RenderWidgets_history Math.Lerp (host_images driver3) (fst widgets_renderer)
           screen_1280x720 [widget_100x50; widget_other] 500 900 (snd widgets_renderer)).
  - vm_compute. split; [constructor|reflexivity].
  - repeat constructor; try discriminate; vm_compute; eauto.
Defined.

Lemma pipeline_rebuilt_on_each_change_witness :
  let n := changes (current_render_pass_ (fst widgets_renderer))
             (call_render_pass <$> there_and_back) in
  exists r' d',
    render_frames Math.Lerp there_and_back (fst widgets_renderer) (snd widgets_renderer)
    = Ok (r', d')
    /\ count is_pipeline_creation (calls d')
       = (count is_pipeline_creation (calls (snd widgets_renderer)) + n)%nat
    /\ (count is_pipeline_destruction (calls (snd widgets_renderer))
        <= count is_pipeline_destruction (calls d')
        <= count is_pipeline_destruction (calls (snd widgets_renderer)) + n)%nat
    /\ (pending (snd widgets_renderer) = [] -> 0 < next_handle (snd widgets_renderer) ->
        count is_pipeline_destruction (calls d')
        = (count is_pipeline_destruction (calls (snd widgets_renderer))
           + (n - (if (graphics_pipeline_ (fst widgets_renderer) =? VK_NULL_HANDLE)%Z
                   then 1%nat else 0%nat)))%nat).
Proof.
  apply (pipeline_rebuilt_on_each_change Math.Lerp (host_images driver3) there_and_back
           (fst widgets_renderer) (snd widgets_renderer)).
  - vm_compute. split; [constructor|reflexivity].
  - repeat constructor; try discriminate; vm_compute; eauto.
Defined.

Lemma descriptor_pools_pile_up_witness :
  exists r' d',
    render_frames Math.Lerp there_and_back (fst widgets_renderer) (snd widgets_renderer)
    = Ok (r', d')
    /\ count is_pool_creation (calls d')
       = (length there_and_back + count is_pool_creation (calls (snd widgets_renderer)))%nat
    /\ count is_pool_destruction (calls d')
       = count is_pool_destruction (calls (snd widgets_renderer)).
Proof.
  apply (descriptor_pools_pile_up Math.Lerp (host_images driver3) there_and_back
           (fst widgets_renderer) (snd widgets_renderer)).
  - vm_compute. split; [constructor|reflexivity].
  - repeat constructor; try discriminate; vm_compute; eauto.
Defined.

Lemma destructor_after_rendering_witness :
  exists r' d' d'',
    render_frames Math.Lerp (one_widget_first :: two_widgets_then) (fst widgets_renderer)
      (snd widgets_renderer) = Ok (r', d')
    /\ VulkanWidgetsRenderer_dtor r' d' = Ok (tt, d'')
    /\ count is_pool_creation (calls d'')
       = (S (length two_widgets_then)
          + count is_pool_creation (calls (snd widgets_renderer)))%nat
    /\ count is_pool_destruction (calls d'')
       = (1 + count is_pool_destruction (calls (snd widgets_renderer)))%nat.
Proof.
  apply (destructor_after_rendering Math.Lerp (host_images driver3) one_widget_first
           two_widgets_then (fst widgets_renderer) (snd widgets_renderer)).
  - vm_compute. split; [constructor|reflexivity].
  - repeat constructor; try discriminate; vm_compute; eauto.
Defined.

Lemma first_frame_after_construction_witness :
  exists r d1 r' d2,
    VulkanWidgetsRenderer_ctor widgets_garbage true driver3 = Ok (r, d1)
    /\ RenderWidgets Math.Lerp r screen_1280x720 [widget_100x50] 500 900 d1 = Ok (r', d2)
    /\ history see d2
       = history see d1
         ++ rendered Math.Lerp (host_images driver3) r r' screen_1280x720
              [widget_100x50] 500 900
    /\ pipeline_rebuilt r r' 900
       = (if 900 =? Widgets.some_render_pass widgets_garbage then []
          else [SeenPipeline (pipeline_layout_ r') 900 (graphics_pipeline_ r')])
    /\ (900 = Widgets.some_render_pass widgets_garbage ->
        graphics_pipeline_ r' = VK_NULL_HANDLE)
    /\ forall i w,
         last (widget_drawn (host_images driver3) r' 500 screen_1280x720 i w)
         = Some (SeenDraw 500 6 1 0 0 0).
Proof.
  apply (first_frame_after_construction Math.Lerp (host_images driver3) widgets_garbage
           screen_1280x720 [widget_100x50] 500 900 driver3).
  - split; [constructor|reflexivity].
  - repeat constructor; try discriminate; vm_compute; eauto.
Defined.
